(** * TitanCompute coordinator: registry, MCDA scheduler, session tokens

    A shallow embedding of the coordinator packages
    [coordinator/pkg/registry], [coordinator/pkg/scheduler] and
    [coordinator/pkg/server], followed by the properties of the
    specification that are settled on it.

    Conventions.
    - Go's [int32] and [int64] are [Z] with the two's-complement wrap-around
      written out ([wrap32], [wrap64]).
    - Go's [float64] is the kernel's binary64 type [PrimFloat.float], so the
      scores are computed bit for bit as the Go program computes them.
    - A [time.Time] is a number of nanoseconds on one time line ([Z]); a
      [time.Duration] is an [int64] count of nanoseconds.
    - The registry's [map[string]*AgentInfo] is a [gmap string AgentInfo];
      a mutation through the stored pointer is an update of the map at that
      key.  The order in which a [range] loop visits the map is not fixed by
      Go, so every function that ranges over the map takes the visiting
      order as an argument. *)

From Stdlib Require Import ZArith Lia PrimFloat Uint63 Sorted.
From stdpp Require Import gmap strings list.

Local Open Scope Z_scope.

(* Decimal constants such as 0.9 denote, in Go as here, the nearest binary64
   value. *)
Set Warnings "-inexact-float".

(** ** Go primitives *)

Module Go.

Definition wrap (bits : Z) (z : Z) : Z :=
  (z + 2 ^ (bits - 1)) mod 2 ^ bits - 2 ^ (bits - 1).

Definition wrap32 : Z -> Z := wrap 32.
Definition wrap64 : Z -> Z := wrap 64.

Definition maxInt32 : Z := 2 ^ 31 - 1.
Definition minInt64 : Z := - 2 ^ 63.
Definition maxInt64 : Z := 2 ^ 63 - 1.

(** [float64(x)] for an [int64] x: rounding to nearest, ties to even. *)
Definition float64_of_int (z : Z) : float :=
  if z =? minInt64 then PrimFloat.opp (PrimFloat.ldshiftexp 1%float (63 + 2101)%uint63)
  else if 0 <=? z then PrimFloat.of_uint63 (Uint63.of_Z z)
  else PrimFloat.opp (PrimFloat.of_uint63 (Uint63.of_Z (- z))).

(** [x > y] on float64. *)
Definition fgt (x y : float) : bool := PrimFloat.ltb y x.

(** [math.Max], with its special cases. *)
Definition math_Max (x y : float) : float :=
  if PrimFloat.eqb x infinity || PrimFloat.eqb y infinity then infinity
  else if PrimFloat.is_nan x || PrimFloat.is_nan y then nan
  else if PrimFloat.eqb x 0%float && PrimFloat.eqb x y
       then (if PrimFloat.get_sign x then y else x)
  else if fgt x y then x else y.

(** [math.Min], with its special cases. *)
Definition math_Min (x y : float) : float :=
  if PrimFloat.eqb x neg_infinity || PrimFloat.eqb y neg_infinity then neg_infinity
  else if PrimFloat.is_nan x || PrimFloat.is_nan y then nan
  else if PrimFloat.eqb x 0%float && PrimFloat.eqb x y
       then (if PrimFloat.get_sign x then x else y)
  else if PrimFloat.ltb x y then x else y.

(** *** package time *)

Definition Time := Z.
Definition Duration := Z.

(** The time line starts at the Unix epoch; the zero value of
    [time.Time] is midnight of January 1 of year 1, UTC. *)
Definition zeroTime : Time := -62135596800 * 1000000000.

Definition Nanosecond : Duration := 1.
Definition Millisecond : Duration := 1000000.
Definition Second : Duration := 1000000000.

(** [t.Add(d)] *)
Definition Add (t : Time) (d : Duration) : Time := t + d.

(** [t.Sub(u)]: the difference, saturated to the range of a Duration. *)
Definition Sub (t u : Time) : Duration :=
  Z.max minInt64 (Z.min maxInt64 (t - u)).

(** [t.After(u)] and [t.Before(u)] are strict. *)
Definition After (t u : Time) : bool := u <? t.
Definition Before (t u : Time) : bool := t <? u.

(** [t.Truncate(d)] for a positive [d]: round down to a multiple of [d]. *)
Definition Truncate (t : Time) (d : Duration) : Time := t - t mod d.

(** [t.Unix()]: whole seconds. *)
Definition Unix (t : Time) : Z := t / Second.

(** The Go convention [(value, error)] for a call that either yields a
    value or an error message. *)
Inductive result (A : Type) : Type :=
| Ok (a : A)
| Err (msg : string).
Global Arguments Ok {A} a.
Global Arguments Err {A} msg.

(** *** package strconv *)

Definition digits36 : list Ascii.ascii :=
  String.list_ascii_of_string "0123456789abcdefghijklmnopqrstuvwxyz".

Definition digit36 (d : Z) : Ascii.ascii := nth (Z.to_nat d) digits36 Ascii.zero.

(** The digit loop of [strconv.FormatInt] for base 36, writing the digits
    of [u] in front of [acc], least significant first.  The fuel bounds
    the number of digits; an [int64] has at most thirteen. *)
Fixpoint formatBits36 (fuel : nat) (u : Z) (acc : string) : string :=
  match fuel with
  | O => acc
  | S fuel' =>
      let acc := String (digit36 (u mod 36)) acc in
      if u / 36 =? 0 then acc else formatBits36 fuel' (u / 36) acc
  end.

(** [strconv.FormatInt(i, 36)] *)
Definition FormatInt36 (i : Z) : string :=
  if i <? 0 then "-" +:+ formatBits36 64 (- i) ""
  else formatBits36 64 i "".

(** [t.UnixNano()] *)
Definition UnixNano (t : Time) : Z := t.

End Go.
Import Go.

(** ** package registry *)

Module registry.

(** [AgentStatus] is a string type with four named constants.
    [StatusNone] is its zero value, the empty string, which a freshly
    allocated [AgentInfo] carries until [Register] stamps it. *)
Inductive AgentStatus : Set :=
| StatusHealthy
| StatusDegraded
| StatusHalfOpen
| StatusOffline
| StatusNone.

Global Instance AgentStatus_eq_dec : EqDecision AgentStatus.
Proof. solve_decision. Defined.

Record AgentInfo : Type := mkAgentInfo {
  ID : string;
  Endpoint : string;
  TotalVRAMMB : Z;
  TotalRAMMB : Z;
  MaxJobs : Z;
  SupportedModels : list string;
  Capabilities : gmap string string;
  (* runtime metrics *)
  FreeVRAMMB : Z;
  FreeRAMMB : Z;
  RunningJobs : Z;
  QueuedJobs : Z;
  CPUPercent : float;
  RTTMs : float;
  LastHeartbeat : Time;
  (* status and circuit breaker *)
  Status : AgentStatus;
  RegisteredAt : Time;
  FailureCount : Z;
  LastFailureTime : Time;
  NextRetryTime : Time;
  SuccessCount : Z
}.

Record HealthStats : Type := mkHealthStats {
  hs_AgentID : string;
  hs_FreeVRAMMB : Z;
  hs_FreeRAMMB : Z;
  hs_RunningJobs : Z;
  hs_QueuedJobs : Z;
  hs_CPUPercent : float;
  hs_RTTMs : float;
  hs_Timestamp : Z
}.

Record CircuitBreakerConfig : Type := mkCircuitBreakerConfig {
  FailureThreshold : Z;
  RecoveryTimeout : Duration;
  SuccessThreshold : Z;
  HalfOpenTimeout : Duration
}.

Definition DefaultCircuitBreakerConfig : CircuitBreakerConfig :=
  {| FailureThreshold := 3;
     RecoveryTimeout := 30 * Second;
     SuccessThreshold := 2;
     HalfOpenTimeout := 10 * Second |}.

Record InMemoryRegistry : Type := mkInMemoryRegistry {
  agents : gmap string AgentInfo;
  heartbeatTimeout : Duration;
  cleanupInterval : Duration;
  circuitConfig : CircuitBreakerConfig
}.

Definition NewInMemoryRegistry (heartbeatTimeout : Duration) : InMemoryRegistry :=
  {| agents := ∅;
     heartbeatTimeout := heartbeatTimeout;
     cleanupInterval := 60 * Second;
     circuitConfig := DefaultCircuitBreakerConfig |}.

(** *** Field assignments *)

Definition set_Status (a : AgentInfo) (s : AgentStatus) : AgentInfo :=
  mkAgentInfo (ID a) (Endpoint a) (TotalVRAMMB a) (TotalRAMMB a) (MaxJobs a)
    (SupportedModels a) (Capabilities a) (FreeVRAMMB a) (FreeRAMMB a)
    (RunningJobs a) (QueuedJobs a) (CPUPercent a) (RTTMs a) (LastHeartbeat a)
    s (RegisteredAt a) (FailureCount a) (LastFailureTime a)
    (NextRetryTime a) (SuccessCount a).

Definition set_RegisteredAt (a : AgentInfo) (t : Time) : AgentInfo :=
  mkAgentInfo (ID a) (Endpoint a) (TotalVRAMMB a) (TotalRAMMB a) (MaxJobs a)
    (SupportedModels a) (Capabilities a) (FreeVRAMMB a) (FreeRAMMB a)
    (RunningJobs a) (QueuedJobs a) (CPUPercent a) (RTTMs a) (LastHeartbeat a)
    (Status a) t (FailureCount a) (LastFailureTime a)
    (NextRetryTime a) (SuccessCount a).

Definition set_LastHeartbeat (a : AgentInfo) (t : Time) : AgentInfo :=
  mkAgentInfo (ID a) (Endpoint a) (TotalVRAMMB a) (TotalRAMMB a) (MaxJobs a)
    (SupportedModels a) (Capabilities a) (FreeVRAMMB a) (FreeRAMMB a)
    (RunningJobs a) (QueuedJobs a) (CPUPercent a) (RTTMs a) t
    (Status a) (RegisteredAt a) (FailureCount a) (LastFailureTime a)
    (NextRetryTime a) (SuccessCount a).

Definition set_FailureCount (a : AgentInfo) (n : Z) : AgentInfo :=
  mkAgentInfo (ID a) (Endpoint a) (TotalVRAMMB a) (TotalRAMMB a) (MaxJobs a)
    (SupportedModels a) (Capabilities a) (FreeVRAMMB a) (FreeRAMMB a)
    (RunningJobs a) (QueuedJobs a) (CPUPercent a) (RTTMs a) (LastHeartbeat a)
    (Status a) (RegisteredAt a) n (LastFailureTime a)
    (NextRetryTime a) (SuccessCount a).

Definition set_LastFailureTime (a : AgentInfo) (t : Time) : AgentInfo :=
  mkAgentInfo (ID a) (Endpoint a) (TotalVRAMMB a) (TotalRAMMB a) (MaxJobs a)
    (SupportedModels a) (Capabilities a) (FreeVRAMMB a) (FreeRAMMB a)
    (RunningJobs a) (QueuedJobs a) (CPUPercent a) (RTTMs a) (LastHeartbeat a)
    (Status a) (RegisteredAt a) (FailureCount a) t
    (NextRetryTime a) (SuccessCount a).

Definition set_NextRetryTime (a : AgentInfo) (t : Time) : AgentInfo :=
  mkAgentInfo (ID a) (Endpoint a) (TotalVRAMMB a) (TotalRAMMB a) (MaxJobs a)
    (SupportedModels a) (Capabilities a) (FreeVRAMMB a) (FreeRAMMB a)
    (RunningJobs a) (QueuedJobs a) (CPUPercent a) (RTTMs a) (LastHeartbeat a)
    (Status a) (RegisteredAt a) (FailureCount a) (LastFailureTime a)
    t (SuccessCount a).

Definition set_SuccessCount (a : AgentInfo) (n : Z) : AgentInfo :=
  mkAgentInfo (ID a) (Endpoint a) (TotalVRAMMB a) (TotalRAMMB a) (MaxJobs a)
    (SupportedModels a) (Capabilities a) (FreeVRAMMB a) (FreeRAMMB a)
    (RunningJobs a) (QueuedJobs a) (CPUPercent a) (RTTMs a) (LastHeartbeat a)
    (Status a) (RegisteredAt a) (FailureCount a) (LastFailureTime a)
    (NextRetryTime a) n.

(** The seven assignments at the head of [UpdateHealth]. *)
Definition set_metrics (a : AgentInfo) (stats : HealthStats) (now : Time) : AgentInfo :=
  mkAgentInfo (ID a) (Endpoint a) (TotalVRAMMB a) (TotalRAMMB a) (MaxJobs a)
    (SupportedModels a) (Capabilities a)
    (hs_FreeVRAMMB stats) (hs_FreeRAMMB stats)
    (hs_RunningJobs stats) (hs_QueuedJobs stats)
    (hs_CPUPercent stats) (hs_RTTMs stats) now
    (Status a) (RegisteredAt a) (FailureCount a) (LastFailureTime a)
    (NextRetryTime a) (SuccessCount a).

Definition with_agents (r : InMemoryRegistry) (m : gmap string AgentInfo) : InMemoryRegistry :=
  {| agents := m;
     heartbeatTimeout := heartbeatTimeout r;
     cleanupInterval := cleanupInterval r;
     circuitConfig := circuitConfig r |}.

(** *** Operations

    Every operation takes the clock readings of its [time.Now()] calls as
    arguments, in the order of the calls. *)

Definition Register (r : InMemoryRegistry) (agent : AgentInfo) (now1 now2 : Time)
  : InMemoryRegistry :=
  let agent := set_RegisteredAt agent now1 in
  let agent := set_LastHeartbeat agent now2 in
  let agent := set_Status agent StatusHealthy in
  with_agents r (<[ID agent := agent]> (agents r)).

Definition Deregister (r : InMemoryRegistry) (agentID : string)
  : result InMemoryRegistry :=
  match agents r !! agentID with
  | None => Err ("agent " +:+ agentID +:+ " not found")
  | Some _ => Ok (with_agents r (delete agentID (agents r)))
  end.

(** The status update of [UpdateHealth], on the record that already
    carries the new metrics. *)
Definition healthStatus (agent : AgentInfo) : AgentInfo :=
  if bool_decide (Status agent = StatusHealthy) || bool_decide (Status agent = StatusDegraded) then
    let vramUtilization :=
      PrimFloat.div (float64_of_int (wrap64 (TotalVRAMMB agent - FreeVRAMMB agent)))
                    (float64_of_int (TotalVRAMMB agent)) in
    if fgt vramUtilization 0.9%float || fgt (CPUPercent agent) 90%float
       || (FreeVRAMMB agent <? 512) then
      if bool_decide (Status agent = StatusHealthy)
      then set_Status agent StatusDegraded
      else agent
    else if bool_decide (Status agent = StatusDegraded)
            && PrimFloat.ltb vramUtilization 0.7%float
            && PrimFloat.ltb (CPUPercent agent) 70%float then
      set_Status agent StatusHealthy
    else agent
  else agent.

Definition UpdateHealth (r : InMemoryRegistry) (agentID : string)
    (stats : HealthStats) (now : Time) : result InMemoryRegistry :=
  match agents r !! agentID with
  | None => Err ("agent " +:+ agentID +:+ " not registered")
  | Some agent =>
      let agent := set_metrics agent stats now in
      Ok (with_agents r (<[agentID := healthStatus agent]> (agents r)))
  end.

Definition GetAgent (r : InMemoryRegistry) (agentID : string) : result AgentInfo :=
  match agents r !! agentID with
  | None => Err ("agent " +:+ agentID +:+ " not found")
  | Some agent => Ok agent
  end.

(** [visit] is the sequence of records in the order the [range] loop
    meets them; it is a visiting order of [r] when [range_of r visit]. *)
Definition range_of (r : InMemoryRegistry) (visit : list AgentInfo) : Prop :=
  visit ≡ₚ (map_to_list (agents r)).*2.

Definition ListHealthyAgents (visit : list AgentInfo) : list AgentInfo :=
  List.filter (fun agent => bool_decide (Status agent = StatusHealthy)) visit.

Definition ListAllAgents (visit : list AgentInfo) : list AgentInfo := visit.

Definition GetStats (r : InMemoryRegistry) : Z * Z :=
  (Z.of_nat (size (agents r)),
   Z.of_nat (size (filter (fun kv => Status kv.2 = StatusHealthy) (agents r)))).

Definition RecordSuccess (r : InMemoryRegistry) (agentID : string)
  : result InMemoryRegistry :=
  match agents r !! agentID with
  | None => Err ("agent " +:+ agentID +:+ " not found")
  | Some agent =>
      let agent := set_SuccessCount agent (wrap32 (SuccessCount agent + 1)) in
      let agent := set_FailureCount agent 0 in
      let agent :=
        if bool_decide (Status agent = StatusHalfOpen)
           && (SuccessThreshold (circuitConfig r) <=? SuccessCount agent)
        then set_SuccessCount (set_Status agent StatusHealthy) 0
        else agent in
      Ok (with_agents r (<[agentID := agent]> (agents r)))
  end.

Definition RecordFailure (r : InMemoryRegistry) (agentID : string)
    (now1 now2 : Time) : result InMemoryRegistry :=
  match agents r !! agentID with
  | None => Err ("agent " +:+ agentID +:+ " not found")
  | Some agent =>
      let agent := set_FailureCount agent (wrap32 (FailureCount agent + 1)) in
      let agent := set_LastFailureTime agent now1 in
      let agent := set_SuccessCount agent 0 in
      let agent :=
        if FailureThreshold (circuitConfig r) <=? FailureCount agent
        then set_NextRetryTime (set_Status agent StatusOffline)
               (Add now2 (RecoveryTimeout (circuitConfig r)))
        else agent in
      Ok (with_agents r (<[agentID := agent]> (agents r)))
  end.

Definition GetCircuitState (r : InMemoryRegistry) (agentID : string)
  : result AgentStatus :=
  match agents r !! agentID with
  | None => Err ("agent " +:+ agentID +:+ " not found")
  | Some agent => Ok (Status agent)
  end.

Definition updateCircuitBreakerState (cfg : CircuitBreakerConfig)
    (agent : AgentInfo) (now : Time) : AgentInfo :=
  match Status agent with
  | StatusOffline =>
      if After now (NextRetryTime agent)
      then set_NextRetryTime (set_Status agent StatusHalfOpen)
             (Add now (HalfOpenTimeout cfg))
      else agent
  | StatusHalfOpen =>
      if After now (NextRetryTime agent)
      then set_NextRetryTime (set_Status agent StatusOffline)
             (Add now (RecoveryTimeout cfg))
      else agent
  | StatusDegraded =>
      if (2048 <? FreeVRAMMB agent) && PrimFloat.ltb (CPUPercent agent) 80%float
      then set_FailureCount (set_Status agent StatusHealthy) 0
      else agent
  | _ => agent
  end.

(** The body of the first loop of [cleanupStaleAgents] for one record:
    the record after the loop body, and whether its id was appended to
    [staleAgents]. *)
Definition cleanupVisit (r : InMemoryRegistry) (now : Time) (agent : AgentInfo)
  : AgentInfo * bool :=
  let stale := heartbeatTimeout r <? Sub now (LastHeartbeat agent) in
  let agent := if stale then set_Status agent StatusOffline else agent in
  (updateCircuitBreakerState (circuitConfig r) agent now, stale).

(** [cleanupStaleAgents]: each record is visited once and independently
    of the others, then the stale ones are deleted. *)
Definition cleanupStaleAgents (r : InMemoryRegistry) (now : Time) : InMemoryRegistry :=
  with_agents r
    (omap (fun agent =>
             let '(agent', stale) := cleanupVisit r now agent in
             if stale then None else Some agent')
          (agents r)).


End registry.

Import registry.

(** ** package sort

    [sort.Slice] promises a permutation of its input that is ordered by
    [less]; it is not stable.  The scheduler is written against that
    contract, so it takes the sorting function as an argument.  With the Go
    toolchain of [go.mod] (1.24), [sort.Slice] runs
    [insertionSortLessFunc] on slices of at most twelve elements, which is
    the instance used to evaluate the scheduler on concrete registries. *)

Module sort.

Section InsertionSort.
Context {A : Type} (less : A -> A -> bool).

(** The inner loop: [x] sits right after the ordered prefix, whose
    elements are given last first, and is swapped towards the front
    while [less x previous]. *)
Fixpoint sift (x : A) (rprefix : list A) : list A :=
  match rprefix with
  | [] => [x]
  | y :: rest => if less x y then y :: sift x rest else x :: rprefix
  end.

(** The outer loop over the elements still to insert. *)
Fixpoint insertionLoop (rprefix : list A) (todo : list A) : list A :=
  match todo with
  | [] => rev rprefix
  | x :: todo' => insertionLoop (sift x rprefix) todo'
  end.

Definition insertionSortLessFunc (data : list A) : list A :=
  insertionLoop [] data.

(** The order kept in the reversed prefix: an element inserted later is
    never ahead, by [less], of one inserted earlier. *)
Definition later_ok (later earlier : A) : Prop := less later earlier = false.
End InsertionSort.

End sort.

(** ** package scheduler *)

Module scheduler.

Record MCDAWeights : Type := mkMCDAWeights {
  VRAMWeight : float;
  JobLoadWeight : float;
  LatencyWeight : float;
  PerformanceWeight : float
}.

Definition DefaultMCDAWeights : MCDAWeights :=
  {| VRAMWeight := 0.40%float;
     JobLoadWeight := 0.30%float;
     LatencyWeight := 0.20%float;
     PerformanceWeight := 0.10%float |}.

Record AgentScore : Type := mkAgentScore {
  Agent : AgentInfo;
  Score : float;
  VRAMScore : float;
  LoadScore : float;
  RTTScore : float;
  PerfScore : float
}.

(** The scheduler reaches the registry through the [Registry] interface;
    the functions below take what [ListHealthyAgents] needs instead. *)
Record MCDAScheduler : Type := mkMCDAScheduler {
  weights : MCDAWeights;
  perfHistory : gmap string float
}.

Definition NewMCDAScheduler : MCDAScheduler :=
  {| weights := DefaultMCDAWeights; perfHistory := ∅ |}.

(** [model[len(model)-n:]] *)
Definition tail_from (n : nat) (model : string) : string :=
  String.substring (String.length model - n) n model.

Definition estimateModelVRAMRequirement (model : string) : Z :=
  if String.eqb model "" then 4096
  else if (10 <? String.length model)%nat then
    if String.eqb (tail_from 3 model) "1B" || String.eqb (tail_from 2 model) "1B" then 2048
    else if String.eqb (tail_from 3 model) "7B" || String.eqb (tail_from 2 model) "7B" then 6144
    else if String.eqb (tail_from 4 model) "13B" || String.eqb (tail_from 3 model) "13B" then 10240
    else 4096
  else 4096.

Definition supportsModel (agent : AgentInfo) (model : string) : bool :=
  if bool_decide (Status agent = StatusOffline) then false
  else if FreeVRAMMB agent <? estimateModelVRAMRequirement model then false
  else if MaxJobs agent <=? RunningJobs agent then false
  else if (0 <? length (SupportedModels agent))%nat
       then existsb (fun supportedModel => String.eqb supportedModel model)
              (SupportedModels agent)
  else true.

(** The weighted sum is evaluated operation by operation, each rounded to
    binary64 (no fused multiply-add). *)
Definition calculateMCDAScore (s : MCDAScheduler) (agent : AgentInfo) : AgentScore :=
  let vramUtilization :=
    PrimFloat.div (float64_of_int (wrap64 (TotalVRAMMB agent - FreeVRAMMB agent)))
                  (math_Max (float64_of_int (TotalVRAMMB agent)) 1%float) in
  let vramScore := PrimFloat.sub 1%float vramUtilization in
  let loadUtilization :=
    PrimFloat.div (float64_of_int (RunningJobs agent))
                  (math_Max (float64_of_int (MaxJobs agent)) 1%float) in
  let loadScore := PrimFloat.sub 1%float loadUtilization in
  let normalizedRTT := math_Min (PrimFloat.div (RTTMs agent) 500%float) 1%float in
  let rttScore := PrimFloat.sub 1%float normalizedRTT in
  let perfScore :=
    match perfHistory s !! ID agent with
    | Some avgPerf => math_Min (PrimFloat.div avgPerf 100%float) 1%float
    | None => 0.5%float
    end in
  {| Agent := agent;
     Score :=
       PrimFloat.add
         (PrimFloat.add
            (PrimFloat.add (PrimFloat.mul vramScore (VRAMWeight (weights s)))
                           (PrimFloat.mul loadScore (JobLoadWeight (weights s))))
            (PrimFloat.mul rttScore (LatencyWeight (weights s))))
         (PrimFloat.mul perfScore (PerformanceWeight (weights s)));
     VRAMScore := vramScore;
     LoadScore := loadScore;
     RTTScore := rttScore;
     PerfScore := perfScore |}.

Definition scaleScore (sc : AgentScore) (k : float) : AgentScore :=
  {| Agent := Agent sc;
     Score := PrimFloat.mul (Score sc) k;
     VRAMScore := VRAMScore sc;
     LoadScore := LoadScore sc;
     RTTScore := RTTScore sc;
     PerfScore := PerfScore sc |}.

Definition UpdatePerformanceHistory (s : MCDAScheduler) (agentID : string)
    (tokensPerSec : float) : MCDAScheduler :=
  {| weights := weights s;
     perfHistory :=
       match perfHistory s !! agentID with
       | Some current =>
           <[agentID := PrimFloat.div (PrimFloat.add current tokensPerSec) 2%float]>
             (perfHistory s)
       | None => <[agentID := tokensPerSec]> (perfHistory s)
       end |}.

(** The comparison handed to [sort.Slice]. *)
Definition byScoreDesc (x y : AgentScore) : bool := fgt (Score x) (Score y).

(** First loop of [SelectAgent]: filter and score. *)
Definition scoreCompatible (s : MCDAScheduler) (model : string)
    (agents : list AgentInfo) : list AgentScore :=
  flat_map
    (fun agent =>
       if supportsModel agent model then
         if bool_decide (Status agent = StatusHealthy)
            || bool_decide (Status agent = StatusHalfOpen) then
           let score := calculateMCDAScore s agent in
           let score :=
             if bool_decide (Status agent = StatusDegraded)
             then scaleScore score 0.5%float
             else score in
           [score]
         else []
       else [])
    agents.

(** Second loop of [SelectAgent]: any healthy agent. *)
Definition scoreAnyHealthy (s : MCDAScheduler) (agents : list AgentInfo)
  : list AgentScore :=
  flat_map
    (fun agent =>
       if bool_decide (Status agent = StatusHealthy)
       then [calculateMCDAScore s agent]
       else [])
    agents.

(** The candidates that reach [sort.Slice]. *)
Definition candidatesOf (s : MCDAScheduler) (model : string)
    (agents : list AgentInfo) : list AgentScore :=
  let candidates := scoreCompatible s model agents in
  if (length candidates =? 0)%nat then scoreAnyHealthy s agents else candidates.

(** [visit] is the order in which [ListHealthyAgents] ranges over the
    registry's map. *)
Definition SelectAgent
    (sort_Slice : (AgentScore -> AgentScore -> bool) -> list AgentScore -> list AgentScore)
    (s : MCDAScheduler) (visit : list AgentInfo) (model : string)
  : result AgentInfo :=
  let agents := ListHealthyAgents visit in
  if (length agents =? 0)%nat then Err "no healthy agents available"
  else
    let candidates := candidatesOf s model agents in
    if (length candidates =? 0)%nat then Err "no suitable agents available"
    else
      match sort_Slice byScoreDesc candidates with
      | selected :: _ => Ok (Agent selected)
      | [] => Err "panic: index out of range [0] with length 0"
      end.

(** *** The round-robin scheduler *)

Record RoundRobinScheduler : Type := mkRoundRobinScheduler {
  lastIndex : Z
}.

Definition NewRoundRobinScheduler : RoundRobinScheduler := {| lastIndex := -1 |}.

(** [supportsModel] of [RoundRobinScheduler]. *)
Definition RoundRobinScheduler_supportsModel (agent : AgentInfo) (model : string) : bool :=
  if FreeVRAMMB agent <? 1024 then false
  else if MaxJobs agent <=? RunningJobs agent then false
  else if (0 <? length (SupportedModels agent))%nat
       then existsb (fun supportedModel => String.eqb supportedModel model)
              (SupportedModels agent)
  else true.

(** The agents among which [RoundRobinScheduler.SelectAgent] rotates. *)
Definition compatibleOf (model : string) (agents : list AgentInfo) : list AgentInfo :=
  let compatible :=
    List.filter (fun agent => RoundRobinScheduler_supportsModel agent model) agents in
  if (length compatible =? 0)%nat then agents else compatible.

(** [SelectAgent] of [RoundRobinScheduler]: the selection and the scheduler
    with its new [lastIndex].  [%] is Go's remainder, which takes the sign
    of the dividend; indexing outside the slice panics. *)
Definition RoundRobinScheduler_SelectAgent (s : RoundRobinScheduler)
    (visit : list AgentInfo) (model : string)
  : result AgentInfo * RoundRobinScheduler :=
  let agents := ListHealthyAgents visit in
  if (length agents =? 0)%nat then (Err "no healthy agents available", s)
  else
    let compatible := compatibleOf model agents in
    let index := Z.rem (wrap64 (lastIndex s + 1)) (Z.of_nat (length compatible)) in
    let s' := {| lastIndex := index |} in
    match (if index <? 0 then None else nth_error compatible (Z.to_nat index)) with
    | Some selected => (Ok selected, s')
    | None => (Err "panic: index out of range", s')
    end.

(** [calls] consecutive selections over the same listing of the registry:
    the results in order, and the scheduler left behind. *)
Fixpoint RoundRobinScheduler_run (s : RoundRobinScheduler) (visit : list AgentInfo)
    (model : string) (calls : nat) : list (result AgentInfo) * RoundRobinScheduler :=
  match calls with
  | O => ([], s)
  | S calls' =>
      let '(res, s') := RoundRobinScheduler_SelectAgent s visit model in
      let '(more, s'') := RoundRobinScheduler_run s' visit model calls' in
      (res :: more, s'')
  end.

End scheduler.

(** ** package jwt (github.com/golang-jwt/jwt/v5), as the server uses it

    The library is not part of the repository.  What the server relies on
    is kept abstract where it is cryptography or encoding (the RS256
    signature over the encoded header and claims) and written out where it
    is arithmetic on the registered claims: [NewNumericDate] truncates a
    time to [TimePrecision], one second, so that the claim is a whole
    number of Unix seconds; the validator accepts a token at time [now]
    when [now] is before [exp] and not before [nbf].  An error carries the
    text of the library's sentinel error for its first cause, without the
    prefixes the library wraps it in. *)

Module jwt.

Record RegisteredClaims : Type := mkRegisteredClaims {
  Issuer : string;
  ExpiresAt : Time;
  NotBefore : Time;
  IssuedAt : Time;
  ID : string
}.

Definition TimePrecision : Duration := Second.

Definition NewNumericDate (t : Time) : Time := Truncate t TimePrecision.

(** The methods whose Go type is [*jwt.SigningMethodRSA]. *)
Definition isRSAMethod (alg : string) : bool :=
  String.eqb alg "RS256" || String.eqb alg "RS384" || String.eqb alg "RS512".

(** The RSA signing methods over claims of type [C]: key types, the
    signature type, signing (which may fail) and verification.  What is
    signed is the encoded header, which names the algorithm, followed by
    the encoded claims. *)
Class SigningMethodRSA (C : Type) : Type := {
  PrivateKey : Type;
  PublicKey : Type;
  Signature : Type;
  Public : PrivateKey -> PublicKey;
  Sign : PrivateKey -> string -> C -> result Signature;
  Verify : PublicKey -> string -> C -> Signature -> bool
}.

(** The signing methods are correct for a private key when every signature
    made with it verifies under the matching public key. *)
Definition sound_key {C} `{SigningMethodRSA C} (sk : PrivateKey) : Prop :=
  forall (alg : string) (c : C) (sig : Signature),
    isRSAMethod alg = true ->
    Sign sk alg c = Ok sig -> Verify (Public sk) alg c sig = true.

(** A compact token, decoded: header algorithm, claims, signature. *)
Record Token (C : Type) `{SigningMethodRSA C} : Type := mkToken {
  alg : string;
  claims : C;
  signature : Signature
}.
Global Arguments mkToken {C _} alg claims signature.
Global Arguments alg {C _} t.
Global Arguments claims {C _} t.
Global Arguments signature {C _} t.

(** [Validator.Validate] on the registered claims, default options. *)
Definition validateClaims (now : Time) (c : RegisteredClaims) : result unit :=
  if negb (Before now (ExpiresAt c)) then Err "token is expired"
  else if Before now (NotBefore c) then Err "token is not valid yet"
  else Ok tt.

End jwt.

(** ** package config *)

Module config.

Record Config : Type := mkConfig {
  Port : Z;
  HTTPPort : Z;
  HeartbeatTimeout : Duration;
  TokenTTL : Duration;
  CleanupInterval : Duration
}.

(** [Load] without environment overrides. *)
Definition defaults : Config :=
  {| Port := 50051;
     HTTPPort := 8080;
     HeartbeatTimeout := 30 * Second;
     TokenTTL := 60 * Second;
     CleanupInterval := 60 * Second |}.

End config.

(** ** package server *)

Module server.

Record JWTClaims : Type := mkJWTClaims {
  AgentID : string;
  ClientID : string;
  Model : string;
  Registered : jwt.RegisteredClaims
}.

(** gRPC status codes the handlers return. *)
Inductive Code : Set := InvalidArgument | Unavailable | Internal.

Inductive Reply (A : Type) : Type :=
| Response (a : A)
| StatusError (c : Code) (msg : string).
Global Arguments Response {A} a.
Global Arguments StatusError {A} c msg.

Record InferenceRequest : Type := mkInferenceRequest {
  ClientId : string;
  req_Model : string;
  Prompt : string;
  MaxTokens : Z
}.

Record AgentRegistration : Type := mkAgentRegistration {
  reg_AgentId : string;
  reg_Endpoint : string;
  reg_TotalVramMb : Z;
  reg_TotalRamMb : Z;
  reg_MaxJobs : Z;
  reg_SupportedModels : list string;
  reg_Capabilities : gmap string string
}.

(** The [AgentInfo] literal of [RegisterAgent]; the fields it leaves
    out hold their zero values. *)
Definition newAgentInfo (req : AgentRegistration) : AgentInfo :=
  {| registry.ID := reg_AgentId req;
     Endpoint := reg_Endpoint req;
     TotalVRAMMB := reg_TotalVramMb req;
     TotalRAMMB := reg_TotalRamMb req;
     MaxJobs := reg_MaxJobs req;
     SupportedModels := reg_SupportedModels req;
     Capabilities := reg_Capabilities req;
     FreeVRAMMB := reg_TotalVramMb req;
     FreeRAMMB := reg_TotalRamMb req;
     RunningJobs := 0;
     QueuedJobs := 0;
     CPUPercent := 0%float;
     RTTMs := 0%float;
     LastHeartbeat := zeroTime;
     Status := StatusNone;
     RegisteredAt := zeroTime;
     FailureCount := 0;
     LastFailureTime := zeroTime;
     NextRetryTime := zeroTime;
     SuccessCount := 0 |}.

(** [RegisterAgent], on the registry behind the server's [Registry]
    interface. *)
Definition RegisterAgent (r : InMemoryRegistry) (req : AgentRegistration)
    (now1 now2 : Time) : Reply unit * InMemoryRegistry :=
  if String.eqb (reg_AgentId req) "" then
    (StatusError InvalidArgument "agent_id is required", r)
  else if String.eqb (reg_Endpoint req) "" then
    (StatusError InvalidArgument "endpoint is required", r)
  else (Response tt, Register r (newAgentInfo req) now1 now2).

(** *** ReportHealth *)







(** *** QuerySystemStatus *)




(** *** REST: system status *)




(** [generateJobID], for the clock reading [now]. *)
Definition generateJobID (now : Time) : string :=
  "job_" +:+ FormatInt36 (UnixNano now).

Section WithSigningMethod.
Context `{RSA : jwt.SigningMethodRSA JWTClaims}.

Record JWTManager : Type := mkJWTManager {
  privateKey : jwt.PrivateKey;
  publicKey : jwt.PublicKey
}.

(** [NewJWTManager], for the key pair that [rsa.GenerateKey] drew. *)
Definition NewJWTManager (sk : jwt.PrivateKey) : JWTManager :=
  {| privateKey := sk; publicKey := jwt.Public sk |}.

(** The claims that [GenerateToken] builds; [now] is its clock reading
    and [id] the UUID it draws. *)
Definition mintClaims (now : Time) (id : string)
    (agentID clientID model : string) (ttl : Duration) : JWTClaims :=
  {| AgentID := agentID;
     ClientID := clientID;
     Model := model;
     Registered :=
       {| jwt.ID := id;
          jwt.IssuedAt := jwt.NewNumericDate now;
          jwt.ExpiresAt := jwt.NewNumericDate (Add now ttl);
          jwt.NotBefore := jwt.NewNumericDate now;
          jwt.Issuer := "titancompute-coordinator" |} |}.

Definition GenerateToken (j : JWTManager) (now : Time) (id : string)
    (agentID clientID model : string) (ttl : Duration)
  : result (jwt.Token JWTClaims) :=
  let claims := mintClaims now id agentID clientID model ttl in
  match jwt.Sign (privateKey j) "RS256" claims with
  | Ok sig => Ok (jwt.mkToken "RS256" claims sig)
  | Err e => Err e
  end.

(** [now] is the time at which the token is presented. *)
Definition ValidateToken (j : JWTManager) (now : Time)
    (token : jwt.Token JWTClaims) : result JWTClaims :=
  if negb (jwt.isRSAMethod (jwt.alg token)) then
    Err "failed to parse token: unexpected signing method"
  else if negb (jwt.Verify (publicKey j) (jwt.alg token) (jwt.claims token)
                  (jwt.signature token)) then
    Err "failed to parse token: signature is invalid"
  else
    match jwt.validateClaims now (Registered (jwt.claims token)) with
    | Err e => Err ("failed to parse token: " +:+ e)
    | Ok _ => Ok (jwt.claims token)
    end.

Record SessionToken : Type := mkSessionToken {
  st_ID : string;
  st_AgentID : string;
  st_ClientID : string;
  st_Model : string;
  st_IssuedAt : Time;
  st_ExpiresAt : Time;
  st_JWTToken : jwt.Token JWTClaims
}.

(** The fields of the server that the handlers read or write.  The
    registry and the scheduler are reached through interfaces; the
    handler below takes the scheduler's [SelectAgent] as a function. *)
Record CoordinatorServer : Type := mkCoordinatorServer {
  cfg : config.Config;
  tokens : gmap string SessionToken;
  jwtManager : JWTManager
}.

Definition with_tokens (s : CoordinatorServer) (m : gmap string SessionToken)
  : CoordinatorServer :=
  {| cfg := cfg s; tokens := m; jwtManager := jwtManager s |}.

(** What the environment delivers to one [RequestInference] call, in
    the order of the calls that consume it: the clock readings of
    [generateSessionToken] and [GenerateToken], and the UUIDs drawn for
    the token's [jti], the session token's id and the job id. *)
Record Draws : Type := mkDraws {
  now_session : Time;
  now_jwt : Time;
  uuid_jti : string;
  uuid_token : string;
  uuid_job : string
}.

Definition generateSessionToken (s : CoordinatorServer) (d : Draws)
    (agentID clientID model : string)
  : result SessionToken * CoordinatorServer :=
  let now := now_session d in
  match GenerateToken (jwtManager s) (now_jwt d) (uuid_jti d)
          agentID clientID model (config.TokenTTL (cfg s)) with
  | Err e => (Err ("failed to generate JWT token: " +:+ e), s)
  | Ok jwtToken =>
      let token :=
        {| st_ID := uuid_token d;
           st_AgentID := agentID;
           st_ClientID := clientID;
           st_Model := model;
           st_IssuedAt := now;
           st_ExpiresAt := Add now (config.TokenTTL (cfg s));
           st_JWTToken := jwtToken |} in
      (Ok token, with_tokens s (<[st_ID token := token]> (tokens s)))
  end.

Record InferenceResponse : Type := mkInferenceResponse {
  AgentEndpoint : string;
  SessionTokenJWT : jwt.Token JWTClaims;
  resp_ExpiresAt : Z;
  JobId : string;
  EstimatedRttMs : float;
  AgentId : string
}.

Definition RequestInference
    (SelectAgent : string -> result AgentInfo)
    (s : CoordinatorServer) (d : Draws) (req : InferenceRequest)
  : Reply InferenceResponse * CoordinatorServer :=
  if String.eqb (ClientId req) "" then
    (StatusError InvalidArgument "client_id is required", s)
  else if String.eqb (req_Model req) "" then
    (StatusError InvalidArgument "model is required", s)
  else if String.eqb (Prompt req) "" then
    (StatusError InvalidArgument "prompt is required", s)
  else
    match SelectAgent (req_Model req) with
    | Err _ => (StatusError Unavailable "no agents available", s)
    | Ok agent =>
        match generateSessionToken s d (registry.ID agent) (ClientId req) (req_Model req) with
        | (Err _, s') => (StatusError Internal "token generation failed", s')
        | (Ok token, s') =>
            let jobID := uuid_job d in
            (Response
               {| AgentEndpoint := Endpoint agent;
                  SessionTokenJWT := st_JWTToken token;
                  resp_ExpiresAt := Unix (st_ExpiresAt token);
                  JobId := jobID;
                  EstimatedRttMs := RTTMs agent;
                  AgentId := registry.ID agent |},
             s')
        end
    end.

(** [cleanupExpiredTokens], run at time [now] (a minute after the request
    that started it). *)
Definition cleanupExpiredTokens (s : CoordinatorServer) (now : Time) : CoordinatorServer :=
  with_tokens s
    (filter (fun entry => After now (st_ExpiresAt entry.2) = false) (tokens s)).

(** [CoordinatorServer.ValidateToken] *)
Definition CoordinatorServer_ValidateToken (s : CoordinatorServer) (now : Time)
    (token : jwt.Token JWTClaims) : result JWTClaims :=
  ValidateToken (jwtManager s) now token.

(** *** REST: inference request *)

Record InferenceRequestREST : Type := mkInferenceRequestREST {
  rest_ClientID : string;
  rest_Model : string;
  rest_Prompt : string;
  rest_MaxTokens : Z;
  rest_Temperature : float
}.

Record InferenceResponseREST : Type := mkInferenceResponseREST {
  rest_AgentEndpoint : string;
  rest_SessionToken : jwt.Token JWTClaims;
  rest_ExpiresAt : Z;
  rest_JobID : string;
  rest_EstimatedRTTMs : float;
  rest_AgentID : string
}.

Record ErrorResponseREST : Type := mkErrorResponseREST {
  err_Error : string;
  err_Code : Z;
  err_Message : string
}.

(** What a handler writes: the status code and the JSON body. *)
Inductive HTTPResponse : Type :=
| HTTPOk (body : InferenceResponseREST)
| HTTPError (body : ErrorResponseREST).

Definition StatusBadRequest : Z := 400.
Definition StatusInternalServerError : Z := 500.
Definition StatusServiceUnavailable : Z := 503.

Definition sendErrorResponse (statusCode : Z) (errorCode message : string) : HTTPResponse :=
  HTTPError {| err_Error := errorCode; err_Code := statusCode; err_Message := message |}.

(** [handleInferenceRequest].  [decoded] is what the JSON decoder made of
    the body ([None] when it failed); [d] delivers the clock readings and
    UUIDs of [generateSessionToken], [now_job] the clock reading of
    [generateJobID]. *)
Definition handleInferenceRequest
    (SelectAgent : string -> result AgentInfo)
    (s : CoordinatorServer) (d : Draws) (now_job : Time)
    (decoded : option InferenceRequestREST)
  : HTTPResponse * CoordinatorServer :=
  match decoded with
  | None =>
      (sendErrorResponse StatusBadRequest "invalid_json" "Invalid JSON in request body", s)
  | Some req =>
      if String.eqb (rest_ClientID req) "" then
        (sendErrorResponse StatusBadRequest "missing_client_id" "client_id is required", s)
      else if String.eqb (rest_Model req) "" then
        (sendErrorResponse StatusBadRequest "missing_model" "model is required", s)
      else if String.eqb (rest_Prompt req) "" then
        (sendErrorResponse StatusBadRequest "missing_prompt" "prompt is required", s)
      else
        let req :=
          if rest_MaxTokens req =? 0
          then mkInferenceRequestREST (rest_ClientID req) (rest_Model req) (rest_Prompt req)
                 100 (rest_Temperature req)
          else req in
        let req :=
          if PrimFloat.eqb (rest_Temperature req) 0%float
          then mkInferenceRequestREST (rest_ClientID req) (rest_Model req) (rest_Prompt req)
                 (rest_MaxTokens req) 0x1.666666p-1%float
          else req in
        match SelectAgent (rest_Model req) with
        | Err _ =>
            (sendErrorResponse StatusServiceUnavailable "no_agents"
               "No agents available for the requested model", s)
        | Ok agent =>
            match generateSessionToken s d (registry.ID agent) (rest_ClientID req)
                    (rest_Model req) with
            | (Err _, s') =>
                (sendErrorResponse StatusInternalServerError "token_generation_failed"
                   "Failed to generate session token", s')
            | (Ok token, s') =>
                let jobID := generateJobID now_job in
                (HTTPOk
                   {| rest_AgentEndpoint := Endpoint agent;
                      rest_SessionToken := st_JWTToken token;
                      rest_ExpiresAt := Unix (st_ExpiresAt token);
                      rest_JobID := jobID;
                      rest_EstimatedRTTMs := RTTMs agent;
                      rest_AgentID := registry.ID agent |},
                 s')
            end
        end
  end.

End WithSigningMethod.

End server.

(** ** The registry as a state machine

    The operations that write the registry, as the coordinator process
    issues them: registrations come from the [RegisterAgent] handler (the
    only caller of [Register]), heartbeats from [ReportHealth], the
    circuit-breaker events and [Deregister] from the [Registry] interface,
    and cleanup ticks from [StartCleanup]. *)

Module coordinator.

Inductive Op : Type :=
| OpRegisterAgent (req : server.AgentRegistration) (now1 now2 : Time)
| OpUpdateHealth (agentID : string) (stats : HealthStats) (now : Time)
| OpRecordSuccess (agentID : string)
| OpRecordFailure (agentID : string) (now1 now2 : Time)
| OpDeregister (agentID : string)
| OpCleanupTick (now : Time).

(** An operation that returns an error has not written anything. *)
Definition orUnchanged (r : InMemoryRegistry) (res : result InMemoryRegistry)
  : InMemoryRegistry :=
  match res with
  | Ok r' => r'
  | Err _ => r
  end.

Definition step (r : InMemoryRegistry) (op : Op) : InMemoryRegistry :=
  match op with
  | OpRegisterAgent req now1 now2 => (server.RegisterAgent r req now1 now2).2
  | OpUpdateHealth agentID stats now => orUnchanged r (UpdateHealth r agentID stats now)
  | OpRecordSuccess agentID => orUnchanged r (RecordSuccess r agentID)
  | OpRecordFailure agentID now1 now2 => orUnchanged r (RecordFailure r agentID now1 now2)
  | OpDeregister agentID => orUnchanged r (Deregister r agentID)
  | OpCleanupTick now => cleanupStaleAgents r now
  end.

(** The registry after a history of operations, from a fresh one. *)
Definition run (heartbeatTimeout : Duration) (history : list Op) : InMemoryRegistry :=
  fold_left step history (NewInMemoryRegistry heartbeatTimeout).

(** The invariant behind the circuit breaker: while a record is in rotation
    (Healthy or Degraded), its failure count is below the threshold that
    opens the circuit. *)
Definition breaker_inv (r : InMemoryRegistry) : Prop :=
  circuitConfig r = DefaultCircuitBreakerConfig
  /\ forall (agentID : string) (a : AgentInfo),
       agents r !! agentID = Some a ->
       Status a = StatusHealthy \/ Status a = StatusDegraded ->
       0 <= FailureCount a < 3.

End coordinator.

(** ** The registry behind its interface

    The same operations as a client of package [registry] may call them:
    [Register] stores the record it is handed, whatever its circuit-breaker
    counters, where the [RegisterAgent] handler always hands it a record
    built by [newAgentInfo]. *)

Module api.

Inductive Call : Type :=
| CallRegister (agent : AgentInfo) (now1 now2 : Time)
| CallUpdateHealth (agentID : string) (stats : HealthStats) (now : Time)
| CallRecordSuccess (agentID : string)
| CallRecordFailure (agentID : string) (now1 now2 : Time)
| CallDeregister (agentID : string)
| CallCleanupTick (now : Time).

Definition step (r : InMemoryRegistry) (c : Call) : InMemoryRegistry :=
  match c with
  | CallRegister agent now1 now2 => Register r agent now1 now2
  | CallUpdateHealth agentID stats now =>
      coordinator.orUnchanged r (UpdateHealth r agentID stats now)
  | CallRecordSuccess agentID => coordinator.orUnchanged r (RecordSuccess r agentID)
  | CallRecordFailure agentID now1 now2 =>
      coordinator.orUnchanged r (RecordFailure r agentID now1 now2)
  | CallDeregister agentID => coordinator.orUnchanged r (Deregister r agentID)
  | CallCleanupTick now => cleanupStaleAgents r now
  end.

(** The registry after a sequence of calls, from a new one. *)
Definition run (heartbeatTimeout : Duration) (calls : list Call) : InMemoryRegistry :=
  fold_left step calls (NewInMemoryRegistry heartbeatTimeout).

(** What a caller of [Register] has to respect for the circuit breaker to
    work: the record it hands over carries a failure count below the
    threshold. *)
Definition registers_below_threshold (c : Call) : Prop :=
  match c with
  | CallRegister agent _ _ =>
      0 <= FailureCount agent < FailureThreshold DefaultCircuitBreakerConfig
  | _ => True
  end.

(** The calls on the registry that an operation of the coordinator
    makes. *)
Definition calls_of (op : coordinator.Op) : list Call :=
  match op with
  | coordinator.OpRegisterAgent req now1 now2 =>
      if String.eqb (server.reg_AgentId req) "" then []
      else if String.eqb (server.reg_Endpoint req) "" then []
      else [CallRegister (server.newAgentInfo req) now1 now2]
  | coordinator.OpUpdateHealth agentID stats now => [CallUpdateHealth agentID stats now]
  | coordinator.OpRecordSuccess agentID => [CallRecordSuccess agentID]
  | coordinator.OpRecordFailure agentID now1 now2 => [CallRecordFailure agentID now1 now2]
  | coordinator.OpDeregister agentID => [CallDeregister agentID]
  | coordinator.OpCleanupTick now => [CallCleanupTick now]
  end.

End api.

(** ** Vocabulary of the specification *)

Module spec.

(** The admission filter of the specification, condition by condition. *)
Definition admissionFilter (agent : AgentInfo) (model : string) : Prop :=
  (Status agent = StatusHealthy \/ Status agent = StatusDegraded
   \/ Status agent = StatusHalfOpen)
  /\ scheduler.estimateModelVRAMRequirement model <= FreeVRAMMB agent
  /\ RunningJobs agent < MaxJobs agent
  /\ (SupportedModels agent = [] \/ In model (SupportedModels agent)).

(** [name] ends with [suffix]. *)
Definition ends_with (suffix name : string) : Prop :=
  exists front : string, name = front +:+ suffix.

(** The fields of a record that neither the status nor the two
    circuit-breaker counters account for. *)
Definition same_but_status_and_counters (a a' : AgentInfo) : Prop :=
  ID a' = ID a /\ Endpoint a' = Endpoint a
  /\ TotalVRAMMB a' = TotalVRAMMB a /\ TotalRAMMB a' = TotalRAMMB a
  /\ MaxJobs a' = MaxJobs a /\ SupportedModels a' = SupportedModels a
  /\ Capabilities a' = Capabilities a
  /\ FreeVRAMMB a' = FreeVRAMMB a /\ FreeRAMMB a' = FreeRAMMB a
  /\ RunningJobs a' = RunningJobs a /\ QueuedJobs a' = QueuedJobs a
  /\ CPUPercent a' = CPUPercent a /\ RTTMs a' = RTTMs a
  /\ LastHeartbeat a' = LastHeartbeat a /\ RegisteredAt a' = RegisteredAt a
  /\ LastFailureTime a' = LastFailureTime a
  /\ NextRetryTime a' = NextRetryTime a.

(** The fields of a record that come from its registration. *)
Definition same_registration (a a' : AgentInfo) : Prop :=
  ID a' = ID a /\ Endpoint a' = Endpoint a
  /\ TotalVRAMMB a' = TotalVRAMMB a /\ TotalRAMMB a' = TotalRAMMB a
  /\ MaxJobs a' = MaxJobs a /\ SupportedModels a' = SupportedModels a
  /\ Capabilities a' = Capabilities a /\ RegisteredAt a' = RegisteredAt a.

(** [less] orders the elements of [l] as a strict weak order: it is
    irreflexive and transitive on them, and so is being unordered by it. *)
Definition strict_weak_on {A : Type} (less : A -> A -> bool) (l : list A) : bool :=
  forallb (fun x => negb (less x x)) l
  && forallb (fun x => forallb (fun y => forallb (fun z =>
       implb (less x z) (less x y || less y z)) l) l) l
  && forallb (fun x => forallb (fun y => forallb (fun z =>
       implb (less x y && less y z) (less x z)) l) l) l.

(** What [sort.Slice] promises of its result: a permutation of the input
    and, when [less] is a strict weak order on it, no element placed before
    one that [less] puts ahead of it. *)
Definition sorts {A : Type}
    (sort_Slice : (A -> A -> bool) -> list A -> list A) : Prop :=
  forall (less : A -> A -> bool) (l : list A),
    sort_Slice less l ≡ₚ l
    /\ (strict_weak_on less l = true ->
        StronglySorted (fun x y => less y x = false) (sort_Slice less l)).

(** The number that a string of base-36 digits denotes: the position of
    each digit in [digits36], most significant digit first. *)
Fixpoint index_of (c : Ascii.ascii) (l : list Ascii.ascii) : Z :=
  match l with
  | [] => 0
  | x :: l' => if Ascii.eqb c x then 0 else 1 + index_of c l'
  end.

Definition digitValue36 (c : Ascii.ascii) : Z := index_of c digits36.

Fixpoint value36 (s : string) : Z :=
  match s with
  | EmptyString => 0
  | String c s' => digitValue36 c * 36 ^ Z.of_nat (String.length s') + value36 s'
  end.

End spec.

(** ** A signing method for the examples

    Textbook RSA with the modulus 3233 = 61 * 53, small enough for its
    correctness to be checked residue by residue. *)

Module toy.

Definition n : Z := 3233.
Definition e : positive := 17.
Definition d : positive := 2753.

Fixpoint powmod (b : Z) (k : positive) : Z :=
  match k with
  | xH => b mod n
  | xO k' => let r := powmod b k' in (r * r) mod n
  | xI k' => let r := powmod b k' in (r * r * b) mod n
  end.

Definition string_sum (s : string) : Z :=
  fold_right (fun c acc => Z.of_nat (Ascii.nat_of_ascii c) + 31 * acc) 7
    (String.list_ascii_of_string s).

Definition digest (alg : string) (c : server.JWTClaims) : Z :=
  (19 * string_sum alg
   + string_sum (server.AgentID c) + 3 * string_sum (server.ClientID c)
   + 5 * string_sum (server.Model c)
   + 7 * string_sum (jwt.ID (server.Registered c))
   + 11 * jwt.IssuedAt (server.Registered c)
   + 13 * jwt.ExpiresAt (server.Registered c)
   + 17 * jwt.NotBefore (server.Registered c)) mod n.

Definition sign (sk : positive) (alg : string) (c : server.JWTClaims) : Z :=
  powmod (digest alg c) sk.

Definition verify (pk : positive) (alg : string) (c : server.JWTClaims) (sig : Z) : bool :=
  powmod sig pk =? digest alg c.

#[global] Instance RSA : jwt.SigningMethodRSA server.JWTClaims := {|
  jwt.PrivateKey := positive;
  jwt.PublicKey := positive;
  jwt.Signature := Z;
  jwt.Public := fun _ => e;
  jwt.Sign := fun sk alg c => Ok (sign sk alg c);
  jwt.Verify := verify
|}.

End toy.

(** ** Concrete registries, tokens and requests used as examples *)

Module examples.

Definition registration (id : string) (vram maxJobs : Z) (models : list string)
  : server.AgentRegistration :=
  {| server.reg_AgentId := id;
     server.reg_Endpoint := id +:+ ".local:50052";
     server.reg_TotalVramMb := vram;
     server.reg_TotalRamMb := 32768;
     server.reg_MaxJobs := maxJobs;
     server.reg_SupportedModels := models;
     server.reg_Capabilities := ∅ |}.

Definition heartbeat (id : string) (freeVram : Z) (running : Z) (cpu rtt : float)
  : HealthStats :=
  {| hs_AgentID := id;
     hs_FreeVRAMMB := freeVram;
     hs_FreeRAMMB := 16384;
     hs_RunningJobs := running;
     hs_QueuedJobs := 0;
     hs_CPUPercent := cpu;
     hs_RTTMs := rtt;
     hs_Timestamp := 0 |}.

(** A registered agent as [RegisterAgent] leaves it at time [now]. *)
Definition fresh (id : string) (vram maxJobs : Z) (models : list string) (now : Time)
  : AgentInfo :=
  set_Status (set_LastHeartbeat (set_RegisteredAt
    (server.newAgentInfo (registration id vram maxJobs models)) now) now) StatusHealthy.

(** 2023-11-14T22:13:20Z, in nanoseconds. *)
Definition t0 : Time := 1700000000 * Second.

Definition model7b : string := "llama3:7b".

(** One agent, just registered. *)
Definition one_agent : InMemoryRegistry :=
  coordinator.run (30 * Second)
    [coordinator.OpRegisterAgent (registration "a1" 8192 4 []) t0 t0].

(** A heartbeat that reports more free VRAM than the agent has and more
    running jobs than it accepts. *)
Definition overfull : HealthStats := heartbeat "a1" 10000 9 20 5.

(** An agent whose circuit opened at [t0] and that kept sending
    heartbeats. *)
Definition tripped : InMemoryRegistry :=
  coordinator.run (30 * Second)
    [coordinator.OpRegisterAgent (registration "a1" 8192 4 []) t0 t0;
     coordinator.OpRecordFailure "a1" t0 t0;
     coordinator.OpRecordFailure "a1" t0 t0;
     coordinator.OpRecordFailure "a1" t0 t0;
     coordinator.OpUpdateHealth "a1" (heartbeat "a1" 7000 1 20 5) (t0 + 25 * Second)].

Definition tripped_agent : AgentInfo :=
  set_NextRetryTime
    (set_Status
       (set_LastFailureTime
          (set_FailureCount
             (set_metrics (fresh "a1" 8192 4 [] t0)
                (heartbeat "a1" 7000 1 20 5) (t0 + 25 * Second)) 3)
          t0)
       StatusOffline)
    (t0 + 30 * Second).

(** A registration followed by one failed operation. *)
Definition one_failure : list coordinator.Op :=
  [coordinator.OpRegisterAgent (registration "a1" 8192 4 []) t0 t0;
   coordinator.OpRecordFailure "a1" (t0 + Second) (t0 + Second)].

(** The same, as calls on the registry. *)
Definition one_failure_calls : list api.Call :=
  [api.CallRegister (server.newAgentInfo (registration "a1" 8192 4 [])) t0 t0;
   api.CallRecordFailure "a1" (t0 + Second) (t0 + Second)].

Definition failed_once : AgentInfo :=
  set_LastFailureTime (set_FailureCount (fresh "a1" 8192 4 [] t0) 1) (t0 + Second).



(** Two agents that differ in their id only. *)
Definition twins : InMemoryRegistry :=
  coordinator.run (30 * Second)
    [coordinator.OpRegisterAgent (registration "a" 8192 4 []) t0 t0;
     coordinator.OpRegisterAgent (registration "b" 8192 4 []) t0 t0].

Definition twin (id : string) : AgentInfo := fresh id 8192 4 [] t0.

(** A busy Healthy agent and an idle agent that a heartbeat with 95% CPU
    has put in Degraded. *)
Definition busy_hb : HealthStats := heartbeat "a1" 4200 3 20 400.
Definition hot_hb : HealthStats := heartbeat "a2" 8000 0 95 5.

Definition mixed : InMemoryRegistry :=
  coordinator.run (30 * Second)
    [coordinator.OpRegisterAgent (registration "a1" 8192 4 []) t0 t0;
     coordinator.OpRegisterAgent (registration "a2" 8192 4 []) t0 t0;
     coordinator.OpUpdateHealth "a1" busy_hb (t0 + Second);
     coordinator.OpUpdateHealth "a2" hot_hb (t0 + Second)].

Definition busy_agent : AgentInfo :=
  set_metrics (fresh "a1" 8192 4 [] t0) busy_hb (t0 + Second).

Definition hot_agent : AgentInfo :=
  set_Status (set_metrics (fresh "a2" 8192 4 [] t0) hot_hb (t0 + Second)) StatusDegraded.

Definition degraded_only : InMemoryRegistry :=
  coordinator.run (30 * Second)
    [coordinator.OpRegisterAgent (registration "a2" 8192 4 []) t0 t0;
     coordinator.OpUpdateHealth "a2" hot_hb (t0 + Second)].

(** A token minted at [t0] with the default TTL of 60 s. *)
Definition minted : jwt.Token server.JWTClaims :=
  @jwt.mkToken server.JWTClaims toy.RSA "RS256"
    (server.mintClaims t0 "jti-1" "a1" "c1" "llama3:7b" (60 * Second))
    (toy.sign toy.d "RS256"
       (server.mintClaims t0 "jti-1" "a1" "c1" "llama3:7b" (60 * Second))).

(** The claims minted at [t0] with TOKEN_TTL=500ms. *)
Definition short_lived : server.JWTClaims :=
  server.mintClaims t0 "jti-1" "a1" "c1" "llama3:7b" (500 * Millisecond).

Definition server0 : server.CoordinatorServer :=
  {| server.cfg := config.defaults;
     server.tokens := ∅;
     server.jwtManager := server.NewJWTManager toy.d |}.

Definition draws0 : server.Draws :=
  {| server.now_session := t0;
     server.now_jwt := t0 + Millisecond;
     server.uuid_jti := "jti-1";
     server.uuid_token := "tok-1";
     server.uuid_job := "job-1" |}.

Definition no_prompt : server.InferenceRequest :=
  {| server.ClientId := "c1"; server.req_Model := "llama3:7b";
     server.Prompt := ""; server.MaxTokens := 100 |}.

(** The MCDA scheduler over the registry [twins], visited "b" first. *)
Definition SelectAmongTwins (model : string) : result AgentInfo :=
  scheduler.SelectAgent sort.insertionSortLessFunc scheduler.NewMCDAScheduler
    [twin "b"; twin "a"] model.

Definition with_prompt : server.InferenceRequest :=
  {| server.ClientId := "c1"; server.req_Model := "llama3:7b";
     server.Prompt := "hello"; server.MaxTokens := 100 |}.

(** The token that [server0] signs with [draws0] for client "c1" and
    agent "b". *)
Definition minted_b : jwt.Token server.JWTClaims :=
  @jwt.mkToken server.JWTClaims toy.RSA "RS256"
    (server.mintClaims (t0 + Millisecond) "jti-1" "b" "c1" "llama3:7b" (60 * Second))
    (toy.sign toy.d "RS256"
       (server.mintClaims (t0 + Millisecond) "jti-1" "b" "c1" "llama3:7b" (60 * Second))).

Definition session0 : server.SessionToken :=
  {| server.st_ID := "tok-1";
     server.st_AgentID := "b";
     server.st_ClientID := "c1";
     server.st_Model := "llama3:7b";
     server.st_IssuedAt := t0;
     server.st_ExpiresAt := t0 + 60 * Second;
     server.st_JWTToken := minted_b |}.

(** What the request [with_prompt] is answered with. *)
Definition served : server.InferenceResponse :=
  {| server.AgentEndpoint := "b.local:50052";
     server.SessionTokenJWT := minted_b;
     server.resp_ExpiresAt := 1700000060;
     server.JobId := "job-1";
     server.EstimatedRttMs := 0%float;
     server.AgentId := "b" |}.

End examples.

(** * Properties *)

Import examples.

(** ** Registry *)

Section RegistryFacts.
Implicit Types (r : InMemoryRegistry) (a : AgentInfo).

Lemma wrap32_small (z : Z) : - 2 ^ 31 <= z < 2 ^ 31 -> wrap32 z = z.
Proof.
  intros Hz. unfold wrap32, wrap.
  change (2 ^ (32 - 1)) with 2147483648. change (2 ^ 32) with 4294967296.
  change (2 ^ 31) with 2147483648 in Hz.
  rewrite Z.mod_small; lia.
Qed.

Lemma agents_with_agents r m : agents (with_agents r m) = m.
Proof. reflexivity. Qed.

Lemma healthStatus_cases a :
  (healthStatus a = a)
  \/ (Status a = StatusHealthy /\ healthStatus a = set_Status a StatusDegraded)
  \/ (Status a = StatusDegraded /\ healthStatus a = set_Status a StatusHealthy).
Proof.
  unfold healthStatus.
  destruct (Status a) eqn:Hs; simpl; auto;
    repeat match goal with |- context [if ?b then _ else _] => destruct b end; auto.
Qed.

Lemma updateCircuitBreakerState_cases cfg a now :
  let a' := updateCircuitBreakerState cfg a now in
  (a' = a)
  \/ (Status a = StatusOffline /\ Status a' = StatusHalfOpen)
  \/ (Status a = StatusHalfOpen /\ Status a' = StatusOffline)
  \/ (Status a = StatusDegraded /\ Status a' = StatusHealthy /\ FailureCount a' = 0).
Proof.
  unfold updateCircuitBreakerState.
  destruct (Status a) eqn:Hs; simpl; auto;
    match goal with |- context [if ?b then _ else _] => destruct b end; simpl; auto 10.
Qed.

End RegistryFacts.

(** C10.  [RecordSuccess] on a registered agent returns no error, adds one
    to the success count (an [int32] increment), zeroes the failure count,
    and leaves every field other than the status and the two counters as it
    was.  The status changes, to Healthy, only for a HalfOpen agent whose
    incremented success count reaches the threshold, and then the success
    count is zeroed as well. *)
Theorem RecordSuccess_frame (r : InMemoryRegistry) (agentID : string) (a : AgentInfo) :
  agents r !! agentID = Some a ->
  exists a' : AgentInfo,
    RecordSuccess r agentID = Ok (with_agents r (<[agentID := a']> (agents r)))
    /\ FailureCount a' = 0
    /\ spec.same_but_status_and_counters a a'
    /\ (Status a <> StatusHalfOpen ->
        Status a' = Status a /\ SuccessCount a' = wrap32 (SuccessCount a + 1))
    /\ (Status a = StatusHalfOpen ->
        if SuccessThreshold (circuitConfig r) <=? wrap32 (SuccessCount a + 1)
        then Status a' = StatusHealthy /\ SuccessCount a' = 0
        else Status a' = StatusHalfOpen /\ SuccessCount a' = wrap32 (SuccessCount a + 1))
    /\ (- 2 ^ 31 <= SuccessCount a < maxInt32 ->
        wrap32 (SuccessCount a + 1) = SuccessCount a + 1).
Proof.
  intros Hlook. unfold RecordSuccess. rewrite Hlook.
  eexists. split; [reflexivity|].
  unfold spec.same_but_status_and_counters.
  destruct a as [? ? ? ? ? ? ? ? ? ? ? ? ? ? st ? fc ? ? sc]; simpl.
  destruct (bool_decide (st = StatusHalfOpen)) eqn:Hst;
    [apply bool_decide_eq_true in Hst | apply bool_decide_eq_false in Hst];
    destruct (SuccessThreshold (circuitConfig r) <=? wrap32 (sc + 1)) eqn:Hth;
    simpl; repeat split; try congruence; try (intros; apply wrap32_small; unfold maxInt32 in *; lia).
Qed.

(** C10, witness: one success recorded for a fresh agent. *)
Lemma RecordSuccess_frame_witness :
  agents one_agent !! "a1" = Some (examples.fresh "a1" 8192 4 [] examples.t0)
  /\ exists a' : AgentInfo,
       RecordSuccess one_agent "a1" = Ok (with_agents one_agent (<["a1" := a']> (agents one_agent)))
       /\ FailureCount a' = 0 /\ Status a' = StatusHealthy /\ SuccessCount a' = 1.
Proof.
  assert (Hl : agents one_agent !! "a1" = Some (examples.fresh "a1" 8192 4 [] examples.t0))
    by (vm_compute; reflexivity).
  split; [exact Hl|].
  destruct (RecordSuccess_frame one_agent "a1" _ Hl) as (a' & Hr & Hf & _ & Hs & _).
  exists a'. destruct Hs as [Hs1 Hs2]; [discriminate|].
  repeat split; [exact Hr | exact Hf | rewrite Hs1; reflexivity | rewrite Hs2; reflexivity].
Defined.

(** C5 (as amended).  A successful [UpdateHealth] stores the metrics of the
    heartbeat exactly as given and leaves the declared capacities
    untouched. *)
Theorem UpdateHealth_stores_heartbeat (r : InMemoryRegistry) (agentID : string)
    (a : AgentInfo) (stats : HealthStats) (now : Time) :
  agents r !! agentID = Some a ->
  exists (r' : InMemoryRegistry) (a' : AgentInfo),
    UpdateHealth r agentID stats now = Ok r'
    /\ agents r' !! agentID = Some a'
    /\ FreeVRAMMB a' = hs_FreeVRAMMB stats
    /\ FreeRAMMB a' = hs_FreeRAMMB stats
    /\ RunningJobs a' = hs_RunningJobs stats
    /\ QueuedJobs a' = hs_QueuedJobs stats
    /\ CPUPercent a' = hs_CPUPercent stats
    /\ RTTMs a' = hs_RTTMs stats
    /\ LastHeartbeat a' = now
    /\ TotalVRAMMB a' = TotalVRAMMB a
    /\ MaxJobs a' = MaxJobs a.
Proof.
  intros Hlook. unfold UpdateHealth. rewrite Hlook.
  eexists. eexists. split; [reflexivity|].
  rewrite agents_with_agents, lookup_insert_eq. split; [reflexivity|].
  destruct (healthStatus_cases (set_metrics a stats now)) as [-> | [[_ ->] | [_ ->]]];
    repeat split.
Qed.

(** C5, witness: the overfull heartbeat applied to a fresh agent. *)
Lemma UpdateHealth_stores_heartbeat_witness :
  agents one_agent !! "a1" = Some (examples.fresh "a1" 8192 4 [] examples.t0)
  /\ exists (r' : InMemoryRegistry) (a' : AgentInfo),
       UpdateHealth one_agent "a1" overfull (examples.t0 + Second) = Ok r'
       /\ agents r' !! "a1" = Some a'
       /\ FreeVRAMMB a' = 10000 /\ RunningJobs a' = 9.
Proof.
  assert (Hl : agents one_agent !! "a1" = Some (examples.fresh "a1" 8192 4 [] examples.t0))
    by (vm_compute; reflexivity).
  split; [exact Hl|].
  destruct (UpdateHealth_stores_heartbeat one_agent "a1" _ overfull (examples.t0 + Second) Hl)
    as (r' & a' & Hr & Ha & Hv & _ & Hj & _).
  exists r', a'. repeat split; assumption.
Defined.

(** C5, counterexample: a heartbeat with 10000 MB free of 8192 MB and 9
    running jobs of at most 4 is stored as it is; both bounds are broken
    after the call. *)
Lemma UpdateHealth_does_not_clamp :
  exists (r' : InMemoryRegistry) (a' : AgentInfo),
    UpdateHealth one_agent "a1" overfull (examples.t0 + Second) = Ok r'
    /\ agents r' !! "a1" = Some a'
    /\ TotalVRAMMB a' = 8192 /\ FreeVRAMMB a' = 10000
    /\ MaxJobs a' = 4 /\ RunningJobs a' = 9
    /\ ~ (0 <= FreeVRAMMB a' <= TotalVRAMMB a' /\ 0 <= RunningJobs a' <= MaxJobs a').
Proof.
  eexists. eexists. split; [vm_compute; reflexivity|].
  split; [vm_compute; reflexivity|].
  simpl. repeat split; lia.
Qed.

Lemma lookup_cleanup (r : InMemoryRegistry) (now : Time) (agentID : string) :
  agents (cleanupStaleAgents r now) !! agentID =
  agents r !! agentID ≫= (fun agent =>
    if heartbeatTimeout r <? Sub now (LastHeartbeat agent) then None
    else Some (updateCircuitBreakerState (circuitConfig r) agent now)).
Proof.
  unfold cleanupStaleAgents. rewrite agents_with_agents, lookup_omap.
  destruct (agents r !! agentID) as [agent|]; [|reflexivity]. simpl.
  unfold cleanupVisit.
  destruct (heartbeatTimeout r <? Sub now (LastHeartbeat agent)); reflexivity.
Qed.

(** C8 (as amended).  For an Offline record whose heartbeat is not stale, a
    cleanup tick at a time strictly after [next_retry_time] moves the
    record to HalfOpen with [next_retry_time = now + half_open_timeout] and
    changes nothing else; a tick at [next_retry_time] or before leaves the
    record as it is. *)
Theorem cleanup_offline_retry (r : InMemoryRegistry) (agentID : string)
    (a : AgentInfo) (now : Time) :
  agents r !! agentID = Some a ->
  Status a = StatusOffline ->
  Sub now (LastHeartbeat a) <= heartbeatTimeout r ->
  (NextRetryTime a < now ->
     exists a' : AgentInfo,
       agents (cleanupStaleAgents r now) !! agentID = Some a'
       /\ Status a' = StatusHalfOpen
       /\ NextRetryTime a' = now + HalfOpenTimeout (circuitConfig r)
       /\ FailureCount a' = FailureCount a /\ SuccessCount a' = SuccessCount a
       /\ spec.same_but_status_and_counters (set_NextRetryTime a (NextRetryTime a')) a')
  /\ (now <= NextRetryTime a ->
      agents (cleanupStaleAgents r now) !! agentID = Some a).
Proof.
  intros Hlook Hoff Hfresh.
  rewrite lookup_cleanup, Hlook. simpl.
  destruct (heartbeatTimeout r <? Sub now (LastHeartbeat a)) eqn:Hstale;
    [apply Z.ltb_lt in Hstale; lia|].
  unfold updateCircuitBreakerState. rewrite Hoff. unfold After, Add.
  split; intros Hnow.
  - assert (Hb : (NextRetryTime a <? now) = true) by (apply Z.ltb_lt; lia).
    rewrite Hb. eexists. split; [reflexivity|].
    unfold spec.same_but_status_and_counters. simpl. repeat split.
  - assert (Hb : (NextRetryTime a <? now) = false) by (apply Z.ltb_ge; lia).
    rewrite Hb. reflexivity.
Qed.

(** C8, witness: the tripped agent, one second after its retry time. *)
Lemma cleanup_offline_retry_witness :
  (agents tripped !! "a1" = Some tripped_agent
   /\ Status tripped_agent = StatusOffline
   /\ Sub (examples.t0 + 31 * Second) (LastHeartbeat tripped_agent) <= heartbeatTimeout tripped
   /\ NextRetryTime tripped_agent < examples.t0 + 31 * Second)
  /\ exists a' : AgentInfo,
       agents (cleanupStaleAgents tripped (examples.t0 + 31 * Second)) !! "a1" = Some a'
       /\ Status a' = StatusHalfOpen
       /\ NextRetryTime a' = examples.t0 + 41 * Second.
Proof.
  assert (Hl : agents tripped !! "a1" = Some tripped_agent) by (vm_compute; reflexivity).
  assert (Hs : Status tripped_agent = StatusOffline) by reflexivity.
  assert (Hf : Sub (examples.t0 + 31 * Second) (LastHeartbeat tripped_agent)
               <= heartbeatTimeout tripped) by (vm_compute; discriminate).
  assert (Hn : NextRetryTime tripped_agent < examples.t0 + 31 * Second) by (vm_compute; reflexivity).
  split; [exact (conj Hl (conj Hs (conj Hf Hn)))|].
  destruct (cleanup_offline_retry tripped "a1" tripped_agent (examples.t0 + 31 * Second) Hl Hs Hf)
    as [Hgo _].
  destruct (Hgo Hn) as (a' & Ha & Hst & Hnr & _).
  exists a'. split; [exact Ha|]. split; [exact Hst|]. rewrite Hnr. vm_compute. reflexivity.
Defined.

(** C8, counterexample: a cleanup tick at exactly [next_retry_time] leaves
    the tripped agent Offline, unchanged. *)
Lemma cleanup_at_retry_time_stays_offline :
  agents tripped !! "a1" = Some tripped_agent
  /\ Status tripped_agent = StatusOffline
  /\ NextRetryTime tripped_agent = examples.t0 + 30 * Second
  /\ agents (cleanupStaleAgents tripped (examples.t0 + 30 * Second)) !! "a1" = Some tripped_agent.
Proof.
  split; [vm_compute; reflexivity|].
  split; [reflexivity|].
  split; [vm_compute; reflexivity|].
  vm_compute; reflexivity.
Qed.

Lemma breaker_inv_new hb : coordinator.breaker_inv (NewInMemoryRegistry hb).
Proof. split; [reflexivity|]. intros agentID a H. simpl in H. rewrite lookup_empty in H. discriminate. Qed.

Lemma breaker_inv_insert (r : InMemoryRegistry) (agentID : string) (a' : AgentInfo) :
  coordinator.breaker_inv r ->
  (Status a' = StatusHealthy \/ Status a' = StatusDegraded -> 0 <= FailureCount a' < 3) ->
  coordinator.breaker_inv (with_agents r (<[agentID := a']> (agents r))).
Proof.
  intros [Hcfg Hinv] Hnew. split; [exact Hcfg|].
  intros k a. rewrite agents_with_agents, lookup_insert.
  case_decide; [intros [= <-]; exact Hnew | apply Hinv].
Qed.

Lemma breaker_inv_step (r : InMemoryRegistry) (op : coordinator.Op) :
  coordinator.breaker_inv r -> coordinator.breaker_inv (coordinator.step r op).
Proof.
  intros Hinv. pose proof Hinv as [Hcfg Hall].
  destruct op as [req now1 now2 | agentID stats now | agentID | agentID now1 now2 | agentID | now]; simpl.
  - unfold server.RegisterAgent.
    destruct (String.eqb _ ""); [exact Hinv|].
    destruct (String.eqb _ ""); [exact Hinv|]. simpl.
    unfold Register. apply breaker_inv_insert; [exact Hinv|]. simpl. lia.
  - unfold UpdateHealth. destruct (agents r !! agentID) as [a|] eqn:Hl; [|exact Hinv]. simpl.
    apply breaker_inv_insert; [exact Hinv|].
    specialize (Hall agentID a Hl).
    destruct (healthStatus_cases (set_metrics a stats now)) as [-> | [[Hs ->] | [Hs ->]]];
      simpl in *; intros Hst; apply Hall; auto.
  - unfold RecordSuccess. destruct (agents r !! agentID) as [a|] eqn:Hl; [|exact Hinv]. simpl.
    apply breaker_inv_insert; [exact Hinv|].
    intros _.
    match goal with |- context [if ?b then _ else _] => destruct b end; simpl; lia.
  - unfold RecordFailure. destruct (agents r !! agentID) as [a|] eqn:Hl; [|exact Hinv]. simpl.
    apply breaker_inv_insert; [exact Hinv|].
    specialize (Hall agentID a Hl). rewrite Hcfg. simpl.
    destruct (3 <=? wrap32 (FailureCount a + 1)) eqn:Hth; simpl.
    + intros [?|?]; discriminate.
    + intros Hst. specialize (Hall Hst). apply Z.leb_gt in Hth.
      rewrite wrap32_small in *; change (2 ^ 31) with 2147483648; lia.
  - unfold Deregister. destruct (agents r !! agentID) as [a|] eqn:Hl; [|exact Hinv]. simpl.
    split; [exact Hcfg|]. intros k a'. rewrite agents_with_agents. intros Hk.
    apply lookup_delete_Some in Hk as [_ Hk]. eauto.
  - split; [exact Hcfg|]. intros k a'. rewrite lookup_cleanup.
    destruct (agents r !! k) as [a|] eqn:Hl; [|discriminate]. simpl.
    destruct (heartbeatTimeout r <? Sub now (LastHeartbeat a)); [discriminate|].
    intros [= <-]. specialize (Hall k a Hl).
    destruct (updateCircuitBreakerState_cases (circuitConfig r) a now)
      as [-> | [[Hs Hs'] | [[Hs Hs'] | (Hs & Hs' & Hf)]]].
    + exact Hall.
    + rewrite Hs'. intros [?|?]; discriminate.
    + rewrite Hs'. intros [?|?]; discriminate.
    + intros _. rewrite Hf. lia.
Qed.

(** A call on the registry keeps the invariant, provided a record handed to
    [Register] carries a failure count below the threshold. *)
Lemma breaker_inv_call (r : InMemoryRegistry) (c : api.Call) :
  api.registers_below_threshold c ->
  coordinator.breaker_inv r -> coordinator.breaker_inv (api.step r c).
Proof.
  intros Hreg Hinv.
  destruct c as [agent now1 now2 | agentID stats now | agentID | agentID now1 now2
                | agentID | now]; cbn [api.step].
  - unfold Register. apply breaker_inv_insert; [exact Hinv|]. intros _. exact Hreg.
  - exact (breaker_inv_step r (coordinator.OpUpdateHealth agentID stats now) Hinv).
  - exact (breaker_inv_step r (coordinator.OpRecordSuccess agentID) Hinv).
  - exact (breaker_inv_step r (coordinator.OpRecordFailure agentID now1 now2) Hinv).
  - exact (breaker_inv_step r (coordinator.OpDeregister agentID) Hinv).
  - exact (breaker_inv_step r (coordinator.OpCleanupTick now) Hinv).
Qed.

Lemma breaker_inv_calls (calls : list api.Call) (r : InMemoryRegistry) :
  Forall api.registers_below_threshold calls ->
  coordinator.breaker_inv r -> coordinator.breaker_inv (fold_left api.step calls r).
Proof.
  revert r. induction calls as [|c calls IH]; intros r Hreg Hinv; [exact Hinv|].
  apply Forall_cons_1 in Hreg as [Hc Hreg]. cbn [fold_left].
  apply IH; [exact Hreg|]. apply breaker_inv_call; assumption.
Qed.

(** [Register] takes the failure count of the record as it is. *)
Lemma Register_keeps_failure_count (r : InMemoryRegistry) (agent : AgentInfo)
    (now1 now2 : Time) :
  exists a' : AgentInfo,
    agents (Register r agent now1 now2) !! ID agent = Some a'
    /\ Status a' = StatusHealthy /\ FailureCount a' = FailureCount agent.
Proof.
  unfold Register. eexists. rewrite agents_with_agents.
  split; [apply lookup_insert_eq|]. split; reflexivity.
Qed.

(** The calls that the operations of the coordinator make: each respects
    the condition on [Register], and together they have the effect of the
    operations. *)
Lemma calls_of_registers_below_threshold (op : coordinator.Op) :
  Forall api.registers_below_threshold (api.calls_of op).
Proof.
  destruct op as [req now1 now2 | | | | | ]; cbn [api.calls_of];
    try (constructor; [exact I | constructor]).
  destruct (String.eqb _ ""); [constructor|].
  destruct (String.eqb _ ""); [constructor|].
  constructor; [|constructor]. cbn. lia.
Qed.

Lemma calls_of_step (r : InMemoryRegistry) (op : coordinator.Op) :
  fold_left api.step (api.calls_of op) r = coordinator.step r op.
Proof.
  destruct op as [req now1 now2 | | | | | ]; try reflexivity.
  cbn [api.calls_of coordinator.step]. unfold server.RegisterAgent.
  destruct (String.eqb _ ""); [reflexivity|].
  destruct (String.eqb _ ""); reflexivity.
Qed.

Lemma calls_of_history (history : list coordinator.Op) (r : InMemoryRegistry) :
  fold_left api.step (flat_map api.calls_of history) r
  = fold_left coordinator.step history r.
Proof.
  revert r. induction history as [|op history IH]; intros r; [reflexivity|].
  cbn [flat_map fold_left]. rewrite fold_left_app, calls_of_step. apply IH.
Qed.

(** C4 (as amended).  In every registry reached from a new one by calls of
    [Register], [UpdateHealth], [RecordSuccess], [RecordFailure],
    [Deregister] and cleanup ticks, in any number and order, a record
    whose status is Healthy has a failure count that is at least 0 and
    below the failure threshold, provided every record handed to
    [Register] carries such a failure count.  Every sequence of operations
    that the coordinator issues is such a sequence of calls: its only
    caller of [Register], the [RegisterAgent] handler, hands over a record
    with failure count 0. *)
Theorem healthy_failure_count_below_threshold (hb : Duration) :
  (forall (calls : list api.Call) (agentID : string) (a : AgentInfo),
     Forall api.registers_below_threshold calls ->
     agents (api.run hb calls) !! agentID = Some a ->
     Status a = StatusHealthy ->
     0 <= FailureCount a < FailureThreshold (circuitConfig (api.run hb calls)))
  /\ (forall history : list coordinator.Op,
        Forall api.registers_below_threshold (flat_map api.calls_of history)
        /\ coordinator.run hb history = api.run hb (flat_map api.calls_of history)).
Proof.
  split.
  - intros calls agentID a Hreg Hl Hs.
    destruct (breaker_inv_calls calls (NewInMemoryRegistry hb) Hreg (breaker_inv_new hb))
      as [Hcfg Hall].
    fold (api.run hb calls) in Hcfg, Hall.
    rewrite Hcfg. cbn [FailureThreshold DefaultCircuitBreakerConfig].
    apply (Hall agentID a Hl). left. exact Hs.
  - intros history. split.
    + apply List.Forall_flat_map, List.Forall_forall. intros op _.
      apply calls_of_registers_below_threshold.
    + unfold coordinator.run, api.run. symmetry. apply calls_of_history.
Qed.

(** C4, witness: the registry after one registration and one failure. *)
Lemma healthy_failure_count_below_threshold_witness :
  (Forall api.registers_below_threshold one_failure_calls
   /\ agents (api.run (30 * Second) one_failure_calls) !! "a1" = Some failed_once
   /\ Status failed_once = StatusHealthy)
  /\ 0 <= FailureCount failed_once
       < FailureThreshold (circuitConfig (api.run (30 * Second) one_failure_calls)).
Proof.
  assert (Hreg : Forall api.registers_below_threshold one_failure_calls).
  { constructor; [cbn; lia|]. constructor; [exact I | constructor]. }
  assert (Hl : agents (api.run (30 * Second) one_failure_calls) !! "a1" = Some failed_once)
    by (vm_compute; reflexivity).
  split; [exact (conj Hreg (conj Hl eq_refl))|].
  exact (proj1 (healthy_failure_count_below_threshold (30 * Second))
           one_failure_calls "a1" failed_once Hreg Hl eq_refl).
Defined.

(** C4, counterexample: after one registration and one recorded failure the
    record is Healthy with a failure count of 1. *)
Lemma healthy_with_a_failure :
  agents (coordinator.run (30 * Second) one_failure) !! "a1" = Some failed_once
  /\ Status failed_once = StatusHealthy
  /\ FailureCount failed_once = 1.
Proof.
  split; [vm_compute; reflexivity|]. split; reflexivity.
Qed.

(** ** Model names *)

Section ModelNames.
Implicit Types (s front suffix : string) (n : nat).

Lemma length_append front suffix :
  String.length (front +:+ suffix) = (String.length front + String.length suffix)%nat.
Proof. induction front as [|c front IH]; simpl; [reflexivity | rewrite IH; reflexivity]. Qed.

Lemma substring_whole s : String.substring 0 (String.length s) s = s.
Proof. induction s as [|c s IH]; simpl; [reflexivity | rewrite IH; reflexivity]. Qed.

Lemma substring_skip front suffix n :
  String.substring (String.length front) n (front +:+ suffix) = String.substring 0 n suffix.
Proof. induction front as [|c front IH]; simpl; [reflexivity | exact IH]. Qed.

Lemma tail_from_append front suffix :
  scheduler.tail_from (String.length suffix) (front +:+ suffix) = suffix.
Proof.
  unfold scheduler.tail_from. rewrite length_append.
  replace (String.length front + String.length suffix - String.length suffix)%nat
    with (String.length front) by lia.
  rewrite substring_skip. apply substring_whole.
Qed.

Lemma substring_split s n :
  (n <= String.length s)%nat ->
  exists front,
    s = front +:+ String.substring (String.length s - n) n s
    /\ String.length (String.substring (String.length s - n) n s) = n.
Proof.
  induction s as [|c s IH]; intros Hn.
  - simpl in Hn. assert (n = 0%nat) as -> by lia. exists ""%string. split; reflexivity.
  - simpl String.length in *.
    destruct (decide (n = S (String.length s))) as [-> | Hne].
    + exists ""%string. rewrite Nat.sub_diag. simpl.
      rewrite substring_whole. split; reflexivity.
    + destruct IH as (front & Heq & Hlen); [lia|].
      exists (String c front).
      replace (S (String.length s) - n)%nat with (S (String.length s - n)) by lia.
      simpl. split; [exact (f_equal (String c) Heq) | exact Hlen].
Qed.

Lemma tail_from_ends_with suffix s :
  (String.length suffix <= String.length s)%nat ->
  String.eqb (scheduler.tail_from (String.length suffix) s) suffix = true
  <-> spec.ends_with suffix s.
Proof.
  intros Hlen. rewrite String.eqb_eq. split.
  - intros Htail. destruct (substring_split s _ Hlen) as (front & Heq & _).
    exists front. unfold scheduler.tail_from in Htail. rewrite Htail in Heq. exact Heq.
  - intros [front ->]. apply tail_from_append.
Qed.

Lemma tail_from_length s n :
  (n <= String.length s)%nat -> String.length (scheduler.tail_from n s) = n.
Proof. intros Hn. destruct (substring_split s n Hn) as (_ & _ & H). exact H. Qed.

Lemma tail_from_longer s n suffix :
  (n <= String.length s)%nat -> String.length suffix <> n ->
  String.eqb (scheduler.tail_from n s) suffix = false.
Proof.
  intros Hn Hne. apply String.eqb_neq. intros Heq.
  apply Hne. rewrite <- Heq. apply tail_from_length, Hn.
Qed.

End ModelNames.

Lemma ends_with_tail (n : nat) (suffix model : string) :
  String.length suffix = n -> (n <= String.length model)%nat ->
  spec.ends_with suffix model ->
  scheduler.tail_from n model = suffix.
Proof. intros <- Hlen He. apply String.eqb_eq, tail_from_ends_with; assumption. Qed.

Lemma not_ends_with_tail (n : nat) (suffix model : string) :
  String.length suffix = n -> (n <= String.length model)%nat ->
  ~ spec.ends_with suffix model ->
  String.eqb (scheduler.tail_from n model) suffix = false.
Proof.
  intros <- Hlen Hn. destruct (String.eqb _ suffix) eqn:He; [|reflexivity].
  exfalso. apply Hn, tail_from_ends_with; assumption.
Qed.

Lemma append_assoc (s1 s2 s3 : string) : (s1 +:+ s2) +:+ s3 = s1 +:+ (s2 +:+ s3).
Proof. induction s1 as [|c s1 IH]; [reflexivity | exact (f_equal (String c) IH)]. Qed.

(** C7 (as amended).  A model name of at most 10 bytes is estimated at
    4096 MB.  A longer name is estimated at 2048 MB when it ends with "1B",
    6144 MB when it ends with "7B", 10240 MB when it ends with "13B", and
    4096 MB otherwise. *)
Theorem estimate_by_suffix (model : string) :
  ((String.length model <= 10)%nat ->
     scheduler.estimateModelVRAMRequirement model = 4096)
  /\ ((10 < String.length model)%nat ->
      (spec.ends_with "1B" model -> scheduler.estimateModelVRAMRequirement model = 2048)
      /\ (spec.ends_with "7B" model -> scheduler.estimateModelVRAMRequirement model = 6144)
      /\ (spec.ends_with "13B" model -> scheduler.estimateModelVRAMRequirement model = 10240)
      /\ (~ spec.ends_with "1B" model -> ~ spec.ends_with "7B" model ->
          ~ spec.ends_with "13B" model ->
          scheduler.estimateModelVRAMRequirement model = 4096)).
Proof.
  unfold scheduler.estimateModelVRAMRequirement. split.
  - intros Hlen. destruct (String.eqb model ""); [reflexivity|].
    destruct (10 <? String.length model)%nat eqn:Hlt; [|reflexivity].
    apply Nat.ltb_lt in Hlt. lia.
  - intros Hlen.
    assert (Hne : String.eqb model "" = false).
    { apply String.eqb_neq. intros ->. simpl in Hlen. lia. }
    assert (Hlt : (10 <? String.length model)%nat = true) by (apply Nat.ltb_lt; exact Hlen).
    rewrite Hne, Hlt.
    rewrite (tail_from_longer model 3 "1B"), (tail_from_longer model 3 "7B"),
      (tail_from_longer model 4 "13B") by (simpl; lia).
    simpl orb.
    assert (H2 : (2 <= String.length model)%nat) by lia.
    assert (H3 : (3 <= String.length model)%nat) by lia.
    repeat split.
    + intros He. rewrite (ends_with_tail 2 "1B" model eq_refl H2 He). reflexivity.
    + intros He. rewrite (ends_with_tail 2 "7B" model eq_refl H2 He). reflexivity.
    + intros He.
      assert (He' : spec.ends_with "3B" model).
      { destruct He as [front ->]. exists (front +:+ "1"). rewrite append_assoc. reflexivity. }
      rewrite (ends_with_tail 2 "3B" model eq_refl H2 He').
      rewrite (ends_with_tail 3 "13B" model eq_refl H3 He). reflexivity.
    + intros N1 N7 N13.
      rewrite (not_ends_with_tail 2 "1B" model eq_refl H2 N1).
      rewrite (not_ends_with_tail 2 "7B" model eq_refl H2 N7).
      rewrite (not_ends_with_tail 3 "13B" model eq_refl H3 N13).
      reflexivity.
Qed.

(** C7, witness: "llama-3.2-1B" has 12 bytes and ends with "1B". *)
Lemma estimate_by_suffix_witness :
  (10 < String.length "llama-3.2-1B")%nat
  /\ spec.ends_with "1B" "llama-3.2-1B"
  /\ scheduler.estimateModelVRAMRequirement "llama-3.2-1B" = 2048.
Proof.
  assert (Hlen : (10 < String.length "llama-3.2-1B")%nat) by (simpl; lia).
  assert (He : spec.ends_with "1B" "llama-3.2-1B") by (exists "llama-3.2-"%string; reflexivity).
  split; [exact Hlen|]. split; [exact He|].
  destruct (estimate_by_suffix "llama-3.2-1B") as [_ Hlong].
  destruct (Hlong Hlen) as [H1 _]. exact (H1 He).
Defined.

(** C7, counterexample: "llama:1B" ends with "1B" and is estimated at
    4096 MB. *)
Lemma short_1B_name_gets_default :
  spec.ends_with "1B" "llama:1B"
  /\ scheduler.estimateModelVRAMRequirement "llama:1B" = 4096.
Proof. split; [exists "llama:"%string; reflexivity | reflexivity]. Qed.

(** ** Insertion sort meets the contract of sort.Slice *)

Section InsertionSortFacts.
Context {A : Type} (less : A -> A -> bool).

Lemma sift_perm (x : A) (rprefix : list A) : sort.sift less x rprefix ≡ₚ x :: rprefix.
Proof.
  induction rprefix as [|y rest IH]; simpl; [reflexivity|].
  destruct (less x y); [|reflexivity].
  rewrite IH. apply perm_swap.
Qed.

Lemma insertionLoop_perm (todo rprefix : list A) :
  sort.insertionLoop less rprefix todo ≡ₚ rprefix ++ todo.
Proof.
  revert rprefix. induction todo as [|x todo IH]; intros rprefix; simpl.
  - rewrite app_nil_r. symmetry. apply Permutation_rev.
  - rewrite IH, sift_perm. apply Permutation_middle.
Qed.

Lemma insertionSort_perm (l : list A) : sort.insertionSortLessFunc less l ≡ₚ l.
Proof. apply (insertionLoop_perm l []). Qed.

(** The elements on which [less] is known to behave as a strict weak order. *)
Variable P : A -> Prop.
Hypothesis less_irrefl : forall x, P x -> less x x = false.
Hypothesis less_trans :
  forall x y z, P x -> P y -> P z -> less x y = true -> less y z = true -> less x z = true.
Hypothesis less_negtrans :
  forall x y z, P x -> P y -> P z ->
    less x z = true -> less x y = true \/ less y z = true.

Lemma sift_sorted (x : A) (rprefix : list A) :
  P x -> Forall P rprefix ->
  StronglySorted (sort.later_ok less) rprefix ->
  StronglySorted (sort.later_ok less) (sort.sift less x rprefix).
Proof.
  intros Px. induction rprefix as [|y rest IH]; intros HP Hs; simpl.
  - constructor; constructor.
  - apply Forall_cons_1 in HP as [Py HPrest].
    apply StronglySorted_inv in Hs as [Hs Hy].
    destruct (less x y) eqn:Hxy.
    + constructor; [apply IH; assumption|].
      rewrite sift_perm. constructor; [|exact Hy].
      unfold sort.later_ok. destruct (less y x) eqn:Hyx; [|reflexivity].
      rewrite <- (less_irrefl x Px). symmetry. apply (less_trans x y x); assumption.
    + constructor; [constructor; assumption|].
      constructor; [exact Hxy|].
      rewrite List.Forall_forall in Hy, HPrest. apply List.Forall_forall. intros z Hz.
      unfold sort.later_ok. destruct (less x z) eqn:Hxz; [|reflexivity].
      destruct (less_negtrans x y z Px Py (HPrest z Hz) Hxz) as [H|H].
      * congruence.
      * specialize (Hy z Hz). unfold sort.later_ok in Hy. congruence.
Qed.

Lemma StronglySorted_snoc (R : A -> A -> Prop) (l : list A) (y : A) :
  StronglySorted R l -> Forall (fun z => R z y) l -> StronglySorted R (l ++ [y]).
Proof.
  induction l as [|x l IH]; intros Hs Hy; simpl.
  - constructor; constructor.
  - apply StronglySorted_inv in Hs as [Hs Hx]. apply Forall_cons_1 in Hy as [Hxy Hy].
    constructor; [apply IH; assumption|].
    apply Forall_app. split; [exact Hx | constructor; [exact Hxy | constructor]].
Qed.

Lemma StronglySorted_rev_later (rprefix : list A) :
  StronglySorted (sort.later_ok less) rprefix ->
  StronglySorted (fun x y => less y x = false) (rev rprefix).
Proof.
  induction rprefix as [|y rest IH]; intros Hs; simpl; [constructor|].
  apply StronglySorted_inv in Hs as [Hs Hy].
  apply StronglySorted_snoc; [apply IH, Hs|].
  apply List.Forall_forall. intros z Hz. apply in_rev in Hz.
  rewrite List.Forall_forall in Hy. apply (Hy z), Hz.
Qed.

Lemma insertionLoop_sorted (todo rprefix : list A) :
  Forall P todo -> Forall P rprefix ->
  StronglySorted (sort.later_ok less) rprefix ->
  StronglySorted (fun x y => less y x = false) (sort.insertionLoop less rprefix todo).
Proof.
  revert rprefix. induction todo as [|x todo IH]; intros rprefix HPt HPr Hs; simpl.
  - apply StronglySorted_rev_later, Hs.
  - apply Forall_cons_1 in HPt as [Px HPt].
    apply IH; [exact HPt | | apply sift_sorted; assumption].
    rewrite sift_perm. constructor; assumption.
Qed.

End InsertionSortFacts.

Lemma strict_weak_on_spec {A : Type} (less : A -> A -> bool) (l : list A) :
  spec.strict_weak_on less l = true ->
  (forall x, In x l -> less x x = false)
  /\ (forall x y z, In x l -> In y l -> In z l ->
        less x y = true -> less y z = true -> less x z = true)
  /\ (forall x y z, In x l -> In y l -> In z l ->
        less x z = true -> less x y = true \/ less y z = true).
Proof.
  unfold spec.strict_weak_on. rewrite !andb_true_iff, !forallb_forall.
  intros [[Hirr Hneg] Htr]. repeat split.
  - intros x Hx. apply Hirr in Hx. destruct (less x x); [discriminate | reflexivity].
  - intros x y z Hx Hy Hz Hxy Hyz.
    specialize (Htr x Hx). rewrite forallb_forall in Htr.
    specialize (Htr y Hy). rewrite forallb_forall in Htr.
    specialize (Htr z Hz). rewrite Hxy, Hyz in Htr. exact Htr.
  - intros x y z Hx Hy Hz Hxz.
    specialize (Hneg x Hx). rewrite forallb_forall in Hneg.
    specialize (Hneg y Hy). rewrite forallb_forall in Hneg.
    specialize (Hneg z Hz). rewrite Hxz in Hneg. simpl in Hneg.
    apply orb_true_iff in Hneg. exact Hneg.
Qed.

Lemma insertionSort_sorts {A : Type} : spec.sorts (@sort.insertionSortLessFunc A).
Proof.
  intros less l. split; [apply insertionSort_perm|].
  intros Hswo. destruct (strict_weak_on_spec less l Hswo) as (Hirr & Htr & Hneg).
  apply (insertionLoop_sorted less (fun x => In x l)); auto.
  - apply List.Forall_forall. auto.
  - constructor.
Qed.

(** With a sort that meets the contract, the first element of the result
    is an element of the input that no element outranks. *)
Lemma sorted_head_is_top {A : Type} (sort_Slice : (A -> A -> bool) -> list A -> list A)
    (less : A -> A -> bool) (l : list A) (h : A) (t : list A) :
  spec.sorts sort_Slice ->
  sort_Slice less l = h :: t ->
  In h l
  /\ (spec.strict_weak_on less l = true -> forall x, In x l -> less x h = false).
Proof.
  intros Hsorts Heq. destruct (Hsorts less l) as [Hperm Hsorted]. rewrite Heq in *.
  split.
  - apply (Permutation_in _ Hperm). left. reflexivity.
  - intros Hswo x Hx. specialize (Hsorted Hswo).
    destruct (strict_weak_on_spec less l Hswo) as (Hirr & _ & _).
    apply (Permutation_in _ (Permutation_sym Hperm)) in Hx.
    apply StronglySorted_inv in Hsorted as [_ Hh].
    destruct Hx as [<- | Hx].
    + apply Hirr. apply (Permutation_in _ Hperm). left. reflexivity.
    + rewrite List.Forall_forall in Hh. apply Hh, Hx.
Qed.

(** ** Scheduler *)

Section SchedulerFacts.
Implicit Types (s : scheduler.MCDAScheduler) (a : AgentInfo) (model : string).

Lemma ListHealthyAgents_In a (visit : list AgentInfo) :
  In a (ListHealthyAgents visit) <-> In a visit /\ Status a = StatusHealthy.
Proof.
  unfold ListHealthyAgents. rewrite filter_In, bool_decide_eq_true. reflexivity.
Qed.

Lemma supportsModel_true a model :
  scheduler.supportsModel a model = true <->
  Status a <> StatusOffline
  /\ scheduler.estimateModelVRAMRequirement model <= FreeVRAMMB a
  /\ RunningJobs a < MaxJobs a
  /\ (SupportedModels a = [] \/ In model (SupportedModels a)).
Proof.
  unfold scheduler.supportsModel.
  destruct (bool_decide (Status a = StatusOffline)) eqn:Hoff;
    [apply bool_decide_eq_true in Hoff | apply bool_decide_eq_false in Hoff].
  { split; [discriminate | intros [H _]; contradiction]. }
  destruct (FreeVRAMMB a <? scheduler.estimateModelVRAMRequirement model) eqn:Hv;
    [apply Z.ltb_lt in Hv | apply Z.ltb_ge in Hv].
  { split; [discriminate | intros (_ & H & _); lia]. }
  destruct (MaxJobs a <=? RunningJobs a) eqn:Hj;
    [apply Z.leb_le in Hj | apply Z.leb_gt in Hj].
  { split; [discriminate | intros (_ & _ & H & _); lia]. }
  destruct (SupportedModels a) as [|m ms] eqn:Hm.
  { simpl. split; [intros _; repeat split; auto; lia | reflexivity]. }
  assert (Hlen : (0 <? length (m :: ms))%nat = true) by reflexivity.
  rewrite Hlen, existsb_exists. split.
  - intros (x & Hx & Heq). apply String.eqb_eq in Heq. subst x.
    repeat split; auto; lia.
  - intros (_ & _ & _ & [H | H]); [discriminate|].
    exists model. split; [exact H | apply String.eqb_refl].
Qed.

Lemma supportsModel_healthy a model :
  Status a = StatusHealthy ->
  scheduler.supportsModel a model = true <-> spec.admissionFilter a model.
Proof.
  intros Hs. rewrite supportsModel_true. unfold spec.admissionFilter. rewrite Hs.
  split; intros (_ & H); (split; [auto; discriminate | exact H]).
Qed.

Lemma scoreCompatible_healthy s model (agents : list AgentInfo) (sc : scheduler.AgentScore) :
  Forall (fun a => Status a = StatusHealthy) agents ->
  In sc (scheduler.scoreCompatible s model agents) <->
  exists a, In a agents /\ scheduler.supportsModel a model = true
            /\ sc = scheduler.calculateMCDAScore s a.
Proof.
  intros Hall. rewrite List.Forall_forall in Hall.
  unfold scheduler.scoreCompatible. rewrite in_flat_map. split.
  - intros (a & Ha & Hsc). exists a. specialize (Hall a Ha). rewrite Hall in Hsc.
    destruct (scheduler.supportsModel a model); simpl in Hsc; [|contradiction].
    destruct Hsc as [<- | []]. auto.
  - intros (a & Ha & Hsup & ->). exists a. split; [exact Ha|].
    rewrite Hsup, (Hall a Ha). simpl. left. reflexivity.
Qed.

Lemma scoreAnyHealthy_In s (agents : list AgentInfo) (sc : scheduler.AgentScore) :
  In sc (scheduler.scoreAnyHealthy s agents) <->
  exists a, In a agents /\ Status a = StatusHealthy
            /\ sc = scheduler.calculateMCDAScore s a.
Proof.
  unfold scheduler.scoreAnyHealthy. rewrite in_flat_map. split.
  - intros (a & Ha & Hsc).
    destruct (bool_decide (Status a = StatusHealthy)) eqn:Hs; [|contradiction].
    apply bool_decide_eq_true in Hs. destruct Hsc as [<- | []]. eauto.
  - intros (a & Ha & Hs & ->). exists a. split; [exact Ha|].
    rewrite bool_decide_eq_true_2 by exact Hs. left. reflexivity.
Qed.

Lemma Agent_calculateMCDAScore s a : scheduler.Agent (scheduler.calculateMCDAScore s a) = a.
Proof. reflexivity. Qed.

Lemma length_zero_iff_nil {A} (l : list A) : (length l =? 0)%nat = true <-> l = [].
Proof. destruct l; simpl; split; intros H; try reflexivity; discriminate. Qed.

(** Who the candidates are, over the list that [ListHealthyAgents]
    returned. *)
Lemma candidatesOf_In s model (visit : list AgentInfo) (sc : scheduler.AgentScore) :
  In sc (scheduler.candidatesOf s model (ListHealthyAgents visit)) ->
  exists a, sc = scheduler.calculateMCDAScore s a
    /\ In a visit /\ Status a = StatusHealthy
    /\ (spec.admissionFilter a model
        \/ forall b, In b visit -> Status b = StatusHealthy ->
                     ~ spec.admissionFilter b model).
Proof.
  assert (Hall : Forall (fun a => Status a = StatusHealthy) (ListHealthyAgents visit)).
  { apply List.Forall_forall. intros a Ha. apply ListHealthyAgents_In in Ha. tauto. }
  unfold scheduler.candidatesOf.
  destruct (length (scheduler.scoreCompatible s model (ListHealthyAgents visit)) =? 0)%nat eqn:He.
  - apply length_zero_iff_nil in He. intros Hsc.
    apply scoreAnyHealthy_In in Hsc as (a & Ha & Hs & ->).
    apply ListHealthyAgents_In in Ha as [Ha _].
    exists a. repeat split; auto. right. intros b Hb Hsb Hadm.
    apply (supportsModel_healthy b model Hsb) in Hadm.
    assert (Hin : In (scheduler.calculateMCDAScore s b)
                    (scheduler.scoreCompatible s model (ListHealthyAgents visit))).
    { apply scoreCompatible_healthy; [exact Hall|]. exists b.
      rewrite ListHealthyAgents_In. auto. }
    rewrite He in Hin. contradiction.
  - intros Hsc. apply scoreCompatible_healthy in Hsc as (a & Ha & Hsup & ->); [|exact Hall].
    apply ListHealthyAgents_In in Ha as [Ha Hs].
    exists a. repeat split; auto. left. apply supportsModel_healthy; assumption.
Qed.

Lemma candidatesOf_nonempty s model (agents : list AgentInfo) :
  Forall (fun a => Status a = StatusHealthy) agents -> agents <> [] ->
  scheduler.candidatesOf s model agents <> [].
Proof.
  intros Hall Hne. unfold scheduler.candidatesOf.
  destruct (length (scheduler.scoreCompatible s model agents) =? 0)%nat eqn:He.
  - destruct agents as [|a agents]; [contradiction|].
    apply Forall_cons_1 in Hall as [Hs _].
    unfold scheduler.scoreAnyHealthy. simpl.
    rewrite bool_decide_eq_true_2 by exact Hs. discriminate.
  - intros Heq. rewrite Heq in He. discriminate.
Qed.

Lemma range_of_In (r : InMemoryRegistry) (visit : list AgentInfo) a :
  range_of r visit -> In a visit <-> exists agentID, agents r !! agentID = Some a.
Proof.
  unfold range_of. intros Hperm.
  rewrite <- list_elem_of_In, Hperm, list_elem_of_fmap. split.
  - intros ([k b] & -> & Hin). apply elem_of_map_to_list in Hin. eauto.
  - intros [k Hk]. exists (k, a). split; [reflexivity|]. apply elem_of_map_to_list, Hk.
Qed.

(** The shape of every run of [SelectAgent] under a sort that permutes. *)
Lemma SelectAgent_cases
    (sort_Slice : (scheduler.AgentScore -> scheduler.AgentScore -> bool) ->
                  list scheduler.AgentScore -> list scheduler.AgentScore)
    s (visit : list AgentInfo) model :
  spec.sorts sort_Slice ->
  (ListHealthyAgents visit = []
   /\ scheduler.SelectAgent sort_Slice s visit model = Err "no healthy agents available")
  \/ (exists top rest,
        sort_Slice scheduler.byScoreDesc
          (scheduler.candidatesOf s model (ListHealthyAgents visit)) = top :: rest
        /\ scheduler.SelectAgent sort_Slice s visit model = Ok (scheduler.Agent top)).
Proof.
  intros Hsorts. unfold scheduler.SelectAgent.
  destruct (length (ListHealthyAgents visit) =? 0)%nat eqn:Hh.
  { left. apply length_zero_iff_nil in Hh. auto. }
  right.
  assert (Hne : scheduler.candidatesOf s model (ListHealthyAgents visit) <> []).
  { apply candidatesOf_nonempty.
    - apply List.Forall_forall. intros a Ha. apply ListHealthyAgents_In in Ha. tauto.
    - intros Heq. rewrite Heq in Hh. discriminate. }
  destruct (length (scheduler.candidatesOf s model (ListHealthyAgents visit)) =? 0)%nat eqn:Hc.
  { apply length_zero_iff_nil in Hc. contradiction. }
  destruct (Hsorts scheduler.byScoreDesc
              (scheduler.candidatesOf s model (ListHealthyAgents visit))) as [Hperm _].
  destruct (sort_Slice scheduler.byScoreDesc _) as [|top rest] eqn:Hsort.
  { apply Permutation_nil in Hperm. contradiction. }
  eauto.
Qed.

End SchedulerFacts.

(** The visiting orders used in the examples. *)

Lemma range_of_listed (r : InMemoryRegistry) (listing : list (string * AgentInfo)) :
  NoDup listing.*1 ->
  agents r = list_to_map listing ->
  range_of r listing.*2.
Proof.
  intros Hnd Hr. unfold range_of. rewrite Hr.
  rewrite (map_to_list_to_map listing Hnd). reflexivity.
Qed.

Lemma NoDup_strings (l : list string) : bool_decide (NoDup l) = true -> NoDup l.
Proof. apply bool_decide_eq_true. Qed.


Lemma twins_range : range_of twins [twin "b"; twin "a"].
Proof.
  apply (range_of_listed twins [("b"%string, twin "b"); ("a"%string, twin "a")]).
  - apply NoDup_strings. vm_compute. reflexivity.
  - vm_compute. reflexivity.
Qed.

Lemma mixed_range : range_of mixed [hot_agent; busy_agent].
Proof.
  apply (range_of_listed mixed [("a2"%string, hot_agent); ("a1"%string, busy_agent)]).
  - apply NoDup_strings. vm_compute. reflexivity.
  - vm_compute. reflexivity.
Qed.

Lemma degraded_only_range : range_of degraded_only [hot_agent].
Proof.
  apply (range_of_listed degraded_only [("a2"%string, hot_agent)]).
  - apply NoDup_strings. vm_compute. reflexivity.
  - vm_compute. reflexivity.
Qed.




(** C6 (as amended).  When the scores of the candidates can be ordered (no
    score is NaN), the agent that [SelectAgent] returns is a candidate
    whose score no candidate exceeds.  Nothing is said about which of
    several such candidates it is: agent ids play no part. *)
Theorem SelectAgent_returns_a_top_score
    (sort_Slice : (scheduler.AgentScore -> scheduler.AgentScore -> bool) ->
                  list scheduler.AgentScore -> list scheduler.AgentScore)
    (s : scheduler.MCDAScheduler) (visit : list AgentInfo) (model : string)
    (a : AgentInfo) :
  spec.sorts sort_Slice ->
  spec.strict_weak_on scheduler.byScoreDesc
    (scheduler.candidatesOf s model (ListHealthyAgents visit)) = true ->
  scheduler.SelectAgent sort_Slice s visit model = Ok a ->
  exists top : scheduler.AgentScore,
    In top (scheduler.candidatesOf s model (ListHealthyAgents visit))
    /\ scheduler.Agent top = a
    /\ forall c, In c (scheduler.candidatesOf s model (ListHealthyAgents visit)) ->
         fgt (scheduler.Score c) (scheduler.Score top) = false.
Proof.
  intros Hsorts Hswo Hsel.
  destruct (SelectAgent_cases sort_Slice s visit model Hsorts)
    as [[_ Herr] | (top & rest & Hsort & Hok)].
  - rewrite Herr in Hsel. discriminate.
  - rewrite Hok in Hsel. injection Hsel as <-.
    destruct (sorted_head_is_top sort_Slice _ _ _ _ Hsorts Hsort) as [Hin Htop].
    exists top. split; [exact Hin|]. split; [reflexivity|].
    intros c Hc. apply (Htop Hswo c Hc).
Qed.

(** C6, witness: three agents, of which the idle Healthy one is returned. *)
Lemma SelectAgent_returns_a_top_score_witness :
  (spec.sorts (@sort.insertionSortLessFunc scheduler.AgentScore)
   /\ spec.strict_weak_on scheduler.byScoreDesc
        (scheduler.candidatesOf scheduler.NewMCDAScheduler model7b
           (ListHealthyAgents [hot_agent; busy_agent; twin "a"])) = true
   /\ scheduler.SelectAgent sort.insertionSortLessFunc scheduler.NewMCDAScheduler
        [hot_agent; busy_agent; twin "a"] model7b = Ok (twin "a"))
  /\ exists top : scheduler.AgentScore,
       scheduler.Agent top = twin "a"
       /\ fgt (scheduler.Score (scheduler.calculateMCDAScore scheduler.NewMCDAScheduler busy_agent))
              (scheduler.Score top) = false.
Proof.
  assert (Hswo : spec.strict_weak_on scheduler.byScoreDesc
        (scheduler.candidatesOf scheduler.NewMCDAScheduler model7b
           (ListHealthyAgents [hot_agent; busy_agent; twin "a"])) = true)
    by (vm_compute; reflexivity).
  assert (Hsel : scheduler.SelectAgent sort.insertionSortLessFunc scheduler.NewMCDAScheduler
        [hot_agent; busy_agent; twin "a"] model7b = Ok (twin "a"))
    by (vm_compute; reflexivity).
  split; [exact (conj insertionSort_sorts (conj Hswo Hsel))|].
  destruct (SelectAgent_returns_a_top_score sort.insertionSortLessFunc
              scheduler.NewMCDAScheduler [hot_agent; busy_agent; twin "a"] model7b (twin "a")
              insertionSort_sorts Hswo Hsel) as (top & _ & Hagent & Htop).
  exists top. split; [exact Hagent|]. apply Htop.
  vm_compute. left. reflexivity.
Defined.

(** C6, counterexample: two admitted candidates "a" and "b" with the same
    score, the registry visited "b" first; [SelectAgent] returns "b". *)
Lemma SelectAgent_tie_goes_to_first_visited :
  range_of twins [twin "b"; twin "a"]
  /\ scheduler.candidatesOf scheduler.NewMCDAScheduler model7b
       (ListHealthyAgents [twin "b"; twin "a"])
     = [scheduler.calculateMCDAScore scheduler.NewMCDAScheduler (twin "b");
        scheduler.calculateMCDAScore scheduler.NewMCDAScheduler (twin "a")]
  /\ spec.admissionFilter (twin "a") model7b
  /\ spec.admissionFilter (twin "b") model7b
  /\ scheduler.Score (scheduler.calculateMCDAScore scheduler.NewMCDAScheduler (twin "a"))
     = scheduler.Score (scheduler.calculateMCDAScore scheduler.NewMCDAScheduler (twin "b"))
  /\ String.ltb (ID (twin "a")) (ID (twin "b")) = true
  /\ scheduler.SelectAgent sort.insertionSortLessFunc scheduler.NewMCDAScheduler
       [twin "b"; twin "a"] model7b = Ok (twin "b").
Proof.
  split; [exact twins_range|].
  split; [vm_compute; reflexivity|].
  split; [apply supportsModel_healthy; [reflexivity | vm_compute; reflexivity]|].
  split; [apply supportsModel_healthy; [reflexivity | vm_compute; reflexivity]|].
  split; [reflexivity|].
  split; [reflexivity|].
  vm_compute. reflexivity.
Qed.

(** C2, the code at the failing inputs.  A Degraded agent that meets the
    resource and model conditions is not a candidate: alone in the registry
    it makes [SelectAgent] fail, and next to a Healthy agent it loses even
    when half its score is above the Healthy agent's score, in whatever
    order the two are visited.  The multiplication by 0.5 is never
    reached. *)
Theorem SelectAgent_never_ranks_degraded :
  (range_of degraded_only [hot_agent]
   /\ Status hot_agent = StatusDegraded
   /\ spec.admissionFilter hot_agent model7b
   /\ scheduler.SelectAgent sort.insertionSortLessFunc scheduler.NewMCDAScheduler
        [hot_agent] model7b = Err "no healthy agents available")
  /\ (range_of mixed [hot_agent; busy_agent]
      /\ Status busy_agent = StatusHealthy
      /\ spec.admissionFilter busy_agent model7b
      /\ fgt (PrimFloat.mul
                (scheduler.Score (scheduler.calculateMCDAScore scheduler.NewMCDAScheduler hot_agent))
                0.5%float)
             (scheduler.Score (scheduler.calculateMCDAScore scheduler.NewMCDAScheduler busy_agent))
         = true
      /\ scheduler.SelectAgent sort.insertionSortLessFunc scheduler.NewMCDAScheduler
           [hot_agent; busy_agent] model7b = Ok busy_agent
      /\ scheduler.SelectAgent sort.insertionSortLessFunc scheduler.NewMCDAScheduler
           [busy_agent; hot_agent] model7b = Ok busy_agent).
Proof.
  split.
  - split; [exact degraded_only_range|]. split; [reflexivity|].
    split; [|vm_compute; reflexivity].
    unfold spec.admissionFilter. split; [auto|].
    split; [vm_compute; discriminate|]. split; [vm_compute; reflexivity|]. left. reflexivity.
  - split; [exact mixed_range|]. split; [reflexivity|].
    split; [apply supportsModel_healthy; [reflexivity | vm_compute; reflexivity]|].
    split; [vm_compute; reflexivity|].
    split; vm_compute; reflexivity.
Qed.

Lemma toy_roundtrips_all (h : Z) :
  0 <= h < toy.n -> (toy.powmod (toy.powmod h toy.d) toy.e =? h) = true.
Proof.
  intros Hh. unfold toy.n in Hh.
  pose (residues := map Z.of_nat (seq 0 3233)).
  assert (Hall : forallb (fun r => toy.powmod (toy.powmod r toy.d) toy.e =? r) residues = true)
    by (vm_compute; reflexivity).
  pose proof (proj1 (forallb_forall _ _) Hall h) as Hone.
  cbv beta in Hone. apply Hone.
  apply in_map_iff. exists (Z.to_nat h). split; [apply Z2Nat.id; lia|].
  apply in_seq. split; [apply Nat.le_0_l|].
  apply Nat2Z.inj_lt. rewrite Z2Nat.id by lia. vm_compute.
  destruct Hh as [_ Hh]. exact Hh.
Qed.

Lemma toy_sound_key : jwt.sound_key (H := toy.RSA) toy.d.
Proof.
  intros alg c sig _ Hsig.
  assert (Hsig' : sig = toy.sign toy.d alg c)
    by (cbv [jwt.Sign toy.RSA] in Hsig; congruence).
  rewrite Hsig'. cbv [jwt.Verify jwt.Public toy.RSA toy.verify toy.sign].
  apply toy_roundtrips_all. unfold toy.digest. apply Z.mod_pos_bound. reflexivity.
Qed.

(** ** Session tokens *)

Lemma Truncate_add_seconds (t : Time) (k : Z) :
  Truncate (Add t (k * Second)) Second = Truncate t Second + k * Second.
Proof.
  unfold Truncate, Add. rewrite Z.mod_add by (unfold Second; lia). lia.
Qed.

Lemma Truncate_le (t : Time) : Truncate t Second <= t < Truncate t Second + Second.
Proof.
  unfold Truncate. pose proof (Z.mod_pos_bound t Second ltac:(reflexivity)). lia.
Qed.

(** C3 (as amended).  For a token minted with a TTL that is a positive whole
    number of seconds, under a key whose signatures verify: the claims are
    the ones passed to [GenerateToken], with [nbf = iat], [exp > iat] and
    [exp - iat] equal to the TTL; and [ValidateToken] at any time within
    [iat, exp) succeeds and yields exactly those claims. *)
Theorem token_round_trip `{RSA : jwt.SigningMethodRSA server.JWTClaims}
    (sk : jwt.PrivateKey) (now : Time) (id agentID clientID model : string)
    (seconds : Z) (token : jwt.Token server.JWTClaims) (presented : Time) :
  jwt.sound_key sk ->
  0 < seconds ->
  server.GenerateToken (server.NewJWTManager sk) now id agentID clientID model
    (seconds * Second) = Ok token ->
  let c := jwt.claims token in
  let iat := jwt.IssuedAt (server.Registered c) in
  let exp := jwt.ExpiresAt (server.Registered c) in
  (server.AgentID c = agentID /\ server.ClientID c = clientID /\ server.Model c = model
   /\ jwt.ID (server.Registered c) = id
   /\ jwt.NotBefore (server.Registered c) = iat
   /\ jwt.Issuer (server.Registered c) = "titancompute-coordinator"
   /\ iat <= now < iat + Second)
  /\ exp > iat
  /\ exp - iat = seconds * Second
  /\ Unix exp - Unix iat = seconds
  /\ (iat <= presented < exp ->
      server.ValidateToken (server.NewJWTManager sk) presented token = Ok c).
Proof.
  intros Hkey Hpos Hgen. unfold server.GenerateToken in Hgen.
  destruct (jwt.Sign _ _) as [sig|] eqn:Hsign; [|discriminate].
  injection Hgen as <-. cbn [jwt.claims].
  set (c := server.mintClaims now id agentID clientID model (seconds * Second)).
  cbn zeta.
  assert (Hiat : jwt.IssuedAt (server.Registered c) = Truncate now Second) by reflexivity.
  assert (Hexp : jwt.ExpiresAt (server.Registered c) = Truncate now Second + seconds * Second).
  { unfold c. cbn [server.mintClaims server.Registered jwt.ExpiresAt].
    unfold jwt.NewNumericDate, jwt.TimePrecision. apply Truncate_add_seconds. }
  rewrite Hiat, Hexp. pose proof (Truncate_le now) as Hnow.
  split; [repeat split; try reflexivity; apply Hnow|].
  split; [unfold Second in *; lia|].
  split; [lia|].
  split.
  - unfold Unix. rewrite Z.div_add by (unfold Second; lia). lia.
  - intros Hwin. unfold server.ValidateToken. cbn [jwt.alg jwt.claims jwt.signature].
    change (jwt.isRSAMethod "RS256") with true. cbn [negb].
    cbn [server.NewJWTManager server.publicKey].
    rewrite (Hkey "RS256"%string c sig eq_refl Hsign). cbn [negb].
    unfold jwt.validateClaims, Before.
    change (jwt.NotBefore (server.Registered c)) with (jwt.IssuedAt (server.Registered c)).
    rewrite Hiat, Hexp.
    destruct (presented <? Truncate now Second + seconds * Second) eqn:H1;
      [|apply Z.ltb_ge in H1; lia].
    destruct (presented <? Truncate now Second) eqn:H2;
      [apply Z.ltb_lt in H2; lia|].
    reflexivity.
Qed.

(** C3, witness: a token minted at [t0] for 60 s, presented 59 s later. *)
Lemma token_round_trip_witness :
  (jwt.sound_key (H := toy.RSA) toy.d
   /\ 0 < 60
   /\ server.GenerateToken (server.NewJWTManager toy.d) examples.t0 "jti-1" "a1" "c1"
        "llama3:7b" (60 * Second) = Ok minted
   /\ examples.t0 <= examples.t0 + 59 * Second < examples.t0 + 60 * Second)
  /\ server.ValidateToken (server.NewJWTManager toy.d) (examples.t0 + 59 * Second) minted
     = Ok (jwt.claims minted).
Proof.
  assert (Hgen : server.GenerateToken (server.NewJWTManager toy.d) examples.t0 "jti-1" "a1"
                   "c1" "llama3:7b" (60 * Second) = Ok minted) by reflexivity.
  assert (Hwin : examples.t0 <= examples.t0 + 59 * Second < examples.t0 + 60 * Second)
    by (vm_compute; split; [discriminate | reflexivity]).
  split; [exact (conj toy_sound_key (conj eq_refl (conj Hgen Hwin)))|].
  apply (token_round_trip (RSA := toy.RSA) toy.d examples.t0 "jti-1" "a1" "c1" "llama3:7b" 60 minted
           (examples.t0 + 59 * Second) toy_sound_key eq_refl Hgen).
  exact Hwin.
Defined.

(** C3, counterexample: with the positive TTL of 500 ms, a token minted on a
    whole second carries [exp = iat]. *)
Lemma subsecond_ttl_token_is_born_expired :
  0 < 500 * Millisecond
  /\ server.GenerateToken (server.NewJWTManager toy.d) examples.t0 "jti-1" "a1" "c1"
       "llama3:7b" (500 * Millisecond)
     = Ok (@jwt.mkToken server.JWTClaims toy.RSA "RS256" short_lived
             (toy.sign toy.d "RS256" short_lived))
  /\ jwt.ExpiresAt (server.Registered short_lived) = jwt.IssuedAt (server.Registered short_lived)
  /\ ~ (jwt.ExpiresAt (server.Registered short_lived)
        > jwt.IssuedAt (server.Registered short_lived))
  /\ jwt.ExpiresAt (server.Registered short_lived)
     - jwt.IssuedAt (server.Registered short_lived) <> 500 * Millisecond.
Proof.
  split; [reflexivity|]. split; [reflexivity|].
  split; [vm_compute; reflexivity|].
  split; vm_compute; intros H; discriminate H.
Qed.

(** ** RequestInference *)

(** C9.  [RequestInference] answers InvalidArgument and leaves the server as
    it was when the client id, the model or the prompt is empty.
    Otherwise: Unavailable, server unchanged, when the scheduler returns an
    error; Internal, server unchanged, when signing fails; and else the
    endpoint and id of the selected agent, the signed token, its expiry in
    Unix seconds and a job id, with the session recorded in the token
    index. *)
Theorem RequestInference_outcomes `{RSA : jwt.SigningMethodRSA server.JWTClaims}
    (SelectAgent : string -> result AgentInfo)
    (s : server.CoordinatorServer) (d : server.Draws) (req : server.InferenceRequest) :
  let out := server.RequestInference SelectAgent s d req in
  (server.ClientId req = "" \/ server.req_Model req = "" \/ server.Prompt req = "" ->
     (exists msg, out.1 = server.StatusError server.InvalidArgument msg) /\ out.2 = s)
  /\ (server.ClientId req <> "" -> server.req_Model req <> "" -> server.Prompt req <> "" ->
      match SelectAgent (server.req_Model req) with
      | Err _ =>
          out.1 = server.StatusError server.Unavailable "no agents available" /\ out.2 = s
      | Ok agent =>
          match server.GenerateToken (server.jwtManager s) (server.now_jwt d)
                  (server.uuid_jti d) (ID agent) (server.ClientId req)
                  (server.req_Model req) (config.TokenTTL (server.cfg s)) with
          | Err _ =>
              out.1 = server.StatusError server.Internal "token generation failed"
              /\ out.2 = s
          | Ok signed =>
              let expires := Add (server.now_session d) (config.TokenTTL (server.cfg s)) in
              out.1 = server.Response
                        {| server.AgentEndpoint := Endpoint agent;
                           server.SessionTokenJWT := signed;
                           server.resp_ExpiresAt := Unix expires;
                           server.JobId := server.uuid_job d;
                           server.EstimatedRttMs := RTTMs agent;
                           server.AgentId := ID agent |}
              /\ out.2 = server.with_tokens s
                   (<[server.uuid_token d :=
                        {| server.st_ID := server.uuid_token d;
                           server.st_AgentID := ID agent;
                           server.st_ClientID := server.ClientId req;
                           server.st_Model := server.req_Model req;
                           server.st_IssuedAt := server.now_session d;
                           server.st_ExpiresAt := expires;
                           server.st_JWTToken := signed |}]> (server.tokens s))
          end
      end).
Proof.
  cbn zeta. unfold server.RequestInference. split.
  - intros Hempty.
    destruct (String.eqb_spec (server.ClientId req) ""); [simpl; eauto|].
    destruct (String.eqb_spec (server.req_Model req) ""); [simpl; eauto|].
    destruct (String.eqb_spec (server.Prompt req) ""); [simpl; eauto|].
    destruct Hempty as [H | [H | H]]; contradiction.
  - intros Hc Hm Hp.
    destruct (String.eqb_spec (server.ClientId req) ""); [contradiction|].
    destruct (String.eqb_spec (server.req_Model req) ""); [contradiction|].
    destruct (String.eqb_spec (server.Prompt req) ""); [contradiction|].
    destruct (SelectAgent (server.req_Model req)) as [agent|]; [|split; reflexivity].
    unfold server.generateSessionToken.
    destruct (server.GenerateToken _ _ _ _ _ _ _) as [signed|]; split; reflexivity.
Qed.

(** C9, witness: a request without prompt. *)
Lemma RequestInference_outcomes_witness :
  (server.ClientId no_prompt = "" \/ server.req_Model no_prompt = ""
   \/ server.Prompt no_prompt = "")
  /\ (exists msg, (server.RequestInference SelectAmongTwins server0 draws0 no_prompt).1
                  = server.StatusError server.InvalidArgument msg)
  /\ (server.RequestInference SelectAmongTwins server0 draws0 no_prompt).2 = server0.
Proof.
  assert (Hempty : server.ClientId no_prompt = "" \/ server.req_Model no_prompt = ""
                   \/ server.Prompt no_prompt = "") by (right; right; reflexivity).
  split; [exact Hempty|].
  exact (proj1 (RequestInference_outcomes (RSA := toy.RSA) SelectAmongTwins server0 draws0
                  no_prompt) Hempty).
Defined.

(** * Further properties

    What follows covers the operations and handlers that the properties
    above leave out. *)

(** ** Registry: registration, heartbeats, circuit breaker, cleanup *)

Lemma tripped_lookup : agents tripped !! "a1" = Some tripped_agent.
Proof. vm_compute. reflexivity. Qed.

Lemma mixed_lookup_hot : agents mixed !! "a2" = Some hot_agent.
Proof. vm_compute. reflexivity. Qed.

Lemma one_agent_lookup : agents one_agent !! "a1" = Some (fresh "a1" 8192 4 [] t0).
Proof. vm_compute. reflexivity. Qed.

Lemma with_agents_same (r : InMemoryRegistry) : with_agents r (agents r) = r.
Proof. destruct r; reflexivity. Qed.

Lemma registry_ext (r1 r2 : InMemoryRegistry) :
  agents r1 = agents r2 -> heartbeatTimeout r1 = heartbeatTimeout r2 ->
  cleanupInterval r1 = cleanupInterval r2 -> circuitConfig r1 = circuitConfig r2 ->
  r1 = r2.
Proof. destruct r1, r2; cbn; congruence. Qed.

Lemma with_agents_twice (r : InMemoryRegistry) (m1 m2 : gmap string AgentInfo) :
  with_agents (with_agents r m1) m2 = with_agents r m2.
Proof. reflexivity. Qed.

(** X1.  [RegisterAgent] rejects a registration without agent id or without
    endpoint with InvalidArgument and leaves the registry as it was.
    Otherwise it answers success and the registry holds, under the agent
    id, the record built from the request: Healthy, all declared memory
    free, no running jobs, circuit-breaker counters at zero, stamped with
    the two clock readings.  A record already stored under that id is
    replaced, every other record is kept, and the configuration is
    unchanged. *)
Theorem RegisterAgent_installs_fresh_record (r : InMemoryRegistry)
    (req : server.AgentRegistration) (now1 now2 : Time) :
  let out := server.RegisterAgent r req now1 now2 in
  (server.reg_AgentId req = "" \/ server.reg_Endpoint req = "" ->
     (exists msg, out.1 = server.StatusError server.InvalidArgument msg) /\ out.2 = r)
  /\ (server.reg_AgentId req <> "" -> server.reg_Endpoint req <> "" ->
      out.1 = server.Response tt
      /\ agents out.2 !! server.reg_AgentId req =
           Some (set_Status (set_LastHeartbeat (set_RegisteredAt
                   (server.newAgentInfo req) now1) now2) StatusHealthy)
      /\ (exists a, agents out.2 !! server.reg_AgentId req = Some a
            /\ Status a = StatusHealthy
            /\ FreeVRAMMB a = server.reg_TotalVramMb req
            /\ FreeRAMMB a = server.reg_TotalRamMb req
            /\ RunningJobs a = 0 /\ FailureCount a = 0 /\ SuccessCount a = 0
            /\ RegisteredAt a = now1 /\ LastHeartbeat a = now2)
      /\ (forall k, k <> server.reg_AgentId req -> agents out.2 !! k = agents r !! k)
      /\ circuitConfig out.2 = circuitConfig r
      /\ heartbeatTimeout out.2 = heartbeatTimeout r).
Proof.
  cbn zeta. unfold server.RegisterAgent. split.
  - intros Hempty.
    destruct (String.eqb_spec (server.reg_AgentId req) ""); [simpl; eauto|].
    destruct (String.eqb_spec (server.reg_Endpoint req) ""); [simpl; eauto|].
    destruct Hempty; contradiction.
  - intros Hid Hep.
    destruct (String.eqb_spec (server.reg_AgentId req) ""); [contradiction|].
    destruct (String.eqb_spec (server.reg_Endpoint req) ""); [contradiction|].
    cbn [fst snd]. unfold Register. cbn [agents with_agents circuitConfig heartbeatTimeout].
    change (ID (set_Status (set_LastHeartbeat (set_RegisteredAt (server.newAgentInfo req) now1)
              now2) StatusHealthy)) with (server.reg_AgentId req).
    rewrite lookup_insert_eq.
    split; [reflexivity|]. split; [reflexivity|].
    split; [eexists; split; [reflexivity|]; repeat split|].
    split; [|split; reflexivity].
    intros k Hk. apply lookup_insert_ne. congruence.
Qed.

(** X1, witness: registering "a1" again while its circuit is open puts it
    back to Healthy. *)
Lemma RegisterAgent_installs_fresh_record_witness :
  (server.reg_AgentId (registration "a1" 8192 4 []) <> ""
   /\ server.reg_Endpoint (registration "a1" 8192 4 []) <> ""
   /\ GetCircuitState tripped "a1" = Ok StatusOffline)
  /\ GetCircuitState
       (server.RegisterAgent tripped (registration "a1" 8192 4 [])
          (t0 + 26 * Second) (t0 + 26 * Second)).2 "a1" = Ok StatusHealthy.
Proof.
  assert (Hid : server.reg_AgentId (registration "a1" 8192 4 []) <> "") by discriminate.
  assert (Hep : server.reg_Endpoint (registration "a1" 8192 4 []) <> "") by discriminate.
  split; [split; [exact Hid | split; [exact Hep | vm_compute; reflexivity]]|].
  destruct (RegisterAgent_installs_fresh_record tripped (registration "a1" 8192 4 [])
              (t0 + 26 * Second) (t0 + 26 * Second)) as [_ H].
  destruct (H Hid Hep) as (_ & Hl & _).
  unfold GetCircuitState.
  change (server.reg_AgentId (registration "a1" 8192 4 [])) with "a1"%string in Hl.
  rewrite Hl. reflexivity.
Defined.

(** X2.  [Deregister] fails on an id that is not registered.  On a registered
    id it removes that record and no other, keeps the configuration, and
    afterwards both [GetAgent] and a second [Deregister] of the id fail. *)
Theorem Deregister_removes_only_that_agent (r : InMemoryRegistry) (agentID : string) :
  (agents r !! agentID = None -> exists msg, Deregister r agentID = Err msg)
  /\ (forall a, agents r !! agentID = Some a ->
      exists r', Deregister r agentID = Ok r'
        /\ agents r' !! agentID = None
        /\ (forall k, k <> agentID -> agents r' !! k = agents r !! k)
        /\ circuitConfig r' = circuitConfig r
        /\ (exists msg, GetAgent r' agentID = Err msg)
        /\ (exists msg, Deregister r' agentID = Err msg)).
Proof.
  unfold Deregister. split.
  - intros ->. eauto.
  - intros a ->. eexists. split; [reflexivity|].
    cbn [agents with_agents circuitConfig]. unfold GetAgent. cbn [agents with_agents].
    rewrite lookup_delete_eq.
    split; [reflexivity|].
    split; [intros k Hk; apply lookup_delete_ne; congruence|].
    split; [reflexivity|]. split; eauto.
Qed.

(** X2, witness: the only agent of a registry is deregistered. *)
Lemma Deregister_removes_only_that_agent_witness :
  agents one_agent !! "a1" = Some (fresh "a1" 8192 4 [] t0)
  /\ exists r', Deregister one_agent "a1" = Ok r' /\ agents r' !! "a1" = None.
Proof.
  assert (Hl : agents one_agent !! "a1" = Some (fresh "a1" 8192 4 [] t0))
    by (vm_compute; reflexivity).
  split; [exact Hl|].
  destruct (Deregister_removes_only_that_agent one_agent "a1") as [_ H].
  destruct (H _ Hl) as (r' & Hd & Hn & _). exists r'. split; assumption.
Defined.

(** X3.  Registering an agent under an id that is not in use and then
    deregistering that id gives back the registry one started from. *)
Theorem Deregister_undoes_new_registration (r : InMemoryRegistry) (agent : AgentInfo)
    (now1 now2 : Time) :
  agents r !! ID agent = None ->
  Deregister (Register r agent now1 now2) (ID agent) = Ok r.
Proof.
  intros Hnew. unfold Deregister, Register. cbn [agents with_agents].
  change (ID (set_Status (set_LastHeartbeat (set_RegisteredAt agent now1) now2) StatusHealthy))
    with (ID agent).
  rewrite lookup_insert_eq. f_equal.
  rewrite with_agents_twice, delete_insert_eq, delete_id by exact Hnew.
  apply with_agents_same.
Qed.

(** X3, witness: agent "b" joins and leaves the registry that holds "a1". *)
Lemma Deregister_undoes_new_registration_witness :
  agents one_agent !! ID (twin "b") = None
  /\ Deregister (Register one_agent (twin "b") t0 t0) (ID (twin "b")) = Ok one_agent.
Proof.
  assert (Hn : agents one_agent !! ID (twin "b") = None) by (vm_compute; reflexivity).
  split; [exact Hn|].
  exact (Deregister_undoes_new_registration one_agent (twin "b") t0 t0 Hn).
Defined.

(** X4.  A heartbeat never touches the circuit breaker: [UpdateHealth]
    keeps the failure and success counters, the failure and retry times
    and the registration data of the record, it leaves the status of an
    Offline or HalfOpen agent as it is, and it moves a Healthy or Degraded
    agent only between Healthy and Degraded. *)
Theorem UpdateHealth_keeps_circuit_state (r : InMemoryRegistry) (agentID : string)
    (a : AgentInfo) (stats : HealthStats) (now : Time) :
  agents r !! agentID = Some a ->
  exists a' : AgentInfo,
    UpdateHealth r agentID stats now = Ok (with_agents r (<[agentID := a']> (agents r)))
    /\ FailureCount a' = FailureCount a /\ SuccessCount a' = SuccessCount a
    /\ LastFailureTime a' = LastFailureTime a /\ NextRetryTime a' = NextRetryTime a
    /\ ID a' = ID a /\ Endpoint a' = Endpoint a /\ RegisteredAt a' = RegisteredAt a
    /\ TotalRAMMB a' = TotalRAMMB a /\ SupportedModels a' = SupportedModels a
    /\ Capabilities a' = Capabilities a
    /\ (Status a <> StatusHealthy -> Status a <> StatusDegraded -> Status a' = Status a)
    /\ (Status a = StatusHealthy \/ Status a = StatusDegraded ->
        Status a' = StatusHealthy \/ Status a' = StatusDegraded).
Proof.
  intros Hlook. unfold UpdateHealth. rewrite Hlook.
  eexists. split; [reflexivity|].
  destruct (healthStatus_cases (set_metrics a stats now)) as [-> | [[Hs ->] | [Hs ->]]];
    cbn in *; repeat split; auto; intros; try congruence.
Qed.

(** X4, witness: a heartbeat for the agent whose circuit is open; it stays
    Offline with its three failures. *)
Lemma UpdateHealth_keeps_circuit_state_witness :
  agents tripped !! "a1" = Some tripped_agent
  /\ exists a' : AgentInfo,
       UpdateHealth tripped "a1" overfull (t0 + 26 * Second)
       = Ok (with_agents tripped (<["a1"%string := a']> (agents tripped)))
       /\ FailureCount a' = 3 /\ Status a' = StatusOffline.
Proof.
  split; [exact tripped_lookup|].
  destruct (UpdateHealth_keeps_circuit_state tripped "a1" tripped_agent overfull
              (t0 + 26 * Second) tripped_lookup)
    as (a' & Hup & Hfc & _ & _ & _ & _ & _ & _ & _ & _ & _ & Hst & _).
  exists a'. split; [exact Hup|]. split; [exact Hfc|].
  rewrite Hst; [reflexivity | discriminate | discriminate].
Defined.

(** X5.  For an agent that is Healthy or Degraded, a heartbeat reporting
    less than 512 MB of free VRAM or more than 90% CPU leaves it Degraded;
    and a Degraded agent stays Degraded as long as the reported CPU is not
    below 70%. *)
Theorem UpdateHealth_degrades_under_pressure (r : InMemoryRegistry) (agentID : string)
    (a : AgentInfo) (stats : HealthStats) (now : Time) :
  agents r !! agentID = Some a ->
  Status a = StatusHealthy \/ Status a = StatusDegraded ->
  exists (r' : InMemoryRegistry) (a' : AgentInfo),
    UpdateHealth r agentID stats now = Ok r'
    /\ agents r' !! agentID = Some a'
    /\ (hs_FreeVRAMMB stats < 512 \/ fgt (hs_CPUPercent stats) 90%float = true ->
        Status a' = StatusDegraded)
    /\ (Status a = StatusDegraded ->
        PrimFloat.ltb (hs_CPUPercent stats) 70%float = false ->
        Status a' = StatusDegraded).
Proof.
  intros Hlook Hst. unfold UpdateHealth. rewrite Hlook.
  eexists. eexists. split; [reflexivity|].
  cbn [agents with_agents]. rewrite lookup_insert_eq. split; [reflexivity|].
  unfold healthStatus. cbn [Status set_metrics FreeVRAMMB CPUPercent TotalVRAMMB].
  set (util := PrimFloat.div _ _).
  split.
  - intros Hpress.
    assert (Hcond : fgt util 0.9%float || fgt (hs_CPUPercent stats) 90%float
                    || (hs_FreeVRAMMB stats <? 512) = true).
    { destruct Hpress as [H | H].
      - apply Z.ltb_lt in H. rewrite H. apply orb_true_r.
      - rewrite H. rewrite orb_true_r. reflexivity. }
    rewrite Hcond.
    destruct Hst as [Hs | Hs]; rewrite Hs; cbn; [reflexivity | exact Hs].
  - intros Hs Hcpu. rewrite Hs. cbn [bool_decide decide_rel orb].
    rewrite Hcpu, andb_false_r.
    destruct (_ || _ || _); cbn; exact Hs.
Qed.

(** X5, witness: a fresh agent reports 95% CPU. *)
Lemma UpdateHealth_degrades_under_pressure_witness :
  (agents one_agent !! "a1" = Some (fresh "a1" 8192 4 [] t0)
   /\ (Status (fresh "a1" 8192 4 [] t0) = StatusHealthy
       \/ Status (fresh "a1" 8192 4 [] t0) = StatusDegraded)
   /\ fgt (hs_CPUPercent (heartbeat "a1" 8000 0 95 5)) 90%float = true)
  /\ exists r' a',
       UpdateHealth one_agent "a1" (heartbeat "a1" 8000 0 95 5) (t0 + Second) = Ok r'
       /\ agents r' !! "a1" = Some a'
       /\ Status a' = StatusDegraded.
Proof.
  assert (Hst : Status (fresh "a1" 8192 4 [] t0) = StatusHealthy
                \/ Status (fresh "a1" 8192 4 [] t0) = StatusDegraded) by (left; reflexivity).
  assert (Hcpu : fgt (hs_CPUPercent (heartbeat "a1" 8000 0 95 5)) 90%float = true)
    by (vm_compute; reflexivity).
  split; [exact (conj one_agent_lookup (conj Hst Hcpu))|].
  destruct (UpdateHealth_degrades_under_pressure one_agent "a1" _
              (heartbeat "a1" 8000 0 95 5) (t0 + Second) one_agent_lookup Hst)
    as (r' & a' & Hup & Hl & Hpress & _).
  exists r', a'. split; [exact Hup|]. split; [exact Hl|].
  apply Hpress. right. exact Hcpu.
Defined.

(** One failure, on a registered agent. *)
Lemma RecordFailure_lookup (r : InMemoryRegistry) (agentID : string) (a : AgentInfo)
    (now1 now2 : Time) :
  agents r !! agentID = Some a ->
  exists a' : AgentInfo,
    RecordFailure r agentID now1 now2 = Ok (with_agents r (<[agentID := a']> (agents r)))
    /\ FailureCount a' = wrap32 (FailureCount a + 1)
    /\ (FailureThreshold (circuitConfig r) <= wrap32 (FailureCount a + 1) ->
        Status a' = StatusOffline
        /\ NextRetryTime a' = now2 + RecoveryTimeout (circuitConfig r))
    /\ (wrap32 (FailureCount a + 1) < FailureThreshold (circuitConfig r) ->
        Status a' = Status a /\ NextRetryTime a' = NextRetryTime a).
Proof.
  intros Hlook. unfold RecordFailure. rewrite Hlook.
  eexists. split; [reflexivity|].
  cbn [FailureCount set_FailureCount set_LastFailureTime set_SuccessCount].
  destruct (FailureThreshold (circuitConfig r) <=? wrap32 (FailureCount a + 1)) eqn:Hth;
    [apply Z.leb_le in Hth | apply Z.leb_gt in Hth];
    (split; [reflexivity|]); split; intros H; try lia; split; reflexivity.
Qed.

(** X6.  Starting from a Healthy agent without recorded failures, after [n]
    calls of [RecordFailure] the failure count is [n]; the agent is still
    Healthy while [n] is below the failure threshold, and from the
    threshold on it is Offline, with the retry time set to the recovery
    timeout after the clock reading of the last failure. *)
Theorem failures_open_circuit_at_threshold (r : InMemoryRegistry) (agentID : string)
    (a : AgentInfo) (times : list (Time * Time)) :
  agents r !! agentID = Some a ->
  Status a = StatusHealthy ->
  FailureCount a = 0 ->
  0 < FailureThreshold (circuitConfig r) ->
  Z.of_nat (length times) <= maxInt32 ->
  exists a' : AgentInfo,
    agents (fold_left (fun r t => coordinator.step r (coordinator.OpRecordFailure agentID t.1 t.2))
              times r) !! agentID = Some a'
    /\ FailureCount a' = Z.of_nat (length times)
    /\ (Z.of_nat (length times) < FailureThreshold (circuitConfig r) ->
        Status a' = StatusHealthy)
    /\ (FailureThreshold (circuitConfig r) <= Z.of_nat (length times) ->
        Status a' = StatusOffline
        /\ NextRetryTime a' = (List.last times (0, 0)).2 + RecoveryTimeout (circuitConfig r)).
Proof.
  intros Hlook Hs Hfc Hth.
  induction times as [|t times IH] using rev_ind; intros Hlen.
  - exists a. cbn. repeat split; auto; lia.
  - rewrite length_app in Hlen. cbn [length] in Hlen.
    destruct IH as (a1 & Hl1 & Hfc1 & Hlow & Hhigh); [lia|].
    rewrite fold_left_app. cbn [fold_left coordinator.step].
    set (r1 := fold_left _ times r) in *.
    assert (Hcfg : circuitConfig r1 = circuitConfig r).
    { unfold r1. clear. induction times as [|t times IH] using rev_ind; [reflexivity|].
      rewrite fold_left_app. cbn [fold_left coordinator.step].
      unfold RecordFailure. destruct (agents _ !! agentID); cbn; exact IH. }
    destruct (RecordFailure_lookup r1 agentID a1 t.1 t.2 Hl1) as (a2 & -> & Hfc2 & Hopen & Hkeep).
    cbn [coordinator.orUnchanged agents with_agents]. rewrite lookup_insert_eq.
    exists a2. split; [reflexivity|].
    rewrite length_app. cbn [length].
    assert (Hw : wrap32 (FailureCount a1 + 1) = Z.of_nat (length times + 1)).
    { rewrite Hfc1. rewrite wrap32_small; unfold maxInt32 in *; lia. }
    rewrite Hcfg in *. rewrite Hw in *.
    split; [rewrite Hfc2; reflexivity|]. split.
    + intros Hlt. destruct (Hkeep Hlt) as [-> _]. apply Hlow. lia.
    + intros Hge. destruct (Hopen Hge) as [-> ->]. rewrite last_last. split; reflexivity.
Qed.

(** X6, witness: three failures with the default threshold of three. *)
Lemma failures_open_circuit_at_threshold_witness :
  (agents one_agent !! "a1" = Some (fresh "a1" 8192 4 [] t0)
   /\ Status (fresh "a1" 8192 4 [] t0) = StatusHealthy
   /\ FailureCount (fresh "a1" 8192 4 [] t0) = 0
   /\ 0 < FailureThreshold (circuitConfig one_agent)
   /\ Z.of_nat (length [(t0, t0); (t0, t0); (t0, t0 + Second)]) <= maxInt32)
  /\ exists a' : AgentInfo,
       agents (fold_left
                 (fun r t => coordinator.step r (coordinator.OpRecordFailure "a1" t.1 t.2))
                 [(t0, t0); (t0, t0); (t0, t0 + Second)] one_agent) !! "a1" = Some a'
       /\ Status a' = StatusOffline
       /\ NextRetryTime a' = t0 + 31 * Second.
Proof.
  assert (Hl : agents one_agent !! "a1" = Some (fresh "a1" 8192 4 [] t0))
    by (vm_compute; reflexivity).
  assert (Hth : 0 < FailureThreshold (circuitConfig one_agent)) by reflexivity.
  assert (Hlen : Z.of_nat (length [(t0, t0); (t0, t0); (t0, t0 + Second)]) <= maxInt32)
    by (vm_compute; discriminate).
  split; [exact (conj Hl (conj eq_refl (conj eq_refl (conj Hth Hlen))))|].
  destruct (failures_open_circuit_at_threshold one_agent "a1" _
              [(t0, t0); (t0, t0); (t0, t0 + Second)] Hl eq_refl eq_refl Hth Hlen)
    as (a' & Ha & _ & _ & Hopen).
  exists a'. split; [exact Ha|].
  destruct Hopen as [Hs Hn]; [vm_compute; discriminate|].
  split; [exact Hs|]. rewrite Hn. vm_compute. reflexivity.
Defined.


Lemma updateCircuitBreakerState_keeps_heartbeat (cfg : CircuitBreakerConfig)
    (a : AgentInfo) (now : Time) :
  LastHeartbeat (updateCircuitBreakerState cfg a now) = LastHeartbeat a.
Proof.
  unfold updateCircuitBreakerState.
  destruct (Status a); repeat match goal with
    |- context [if ?b then _ else _] => destruct b end; reflexivity.
Qed.

Lemma updateCircuitBreakerState_settled (cfg : CircuitBreakerConfig)
    (a : AgentInfo) (now : Time) :
  0 <= RecoveryTimeout cfg -> 0 <= HalfOpenTimeout cfg ->
  updateCircuitBreakerState cfg (updateCircuitBreakerState cfg a now) now
  = updateCircuitBreakerState cfg a now.
Proof.
  intros Hrec Hhalf.
  assert (Hlater : forall d, 0 <= d -> After now (Add now d) = false).
  { intros d Hd. unfold After, Add. apply Z.ltb_ge. lia. }
  unfold updateCircuitBreakerState at 2 3.
  destruct (Status a) eqn:Hs.
  - unfold updateCircuitBreakerState. rewrite Hs. reflexivity.
  - destruct (_ && _) eqn:Hc.
    + reflexivity.
    + unfold updateCircuitBreakerState. rewrite Hs, Hc. reflexivity.
  - destruct (After now (NextRetryTime a)) eqn:Hc.
    + unfold updateCircuitBreakerState.
      cbn [Status NextRetryTime set_Status set_NextRetryTime].
      rewrite (Hlater _ Hrec). reflexivity.
    + unfold updateCircuitBreakerState. rewrite Hs, Hc. reflexivity.
  - destruct (After now (NextRetryTime a)) eqn:Hc.
    + unfold updateCircuitBreakerState.
      cbn [Status NextRetryTime set_Status set_NextRetryTime].
      rewrite (Hlater _ Hhalf). reflexivity.
    + unfold updateCircuitBreakerState. rewrite Hs, Hc. reflexivity.
  - unfold updateCircuitBreakerState. rewrite Hs. reflexivity.
Qed.

(** X8.  With timeouts that are not negative, a second cleanup tick at the
    same instant changes nothing. *)
Theorem cleanup_twice_same_instant (r : InMemoryRegistry) (now : Time) :
  0 <= RecoveryTimeout (circuitConfig r) ->
  0 <= HalfOpenTimeout (circuitConfig r) ->
  cleanupStaleAgents (cleanupStaleAgents r now) now = cleanupStaleAgents r now.
Proof.
  intros Hrec Hhalf.
  assert (Heq : agents (cleanupStaleAgents (cleanupStaleAgents r now) now)
                = agents (cleanupStaleAgents r now)).
  { apply map_eq. intros k. rewrite (lookup_cleanup (cleanupStaleAgents r now)).
    rewrite lookup_cleanup.
    destruct (agents r !! k) as [a|]; [|reflexivity]. cbn.
    destruct (heartbeatTimeout r <? Sub now (LastHeartbeat a)) eqn:Hstale; [reflexivity|].
    cbn. change (heartbeatTimeout (cleanupStaleAgents r now)) with (heartbeatTimeout r).
    change (circuitConfig (cleanupStaleAgents r now)) with (circuitConfig r).
    rewrite updateCircuitBreakerState_keeps_heartbeat, Hstale.
    rewrite updateCircuitBreakerState_settled by assumption. reflexivity. }
  apply registry_ext; [exact Heq | reflexivity | reflexivity | reflexivity].
Qed.

(** X8, witness: two ticks one second after the retry time of the tripped
    agent. *)
Lemma cleanup_twice_same_instant_witness :
  (0 <= RecoveryTimeout (circuitConfig tripped)
   /\ 0 <= HalfOpenTimeout (circuitConfig tripped))
  /\ cleanupStaleAgents (cleanupStaleAgents tripped (t0 + 31 * Second)) (t0 + 31 * Second)
     = cleanupStaleAgents tripped (t0 + 31 * Second).
Proof.
  assert (Hrec : 0 <= RecoveryTimeout (circuitConfig tripped)) by (vm_compute; discriminate).
  assert (Hhalf : 0 <= HalfOpenTimeout (circuitConfig tripped)) by (vm_compute; discriminate).
  split; [exact (conj Hrec Hhalf)|].
  exact (cleanup_twice_same_instant tripped (t0 + 31 * Second) Hrec Hhalf).
Defined.

(** X9.  What a cleanup tick does to an agent whose heartbeat is not stale:
    a HalfOpen agent whose retry time has passed goes back to Offline with
    a new retry time and the same failure count, and is untouched before
    that; a Degraded agent with more than 2048 MB of free VRAM and less
    than 80% CPU becomes Healthy with its failure count reset, and is
    untouched otherwise; a Healthy agent is untouched. *)
Theorem cleanup_halfopen_and_degraded (r : InMemoryRegistry) (agentID : string)
    (a : AgentInfo) (now : Time) :
  agents r !! agentID = Some a ->
  Sub now (LastHeartbeat a) <= heartbeatTimeout r ->
  exists a' : AgentInfo,
    agents (cleanupStaleAgents r now) !! agentID = Some a'
    /\ (Status a = StatusHalfOpen -> NextRetryTime a < now ->
        Status a' = StatusOffline
        /\ NextRetryTime a' = now + RecoveryTimeout (circuitConfig r)
        /\ FailureCount a' = FailureCount a)
    /\ (Status a = StatusHalfOpen -> now <= NextRetryTime a -> a' = a)
    /\ (Status a = StatusDegraded -> 2048 < FreeVRAMMB a ->
        PrimFloat.ltb (CPUPercent a) 80%float = true ->
        Status a' = StatusHealthy /\ FailureCount a' = 0
        /\ NextRetryTime a' = NextRetryTime a)
    /\ (Status a = StatusDegraded ->
        FreeVRAMMB a <= 2048 \/ PrimFloat.ltb (CPUPercent a) 80%float = false -> a' = a)
    /\ (Status a = StatusHealthy -> a' = a).
Proof.
  intros Hlook Hfresh. rewrite lookup_cleanup, Hlook. cbn.
  destruct (heartbeatTimeout r <? Sub now (LastHeartbeat a)) eqn:Hstale;
    [apply Z.ltb_lt in Hstale; lia|].
  eexists. split; [reflexivity|].
  unfold updateCircuitBreakerState, After, Add.
  split; [|split; [|split; [|split]]]; intros Hs; rewrite Hs.
  - intros Hnow. assert (H : (NextRetryTime a <? now) = true) by (apply Z.ltb_lt; lia).
    rewrite H. repeat split.
  - intros Hnow. assert (H : (NextRetryTime a <? now) = false) by (apply Z.ltb_ge; lia).
    rewrite H. reflexivity.
  - intros Hv Hc. assert (H : (2048 <? FreeVRAMMB a) = true) by (apply Z.ltb_lt; lia).
    rewrite H, Hc. repeat split.
  - intros [Hv | Hc].
    + assert (H : (2048 <? FreeVRAMMB a) = false) by (apply Z.ltb_ge; lia).
      rewrite H. reflexivity.
    + rewrite Hc, andb_false_r. reflexivity.
  - reflexivity.
Qed.

(** X9, witness: the Degraded agent at 95% CPU is left as it is. *)
Lemma cleanup_halfopen_and_degraded_witness :
  (agents mixed !! "a2" = Some hot_agent
   /\ Sub (t0 + 2 * Second) (LastHeartbeat hot_agent) <= heartbeatTimeout mixed
   /\ Status hot_agent = StatusDegraded
   /\ PrimFloat.ltb (CPUPercent hot_agent) 80%float = false)
  /\ agents (cleanupStaleAgents mixed (t0 + 2 * Second)) !! "a2" = Some hot_agent.
Proof.
  assert (Hfresh : Sub (t0 + 2 * Second) (LastHeartbeat hot_agent) <= heartbeatTimeout mixed)
    by (vm_compute; discriminate).
  assert (Hcpu : PrimFloat.ltb (CPUPercent hot_agent) 80%float = false)
    by (vm_compute; reflexivity).
  split; [exact (conj mixed_lookup_hot (conj Hfresh (conj eq_refl Hcpu)))|].
  destruct (cleanup_halfopen_and_degraded mixed "a2" hot_agent (t0 + 2 * Second)
              mixed_lookup_hot Hfresh) as (a' & Hl & _ & _ & _ & Hstay & _).
  rewrite Hl. f_equal. apply Hstay; [reflexivity | right; exact Hcpu].
Defined.

(** One success, on a registered agent. *)
Lemma RecordSuccess_lookup (r : InMemoryRegistry) (agentID : string) (a : AgentInfo) :
  agents r !! agentID = Some a ->
  exists a' : AgentInfo,
    RecordSuccess r agentID = Ok (with_agents r (<[agentID := a']> (agents r)))
    /\ FailureCount a' = 0
    /\ (Status a = StatusHalfOpen ->
        SuccessThreshold (circuitConfig r) <= wrap32 (SuccessCount a + 1) ->
        Status a' = StatusHealthy /\ SuccessCount a' = 0)
    /\ (Status a <> StatusHalfOpen
        \/ wrap32 (SuccessCount a + 1) < SuccessThreshold (circuitConfig r) ->
        Status a' = Status a /\ SuccessCount a' = wrap32 (SuccessCount a + 1)).
Proof.
  intros Hlook. unfold RecordSuccess. rewrite Hlook.
  eexists. split; [reflexivity|].
  cbn [Status SuccessCount set_FailureCount set_SuccessCount].
  destruct (bool_decide (Status a = StatusHalfOpen)) eqn:Hst;
    [apply bool_decide_eq_true in Hst | apply bool_decide_eq_false in Hst];
    destruct (SuccessThreshold (circuitConfig r) <=? wrap32 (SuccessCount a + 1)) eqn:Hth;
    [apply Z.leb_le in Hth | apply Z.leb_gt in Hth
     | apply Z.leb_le in Hth | apply Z.leb_gt in Hth];
    cbn; (split; [reflexivity|]); split; intros; try (split; reflexivity);
    try contradiction; try lia.
  - destruct H; [contradiction | lia].
Qed.

(** X10.  Recovery of an open circuit, with the success threshold of two: for
    an Offline agent with a recent heartbeat, a cleanup tick after the
    retry time followed by two calls of [RecordSuccess] leaves the agent
    Healthy with no recorded failures. *)
Theorem half_open_recovery (r : InMemoryRegistry) (agentID : string)
    (a : AgentInfo) (now : Time) :
  agents r !! agentID = Some a ->
  Status a = StatusOffline ->
  Sub now (LastHeartbeat a) <= heartbeatTimeout r ->
  NextRetryTime a < now ->
  SuccessThreshold (circuitConfig r) = 2 ->
  0 <= SuccessCount a < maxInt32 ->
  exists (r1 r2 : InMemoryRegistry) (a1 a2 : AgentInfo),
    RecordSuccess (cleanupStaleAgents r now) agentID = Ok r1
    /\ agents r1 !! agentID = Some a1
    /\ (SuccessCount a = 0 -> Status a1 = StatusHalfOpen)
    /\ RecordSuccess r1 agentID = Ok r2
    /\ agents r2 !! agentID = Some a2
    /\ Status a2 = StatusHealthy
    /\ FailureCount a2 = 0
    /\ 0 <= SuccessCount a2 <= 1.
Proof.
  intros Hlook Hoff Hfresh Hnow Hth Hsc.
  set (r0 := cleanupStaleAgents r now).
  set (h := set_NextRetryTime (set_Status a StatusHalfOpen)
              (Add now (HalfOpenTimeout (circuitConfig r)))).
  assert (Hh : agents r0 !! agentID = Some h).
  { unfold r0. rewrite lookup_cleanup, Hlook. cbn.
    assert (H1 : (heartbeatTimeout r <? Sub now (LastHeartbeat a)) = false)
      by (apply Z.ltb_ge; lia).
    rewrite H1. unfold updateCircuitBreakerState, After. rewrite Hoff.
    assert (H2 : (NextRetryTime a <? now) = true) by (apply Z.ltb_lt; lia).
    rewrite H2. reflexivity. }
  assert (Hw : wrap32 (SuccessCount a + 1) = SuccessCount a + 1)
    by (apply wrap32_small; unfold maxInt32 in *; lia).
  destruct (RecordSuccess_lookup r0 agentID h Hh) as (a1 & Hr1 & Hf1 & Hclose1 & Hkeep1).
  change (circuitConfig r0) with (circuitConfig r) in *.
  change (Status h) with StatusHalfOpen in *.
  change (SuccessCount h) with (SuccessCount a) in *.
  rewrite Hth, Hw in *.
  set (r1 := with_agents r0 (<[agentID := a1]> (agents r0))) in *.
  assert (Hl1 : agents r1 !! agentID = Some a1) by apply lookup_insert_eq.
  destruct (RecordSuccess_lookup r1 agentID a1 Hl1) as (a2 & Hr2 & Hf2 & Hclose2 & Hkeep2).
  change (circuitConfig r1) with (circuitConfig r) in *. rewrite Hth in *.
  exists r1, (with_agents r1 (<[agentID := a2]> (agents r1))), a1, a2.
  split; [exact Hr1|]. split; [exact Hl1|].
  split. { intros H0. apply Hkeep1. right. lia. }
  split; [exact Hr2|]. split; [apply lookup_insert_eq|].
  destruct (Z_le_gt_dec 2 (SuccessCount a + 1)) as [Hfirst | Hfirst].
  - destruct (Hclose1 eq_refl Hfirst) as [Hs1 Hc1].
    destruct Hkeep2 as [Hs2 Hc2]; [left; rewrite Hs1; discriminate|].
    rewrite Hs2, Hs1, Hc2, Hc1. split; [reflexivity|]. split; [exact Hf2|].
    vm_compute. split; discriminate.
  - destruct Hkeep1 as [Hs1 Hc1]; [right; lia|].
    assert (Hz : SuccessCount a = 0) by lia.
    rewrite Hc1, Hz in *.
    destruct (Hclose2 Hs1) as [Hs2 Hc2]; [vm_compute; discriminate|].
    rewrite Hs2, Hc2. split; [reflexivity|]. split; [exact Hf2 | lia].
Qed.

(** X10, witness: the tripped agent, one second after its retry time. *)
Lemma half_open_recovery_witness :
  (agents tripped !! "a1" = Some tripped_agent
   /\ Status tripped_agent = StatusOffline
   /\ Sub (t0 + 31 * Second) (LastHeartbeat tripped_agent) <= heartbeatTimeout tripped
   /\ NextRetryTime tripped_agent < t0 + 31 * Second
   /\ SuccessThreshold (circuitConfig tripped) = 2
   /\ 0 <= SuccessCount tripped_agent < maxInt32)
  /\ exists r1 r2 a2,
       RecordSuccess (cleanupStaleAgents tripped (t0 + 31 * Second)) "a1" = Ok r1
       /\ RecordSuccess r1 "a1" = Ok r2
       /\ agents r2 !! "a1" = Some a2
       /\ Status a2 = StatusHealthy.
Proof.
  assert (Hfresh : Sub (t0 + 31 * Second) (LastHeartbeat tripped_agent)
                   <= heartbeatTimeout tripped) by (vm_compute; discriminate).
  assert (Hnow : NextRetryTime tripped_agent < t0 + 31 * Second) by (vm_compute; reflexivity).
  assert (Hsc : 0 <= SuccessCount tripped_agent < maxInt32)
    by (vm_compute; split; [discriminate | reflexivity]).
  split; [exact (conj tripped_lookup (conj eq_refl (conj Hfresh (conj Hnow (conj eq_refl Hsc)))))|].
  destruct (half_open_recovery tripped "a1" tripped_agent (t0 + 31 * Second)
              tripped_lookup eq_refl Hfresh Hnow eq_refl Hsc)
    as (r1 & r2 & a1 & a2 & H1 & _ & _ & H2 & Hl2 & Hs2 & _).
  exists r1, r2, a2. auto.
Defined.

Lemma same_registration_refl (a : AgentInfo) : spec.same_registration a a.
Proof. repeat split. Qed.

Lemma healthStatus_same_registration (a : AgentInfo) (stats : HealthStats) (now : Time) :
  spec.same_registration a (healthStatus (set_metrics a stats now))
  /\ (Status a <> StatusNone -> Status (healthStatus (set_metrics a stats now)) <> StatusNone).
Proof.
  destruct (healthStatus_cases (set_metrics a stats now)) as [-> | [[Hs ->] | [Hs ->]]];
    (split; [repeat split | cbn; congruence]).
Qed.

Lemma updateCircuitBreakerState_same_registration (cfg : CircuitBreakerConfig)
    (a : AgentInfo) (now : Time) :
  spec.same_registration a (updateCircuitBreakerState cfg a now)
  /\ (Status a <> StatusNone -> Status (updateCircuitBreakerState cfg a now) <> StatusNone).
Proof.
  unfold updateCircuitBreakerState.
  destruct (Status a) eqn:Hs;
    repeat match goal with |- context [if ?b then _ else _] => destruct b end;
    (split; [repeat split | cbn; congruence]).
Qed.

(** Where a record of the registry after one operation comes from: it was
    just registered, or it was there before with the same registration. *)
Lemma step_lookup (r : InMemoryRegistry) (op : coordinator.Op) (k : string) (a' : AgentInfo) :
  agents (coordinator.step r op) !! k = Some a' ->
  (exists req now1 now2,
     op = coordinator.OpRegisterAgent req now1 now2
     /\ server.reg_AgentId req = k /\ k <> "" /\ server.reg_Endpoint req <> ""
     /\ a' = set_Status (set_LastHeartbeat (set_RegisteredAt
               (server.newAgentInfo req) now1) now2) StatusHealthy)
  \/ (exists a, agents r !! k = Some a
        /\ spec.same_registration a a'
        /\ (Status a <> StatusNone -> Status a' <> StatusNone)).
Proof.
  assert (Hsame : forall a, agents r !! k = Some a -> a' = a ->
            exists a0, agents r !! k = Some a0 /\ spec.same_registration a0 a'
                       /\ (Status a0 <> StatusNone -> Status a' <> StatusNone)).
  { intros a Hl ->. exists a. split; [exact Hl|]. split; [apply same_registration_refl | auto]. }
  destruct op as [req now1 now2 | agentID stats now | agentID | agentID now1 now2 | agentID | now];
    cbn [coordinator.step].
  - unfold server.RegisterAgent.
    destruct (String.eqb_spec (server.reg_AgentId req) ""); [cbn; intros H; right; eauto|].
    destruct (String.eqb_spec (server.reg_Endpoint req) ""); [cbn; intros H; right; eauto|].
    cbn [snd]. unfold Register. cbn [agents with_agents].
    change (ID (set_Status (set_LastHeartbeat (set_RegisteredAt (server.newAgentInfo req) now1)
              now2) StatusHealthy)) with (server.reg_AgentId req).
    rewrite lookup_insert. case_decide as Hk.
    + intros [= <-]. left. exists req, now1, now2. subst k. auto.
    + intros H. right. eauto.
  - unfold UpdateHealth. destruct (agents r !! agentID) as [a|] eqn:Hl;
      cbn [coordinator.orUnchanged]; [|intros H; right; eauto].
    cbn [agents with_agents]. rewrite lookup_insert. case_decide as Hk.
    + intros [= <-]. subst k. right. exists a. split; [exact Hl|].
      apply healthStatus_same_registration.
    + intros H. right. eauto.
  - unfold RecordSuccess. destruct (agents r !! agentID) as [a|] eqn:Hl;
      cbn [coordinator.orUnchanged]; [|intros H; right; eauto].
    cbn [agents with_agents]. rewrite lookup_insert. case_decide as Hk.
    + intros [= <-]. subst k. right. exists a. split; [exact Hl|].
      match goal with |- context [if ?b then _ else _] => destruct b end;
        (split; [repeat split | cbn; congruence]).
    + intros H. right. eauto.
  - unfold RecordFailure. destruct (agents r !! agentID) as [a|] eqn:Hl;
      cbn [coordinator.orUnchanged]; [|intros H; right; eauto].
    cbn [agents with_agents]. rewrite lookup_insert. case_decide as Hk.
    + intros [= <-]. subst k. right. exists a. split; [exact Hl|].
      match goal with |- context [if ?b then _ else _] => destruct b end;
        (split; [repeat split | cbn; congruence]).
    + intros H. right. eauto.
  - unfold Deregister. destruct (agents r !! agentID) as [a|] eqn:Hl;
      cbn [coordinator.orUnchanged]; [|intros H; right; eauto].
    cbn [agents with_agents]. intros H. apply lookup_delete_Some in H as [_ H].
    right. eauto.
  - rewrite lookup_cleanup. destruct (agents r !! k) as [a|] eqn:Hl; [|discriminate]. cbn.
    destruct (heartbeatTimeout r <? Sub now (LastHeartbeat a)); [discriminate|].
    intros [= <-]. right. exists a. split; [reflexivity|].
    apply updateCircuitBreakerState_same_registration.
Qed.

(** X11.  No operation other than a new registration under the same id
    changes what an agent registered: a record that is in the registry
    before and after the operation has the same id, endpoint, capacities,
    supported models, capabilities and registration time. *)
Theorem registration_fields_are_stable (r : InMemoryRegistry) (op : coordinator.Op)
    (k : string) (a a' : AgentInfo) :
  agents r !! k = Some a ->
  agents (coordinator.step r op) !! k = Some a' ->
  (forall req now1 now2, op = coordinator.OpRegisterAgent req now1 now2 ->
     server.reg_AgentId req <> k) ->
  spec.same_registration a a'.
Proof.
  intros Hl Hl' Hop.
  destruct (step_lookup r op k a' Hl') as [(req & n1 & n2 & -> & Hid & _) | (a0 & Hl0 & Hs & _)].
  - exfalso. exact (Hop req n1 n2 eq_refl Hid).
  - rewrite Hl in Hl0. injection Hl0 as <-. exact Hs.
Qed.

(** X11, witness: a heartbeat for a fresh agent. *)
Lemma registration_fields_are_stable_witness :
  (agents one_agent !! "a1" = Some (fresh "a1" 8192 4 [] t0)
   /\ agents (coordinator.step one_agent (coordinator.OpUpdateHealth "a1" overfull (t0 + Second)))
        !! "a1"
      = Some (healthStatus (set_metrics (fresh "a1" 8192 4 [] t0) overfull (t0 + Second))))
  /\ spec.same_registration (fresh "a1" 8192 4 [] t0)
       (healthStatus (set_metrics (fresh "a1" 8192 4 [] t0) overfull (t0 + Second))).
Proof.
  assert (Hl' : agents (coordinator.step one_agent
                          (coordinator.OpUpdateHealth "a1" overfull (t0 + Second))) !! "a1"
                = Some (healthStatus (set_metrics (fresh "a1" 8192 4 [] t0) overfull
                                        (t0 + Second))))
    by (vm_compute; reflexivity).
  split; [exact (conj one_agent_lookup Hl')|].
  apply (registration_fields_are_stable one_agent
           (coordinator.OpUpdateHealth "a1" overfull (t0 + Second)) "a1" _ _
           one_agent_lookup Hl').
  intros req now1 now2 Hop. discriminate Hop.
Defined.

Lemma run_well_formed (hb : Duration) (history : list coordinator.Op) (k : string)
    (a : AgentInfo) :
  agents (coordinator.run hb history) !! k = Some a ->
  ID a = k /\ k <> "" /\ Endpoint a <> "" /\ Status a <> StatusNone.
Proof.
  unfold coordinator.run. revert k a.
  induction history as [|op history IH] using rev_ind; intros k a.
  - cbn. rewrite lookup_empty. discriminate.
  - rewrite fold_left_app. cbn [fold_left]. intros Hl.
    destruct (step_lookup _ op k a Hl)
      as [(req & n1 & n2 & -> & Hid & Hne & Hep & ->) | (a0 & Hl0 & Hs & Hst)].
    + cbn. auto.
    + destruct (IH k a0 Hl0) as (H1 & H2 & H3 & H4).
      destruct Hs as (Hi & He & _). rewrite Hi, He. auto.
Qed.

(** X12.  In every registry reached from an empty one by the operations of
    the coordinator, the agents that a listing visits have pairwise
    distinct ids, and each is stored under its own id with a non-empty id,
    a non-empty endpoint and a status that is set. *)
Theorem listed_agents_are_distinct (hb : Duration) (history : list coordinator.Op)
    (visit : list AgentInfo) :
  range_of (coordinator.run hb history) visit ->
  NoDup (map ID visit)
  /\ Forall (fun a => agents (coordinator.run hb history) !! ID a = Some a
                      /\ ID a <> "" /\ Endpoint a <> "" /\ Status a <> StatusNone) visit.
Proof.
  intros Hrange. set (r := coordinator.run hb history) in *.
  assert (Helem : forall k a, (k, a) ∈ map_to_list (agents r) -> ID a = k).
  { intros k a H. apply elem_of_map_to_list in H. apply (run_well_formed hb history k a H). }
  split.
  - unfold range_of in Hrange. rewrite Hrange.
    assert (Heq : map ID (map_to_list (agents r)).*2 = (map_to_list (agents r)).*1).
    { generalize Helem. generalize (map_to_list (agents r)). clear.
      induction l as [|[k a] l IH]; intros H; [reflexivity|]. cbn. f_equal.
      - apply H. left.
      - apply IH. intros k' a' Hin. apply H. right. exact Hin. }
    rewrite Heq. apply NoDup_fst_map_to_list.
  - apply List.Forall_forall. intros a Ha.
    apply (range_of_In r visit a Hrange) in Ha as [k Hk].
    destruct (run_well_formed hb history k a Hk) as (H1 & H2 & H3 & H4).
    rewrite H1. auto.
Qed.

(** X12, witness: the registry of two agents. *)
Lemma listed_agents_are_distinct_witness :
  range_of mixed [hot_agent; busy_agent]
  /\ NoDup (map ID [hot_agent; busy_agent]).
Proof.
  split; [exact mixed_range|].
  exact (proj1 (listed_agents_are_distinct (30 * Second) _ [hot_agent; busy_agent] mixed_range)).
Defined.

(** ** Registry: statistics and listings *)

Lemma List_filter_Permutation {A} (f : A -> bool) (l1 l2 : list A) :
  l1 ≡ₚ l2 -> List.filter f l1 ≡ₚ List.filter f l2.
Proof.
  induction 1 as [|x l1 l2 _ IH|x y l|l1 l2 l3 _ IH1 _ IH2]; cbn.
  - reflexivity.
  - destruct (f x); [constructor|]; exact IH.
  - destruct (f x), (f y); try reflexivity. apply perm_swap.
  - etransitivity; eassumption.
Qed.

Lemma NoDup_fst_filter {K A} (P : K * A -> Prop) `{!forall x, Decision (P x)}
    (l : list (K * A)) :
  NoDup l.*1 -> NoDup (filter P l).*1.
Proof.
  induction l as [|x l IH]; [intros; constructor|].
  rewrite fmap_cons, NoDup_cons. intros [Hx Hl].
  rewrite filter_cons. destruct (decide (P x)); [|apply IH, Hl].
  rewrite fmap_cons, NoDup_cons. split; [|apply IH, Hl].
  intros Hin. apply Hx. apply list_elem_of_fmap in Hin as (y & -> & Hy).
  apply list_elem_of_fmap. exists y. split; [reflexivity|].
  apply list_elem_of_filter in Hy. tauto.
Qed.

Lemma length_filter_healthy (l : list (string * AgentInfo)) :
  length (ListHealthyAgents l.*2)
  = length (filter (fun kv : string * AgentInfo => Status kv.2 = StatusHealthy) l).
Proof.
  unfold ListHealthyAgents. induction l as [|[k a] l IH]; [reflexivity|].
  rewrite fmap_cons, filter_cons. cbn [List.filter snd].
  destruct (decide (Status a = StatusHealthy)) as [Hs | Hs].
  - rewrite bool_decide_eq_true_2 by exact Hs. cbn. rewrite IH. reflexivity.
  - rewrite bool_decide_eq_false_2 by exact Hs. exact IH.
Qed.

Lemma GetStats_counts (r : InMemoryRegistry) (visit : list AgentInfo) :
  range_of r visit ->
  GetStats r = (Z.of_nat (length (ListAllAgents visit)),
                Z.of_nat (length (ListHealthyAgents visit))).
Proof.
  unfold range_of, GetStats, ListAllAgents. intros Hperm. f_equal; f_equal.
  - rewrite Hperm, length_fmap, length_map_to_list. reflexivity.
  - unfold ListHealthyAgents.
    rewrite (Permutation_length (List_filter_Permutation _ _ _ Hperm)).
    fold (ListHealthyAgents (map_to_list (agents r)).*2).
    rewrite length_filter_healthy, map_filter_alt.
    rewrite map_size_list_to_map; [reflexivity|].
    apply NoDup_fst_filter, NoDup_fst_map_to_list.
Qed.

Lemma length_ListHealthyAgents_le (visit : list AgentInfo) :
  (length (ListHealthyAgents visit) <= length visit)%nat.
Proof. unfold ListHealthyAgents. apply List.filter_length_le. Qed.

(** X13.  [GetStats] returns the number of agents that [ListAllAgents]
    returns and the number that [ListHealthyAgents] returns, in whatever
    order each of them ranges over the map; the healthy count is between
    zero and the total. *)
Theorem GetStats_agrees_with_listings (r : InMemoryRegistry)
    (visitAll visitHealthy : list AgentInfo) :
  range_of r visitAll -> range_of r visitHealthy ->
  GetStats r = (Z.of_nat (length (ListAllAgents visitAll)),
                Z.of_nat (length (ListHealthyAgents visitHealthy)))
  /\ 0 <= (GetStats r).2 <= (GetStats r).1.
Proof.
  intros Hall Hhealthy.
  pose proof (GetStats_counts r visitAll Hall) as H1.
  pose proof (GetStats_counts r visitHealthy Hhealthy) as H2.
  split.
  - rewrite H1. rewrite H1 in H2. injection H2 as _ Hb. rewrite Hb. reflexivity.
  - rewrite H1. cbn [fst snd]. pose proof (length_ListHealthyAgents_le visitAll).
    unfold ListAllAgents. lia.
Qed.

(** X13, witness: two agents, one of them Healthy. *)
Lemma GetStats_agrees_with_listings_witness :
  (range_of mixed [hot_agent; busy_agent] /\ range_of mixed [busy_agent; hot_agent])
  /\ GetStats mixed = (2, 1).
Proof.
  assert (Hswap : range_of mixed [busy_agent; hot_agent]).
  { unfold range_of. rewrite <- mixed_range. apply perm_swap. }
  split; [exact (conj mixed_range Hswap)|].
  rewrite (proj1 (GetStats_agrees_with_listings mixed [hot_agent; busy_agent]
                    [busy_agent; hot_agent] mixed_range Hswap)).
  reflexivity.
Defined.



(** ** Schedulers: admission by VRAM, round robin *)

Lemma estimate_values (model : string) :
  scheduler.estimateModelVRAMRequirement model = 2048
  \/ scheduler.estimateModelVRAMRequirement model = 4096
  \/ scheduler.estimateModelVRAMRequirement model = 6144
  \/ scheduler.estimateModelVRAMRequirement model = 10240.
Proof.
  unfold scheduler.estimateModelVRAMRequirement.
  repeat match goal with |- context [if ?b then _ else _] => destruct b end; auto.
Qed.

(** X15.  The MCDA admission test never admits an agent with less than
    2048 MB of free VRAM, whatever the model; with 10240 MB free, a free
    job slot, a status other than Offline and a matching model list it
    admits every model; and in between, it admits exactly when the free
    VRAM reaches the estimate for the model. *)
Theorem supportsModel_vram_bounds (a : AgentInfo) (model : string) :
  (scheduler.supportsModel a model = true ->
     2048 <= FreeVRAMMB a /\ RunningJobs a < MaxJobs a /\ Status a <> StatusOffline)
  /\ (10240 <= FreeVRAMMB a -> RunningJobs a < MaxJobs a -> Status a <> StatusOffline ->
      SupportedModels a = [] \/ In model (SupportedModels a) ->
      scheduler.supportsModel a model = true)
  /\ (RunningJobs a < MaxJobs a -> Status a <> StatusOffline ->
      SupportedModels a = [] \/ In model (SupportedModels a) ->
      (scheduler.supportsModel a model = true
       <-> scheduler.estimateModelVRAMRequirement model <= FreeVRAMMB a)).
Proof.
  pose proof (estimate_values model) as Hest.
  split; [|split].
  - intros H. apply supportsModel_true in H as (Hoff & Hv & Hj & _).
    split; [lia | auto].
  - intros Hv Hj Hoff Hm. apply supportsModel_true. repeat split; auto. lia.
  - intros Hj Hoff Hm. rewrite supportsModel_true. tauto.
Qed.

(** X15, witness: an idle agent with 16384 MB free is admitted for a 13B
    model. *)
Lemma supportsModel_vram_bounds_witness :
  (10240 <= FreeVRAMMB (fresh "big" 16384 4 [] t0)
   /\ RunningJobs (fresh "big" 16384 4 [] t0) < MaxJobs (fresh "big" 16384 4 [] t0)
   /\ Status (fresh "big" 16384 4 [] t0) <> StatusOffline
   /\ (SupportedModels (fresh "big" 16384 4 [] t0) = []
       \/ In "codellama-13B" (SupportedModels (fresh "big" 16384 4 [] t0))))
  /\ scheduler.supportsModel (fresh "big" 16384 4 [] t0) "codellama-13B" = true.
Proof.
  assert (Hv : 10240 <= FreeVRAMMB (fresh "big" 16384 4 [] t0)) by (vm_compute; discriminate).
  assert (Hj : RunningJobs (fresh "big" 16384 4 [] t0) < MaxJobs (fresh "big" 16384 4 [] t0))
    by reflexivity.
  assert (Ho : Status (fresh "big" 16384 4 [] t0) <> StatusOffline) by discriminate.
  assert (Hm : SupportedModels (fresh "big" 16384 4 [] t0) = []
               \/ In "codellama-13B" (SupportedModels (fresh "big" 16384 4 [] t0)))
    by (left; reflexivity).
  split; [exact (conj Hv (conj Hj (conj Ho Hm)))|].
  destruct (supportsModel_vram_bounds (fresh "big" 16384 4 [] t0) "codellama-13B")
    as (_ & H & _).
  exact (H Hv Hj Ho Hm).
Defined.

(** ** Round robin *)

Lemma compatibleOf_nonempty (model : string) (agents : list AgentInfo) :
  agents <> [] -> scheduler.compatibleOf model agents <> [].
Proof.
  intros Hne. unfold scheduler.compatibleOf.
  destruct (length _ =? 0)%nat eqn:He; [exact Hne|].
  intros Heq. rewrite Heq in He. discriminate.
Qed.

Lemma compatibleOf_In (model : string) (agents : list AgentInfo) (a : AgentInfo) :
  In a (scheduler.compatibleOf model agents) ->
  In a agents
  /\ (scheduler.RoundRobinScheduler_supportsModel a model = true
      \/ forall b, In b agents -> scheduler.RoundRobinScheduler_supportsModel b model = false).
Proof.
  unfold scheduler.compatibleOf.
  destruct (length _ =? 0)%nat eqn:He.
  - apply length_zero_iff_nil in He. intros Ha. split; [exact Ha|]. right.
    intros b Hb. destruct (scheduler.RoundRobinScheduler_supportsModel b model) eqn:Hs;
      [|reflexivity].
    assert (Hin : In b (List.filter
                    (fun agent => scheduler.RoundRobinScheduler_supportsModel agent model)
                    agents)) by (apply filter_In; auto).
    rewrite He in Hin. contradiction.
  - intros Ha. apply filter_In in Ha as [Ha Hs]. auto.
Qed.

(** One call, from an index the scheduler can hold. *)
Lemma RoundRobin_step (s : scheduler.RoundRobinScheduler) (visit : list AgentInfo)
    (model : string) :
  ListHealthyAgents visit <> [] ->
  -1 <= scheduler.lastIndex s < maxInt64 ->
  let compatible := scheduler.compatibleOf model (ListHealthyAgents visit) in
  let next := (scheduler.lastIndex s + 1) mod Z.of_nat (length compatible) in
  exists a,
    nth_error compatible (Z.to_nat next) = Some a
    /\ 0 <= next < Z.of_nat (length compatible)
    /\ scheduler.RoundRobinScheduler_SelectAgent s visit model
       = (Ok a, {| scheduler.lastIndex := next |}).
Proof.
  intros Hne Hidx. cbn zeta. unfold scheduler.RoundRobinScheduler_SelectAgent.
  destruct (length (ListHealthyAgents visit) =? 0)%nat eqn:Hh.
  { apply length_zero_iff_nil in Hh. contradiction. }
  set (compatible := scheduler.compatibleOf model (ListHealthyAgents visit)).
  assert (Hlen : 0 < Z.of_nat (length compatible)).
  { pose proof (compatibleOf_nonempty model _ Hne) as H. fold compatible in H.
    destruct compatible; [contradiction | cbn; lia]. }
  assert (Hw : wrap64 (scheduler.lastIndex s + 1) = scheduler.lastIndex s + 1).
  { unfold wrap64, wrap, maxInt64 in *.
    change (2 ^ (64 - 1)) with 9223372036854775808.
    change (2 ^ 64) with 18446744073709551616.
    change (2 ^ 63) with 9223372036854775808 in Hidx.
    rewrite Z.mod_small; lia. }
  rewrite Hw, Z.rem_mod_nonneg by lia.
  pose proof (Z.mod_pos_bound (scheduler.lastIndex s + 1) _ Hlen) as Hb.
  set (next := (scheduler.lastIndex s + 1) mod Z.of_nat (length compatible)) in *.
  assert (Hneg : (next <? 0) = false) by (apply Z.ltb_ge; lia).
  rewrite Hneg.
  destruct (nth_error compatible (Z.to_nat next)) as [a|] eqn:Hnth.
  - exists a. auto.
  - apply nth_error_None in Hnth. lia.
Qed.

(** X16.  The round-robin [SelectAgent], from an index within the range of
    [int]: it fails, leaving the index alone, exactly when no agent is
    Healthy; otherwise it returns a listed Healthy agent, which passes the
    round-robin model test unless no Healthy agent does, and the index it
    stores is a position of the listing. *)
Theorem RoundRobin_SelectAgent_in_range (s : scheduler.RoundRobinScheduler)
    (visit : list AgentInfo) (model : string) :
  -1 <= scheduler.lastIndex s < maxInt64 ->
  let out := scheduler.RoundRobinScheduler_SelectAgent s visit model in
  match out.1 with
  | Ok a =>
      In a visit /\ Status a = StatusHealthy
      /\ (scheduler.RoundRobinScheduler_supportsModel a model = true
          \/ forall b, In b visit -> Status b = StatusHealthy ->
               scheduler.RoundRobinScheduler_supportsModel b model = false)
      /\ 0 <= scheduler.lastIndex out.2 < Z.of_nat (length visit)
  | Err msg =>
      msg = "no healthy agents available" /\ out.2 = s
      /\ forall b, In b visit -> Status b <> StatusHealthy
  end.
Proof.
  intros Hidx. cbn zeta.
  destruct (ListHealthyAgents visit) as [|h hs] eqn:Hh.
  - unfold scheduler.RoundRobinScheduler_SelectAgent. rewrite Hh. cbn.
    split; [reflexivity|]. split; [reflexivity|].
    intros b Hb Hs. assert (Hin : In b (ListHealthyAgents visit))
      by (apply ListHealthyAgents_In; auto).
    rewrite Hh in Hin. contradiction.
  - assert (Hne : ListHealthyAgents visit <> []) by (rewrite Hh; discriminate).
    destruct (RoundRobin_step s visit model Hne Hidx) as (a & Hnth & Hb & ->).
    cbn [fst snd scheduler.lastIndex].
    apply nth_error_In in Hnth.
    pose proof (compatibleOf_In model _ a Hnth) as [Ha Hsup].
    apply ListHealthyAgents_In in Ha as [Ha Hs].
    split; [exact Ha|]. split; [exact Hs|]. split.
    + destruct Hsup as [Hsup | Hnone]; [left; exact Hsup | right].
      intros b Hb' Hsb. apply Hnone, ListHealthyAgents_In. auto.
    + assert (Hlen : (length (scheduler.compatibleOf model (ListHealthyAgents visit))
                      <= length visit)%nat).
      { unfold scheduler.compatibleOf.
        destruct (length _ =? 0)%nat.
        - apply length_ListHealthyAgents_le.
        - etransitivity; [apply List.filter_length_le | apply length_ListHealthyAgents_le]. }
      lia.
Qed.

(** The calls that follow, over the same listing. *)
Lemma RoundRobin_run_nth (visit : list AgentInfo) (model : string) (calls : nat) :
  ListHealthyAgents visit <> [] ->
  let compatible := scheduler.compatibleOf model (ListHealthyAgents visit) in
  forall (s : scheduler.RoundRobinScheduler) (j : nat),
    -1 <= scheduler.lastIndex s < Z.of_nat (length compatible) ->
    Z.of_nat (length compatible) <= maxInt64 ->
    (j < calls)%nat ->
    nth_error (scheduler.RoundRobinScheduler_run s visit model calls).1 j
    = option_map Ok
        (nth_error compatible
           (Z.to_nat ((scheduler.lastIndex s + 1 + Z.of_nat j)
                      mod Z.of_nat (length compatible)))).
Proof.
  intros Hne compatible. induction calls as [|calls IH]; intros s j Hidx Hmax Hj; [lia|].
  cbn [scheduler.RoundRobinScheduler_run].
  destruct (RoundRobin_step s visit model Hne ltac:(lia)) as (a & Hnth & Hb & ->).
  fold compatible in Hnth, Hb |- *.
  set (s1 := {| scheduler.lastIndex :=
                  (scheduler.lastIndex s + 1) mod Z.of_nat (length compatible) |}).
  specialize (IH s1 (pred j)).
  destruct (scheduler.RoundRobinScheduler_run s1 visit model calls) as [more s''].
  cbn [fst] in IH |- *. destruct j as [|j].
  - cbn [nth_error]. rewrite Z.add_0_r. rewrite Hnth. reflexivity.
  - cbn [nth_error]. cbn [pred scheduler.lastIndex s1] in IH.
    rewrite IH by (cbn [scheduler.lastIndex s1]; lia). do 3 f_equal.
    rewrite <- Z.add_assoc, Zplus_mod_idemp_l. f_equal. lia.
Qed.

(** X17.  Over an unchanged listing with at least one Healthy agent, a new
    round-robin scheduler returns the compatible agents in turn: call
    number [j], counting from zero, returns the agent at position [j]
    modulo the number of compatible agents. *)
Theorem RoundRobin_rotates (visit : list AgentInfo) (model : string) (calls j : nat) :
  ListHealthyAgents visit <> [] ->
  Z.of_nat (length visit) <= maxInt64 ->
  (j < calls)%nat ->
  let compatible := scheduler.compatibleOf model (ListHealthyAgents visit) in
  exists a,
    nth_error compatible (j mod length compatible) = Some a
    /\ nth_error (scheduler.RoundRobinScheduler_run scheduler.NewRoundRobinScheduler
                    visit model calls).1 j = Some (Ok a).
Proof.
  intros Hne Hmax Hj compatible.
  assert (Hlen : (0 < length compatible)%nat).
  { pose proof (compatibleOf_nonempty model _ Hne) as H. fold compatible in H.
    destruct compatible; [contradiction | cbn; lia]. }
  assert (Hle : (length compatible <= length visit)%nat).
  { unfold compatible, scheduler.compatibleOf.
    destruct (length _ =? 0)%nat.
    - apply length_ListHealthyAgents_le.
    - etransitivity; [apply List.filter_length_le | apply length_ListHealthyAgents_le]. }
  pose proof (RoundRobin_run_nth visit model calls Hne scheduler.NewRoundRobinScheduler j) as H.
  fold compatible in H. cbn [scheduler.lastIndex scheduler.NewRoundRobinScheduler] in H.
  rewrite H by lia. clear H.
  replace (-1 + 1 + Z.of_nat j) with (Z.of_nat j) by lia.
  rewrite <- Nat2Z.inj_mod, Nat2Z.id.
  destruct (nth_error compatible (j mod length compatible)) as [a|] eqn:Hnth.
  - exists a. split; reflexivity.
  - apply nth_error_None in Hnth. pose proof (Nat.mod_upper_bound j (length compatible)). lia.
Qed.

(** X17, witness: with two agents the third call returns the first agent
    again. *)
Lemma RoundRobin_rotates_witness :
  (ListHealthyAgents [twin "b"; twin "a"] <> []
   /\ Z.of_nat (length [twin "b"; twin "a"]) <= maxInt64
   /\ (2 < 3)%nat)
  /\ nth_error (scheduler.RoundRobinScheduler_run scheduler.NewRoundRobinScheduler
                  [twin "b"; twin "a"] model7b 3).1 2 = Some (Ok (twin "b")).
Proof.
  assert (Hne : ListHealthyAgents [twin "b"; twin "a"] <> []) by discriminate.
  assert (Hmax : Z.of_nat (length [twin "b"; twin "a"]) <= maxInt64)
    by (vm_compute; discriminate).
  assert (Hj : (2 < 3)%nat) by lia.
  split; [exact (conj Hne (conj Hmax Hj))|].
  destruct (RoundRobin_rotates [twin "b"; twin "a"] model7b 3 2 Hne Hmax Hj)
    as (a & Hnth & Hrun).
  rewrite Hrun. vm_compute in Hnth. injection Hnth as <-. reflexivity.
Defined.

(** X16, witness: a Degraded and a Healthy agent. *)
Lemma RoundRobin_SelectAgent_in_range_witness :
  -1 <= scheduler.lastIndex scheduler.NewRoundRobinScheduler < maxInt64
  /\ exists a s',
       scheduler.RoundRobinScheduler_SelectAgent scheduler.NewRoundRobinScheduler
         [hot_agent; busy_agent] model7b = (Ok a, s')
       /\ Status a = StatusHealthy.
Proof.
  assert (Hidx : -1 <= scheduler.lastIndex scheduler.NewRoundRobinScheduler < maxInt64)
    by (vm_compute; split; [discriminate | reflexivity]).
  split; [exact Hidx|].
  pose proof (RoundRobin_SelectAgent_in_range scheduler.NewRoundRobinScheduler
                [hot_agent; busy_agent] model7b Hidx) as H.
  cbn zeta in H.
  destruct (scheduler.RoundRobinScheduler_SelectAgent _ _ _) as [[a | msg] s'] eqn:Hsel.
  - exists a, s'. split; [reflexivity | apply H].
  - exfalso. vm_compute in Hsel. discriminate.
Defined.

(** ** Server: tokens, requests, health stream *)

Lemma Unix_Truncate (t : Time) : Unix (Truncate t Second) = Unix t.
Proof.
  unfold Unix, Truncate.
  rewrite (Z.div_mod t Second) at 1 by (unfold Second; lia).
  replace (Second * (t / Second) + t mod Second - t mod Second)
    with ((t / Second) * Second) by lia.
  apply Z.div_mul. unfold Second. lia.
Qed.

Lemma Truncate_mono (t u : Time) : t <= u -> Truncate t Second <= Truncate u Second.
Proof.
  intros H. unfold Truncate.
  pose proof (Z.div_le_mono t u Second ltac:(reflexivity) H) as Hd.
  rewrite (Z.mod_eq t Second), (Z.mod_eq u Second) by (unfold Second; lia).
  unfold Second in *. lia.
Qed.

(** X18.  [ValidateToken] accepts a token exactly when its header names an
    RSA method, the signature verifies under the manager's public key and
    the time of presentation is at or after [nbf] and before [exp]; what it
    returns is then the claims of the token. *)
Theorem ValidateToken_accepts_exactly `{RSA : jwt.SigningMethodRSA server.JWTClaims}
    (j : server.JWTManager) (now : Time) (token : jwt.Token server.JWTClaims)
    (c : server.JWTClaims) :
  server.ValidateToken j now token = Ok c
  <-> (jwt.isRSAMethod (jwt.alg token) = true
       /\ jwt.Verify (server.publicKey j) (jwt.alg token) (jwt.claims token)
            (jwt.signature token) = true
       /\ jwt.NotBefore (server.Registered (jwt.claims token)) <= now
          < jwt.ExpiresAt (server.Registered (jwt.claims token))
       /\ c = jwt.claims token).
Proof.
  unfold server.ValidateToken, jwt.validateClaims, Before.
  destruct (jwt.isRSAMethod (jwt.alg token)); cbn [negb];
    [|split; [discriminate | intros [? _]; discriminate]].
  destruct (jwt.Verify _ _ _ _); cbn [negb];
    [|split; [discriminate | intros (_ & ? & _); discriminate]].
  destruct (Z.ltb_spec now (jwt.ExpiresAt (server.Registered (jwt.claims token))));
    cbn [negb]; [|split; [discriminate | intros (_ & _ & ? & _); lia]].
  destruct (Z.ltb_spec now (jwt.NotBefore (server.Registered (jwt.claims token))));
    [split; [discriminate | intros (_ & _ & ? & _); lia]|].
  split.
  - intros [= <-]. auto.
  - intros (_ & _ & _ & ->). reflexivity.
Qed.

(** X19.  For any TTL, a token signed by [GenerateToken] under a key whose
    signatures verify is accepted exactly from the second in which it was
    minted up to, and not including, the second in which mint time plus TTL
    falls.  It is never accepted at or after mint time plus TTL, it is
    rejected as not yet valid before the second of minting, and it is
    accepted at any time from minting to one second before the TTL
    runs out. *)
Theorem token_lifetime_any_ttl `{RSA : jwt.SigningMethodRSA server.JWTClaims}
    (sk : jwt.PrivateKey) (now : Time) (id agentID clientID model : string)
    (ttl : Duration) (token : jwt.Token server.JWTClaims) (presented : Time) :
  jwt.sound_key sk ->
  server.GenerateToken (server.NewJWTManager sk) now id agentID clientID model ttl
  = Ok token ->
  let accepted :=
    server.ValidateToken (server.NewJWTManager sk) presented token
    = Ok (jwt.claims token) in
  (accepted <-> Truncate now Second <= presented < Truncate (Add now ttl) Second)
  /\ (Add now ttl <= presented ->
      server.ValidateToken (server.NewJWTManager sk) presented token
      = Err "failed to parse token: token is expired")
  /\ (presented < Truncate now Second ->
      Truncate now Second < Truncate (Add now ttl) Second ->
      server.ValidateToken (server.NewJWTManager sk) presented token
      = Err "failed to parse token: token is not valid yet")
  /\ (now <= presented <= Add now ttl - Second -> accepted).
Proof.
  intros Hkey Hgen. unfold server.GenerateToken in Hgen.
  destruct (jwt.Sign _ _ _) as [sig|] eqn:Hsign; [|discriminate].
  injection Hgen as <-. cbn zeta.
  set (c := server.mintClaims now id agentID clientID model ttl) in *.
  pose proof (Hkey "RS256"%string c sig eq_refl Hsign) as Hver.
  pose proof (Truncate_le now) as Hnow.
  pose proof (Truncate_le (Add now ttl)) as Hexp.
  unfold server.ValidateToken, jwt.validateClaims, Before.
  cbn [jwt.alg jwt.claims jwt.signature server.NewJWTManager server.publicKey].
  change (jwt.isRSAMethod "RS256") with true. rewrite Hver. cbn [negb].
  change (jwt.ExpiresAt (server.Registered c)) with (Truncate (Add now ttl) Second).
  change (jwt.NotBefore (server.Registered c)) with (Truncate now Second).
  destruct (Z.ltb_spec presented (Truncate (Add now ttl) Second)) as [H1 | H1]; cbn [negb];
    [destruct (Z.ltb_spec presented (Truncate now Second)) as [H2 | H2]|].
  - split; [split; [discriminate | lia]|].
    split; [lia|]. split; [reflexivity|]. lia.
  - split; [split; [lia | reflexivity]|].
    split; [lia|]. split; [lia|]. reflexivity.
  - split; [split; [discriminate | lia]|].
    split; [reflexivity|]. split; [lia|]. unfold Second in *. lia.
Qed.

(** X19, witness: the token minted for 60 s is expired 60 s later. *)
Lemma token_lifetime_any_ttl_witness :
  (jwt.sound_key (H := toy.RSA) toy.d
   /\ server.GenerateToken (server.NewJWTManager toy.d) t0 "jti-1" "a1" "c1"
        "llama3:7b" (60 * Second) = Ok minted
   /\ Add t0 (60 * Second) <= t0 + 60 * Second)
  /\ server.ValidateToken (server.NewJWTManager toy.d) (t0 + 60 * Second) minted
     = Err "failed to parse token: token is expired".
Proof.
  assert (Hgen : server.GenerateToken (server.NewJWTManager toy.d) t0 "jti-1" "a1"
                   "c1" "llama3:7b" (60 * Second) = Ok minted) by reflexivity.
  assert (Hlate : Add t0 (60 * Second) <= t0 + 60 * Second) by (unfold Add; lia).
  split; [exact (conj toy_sound_key (conj Hgen Hlate))|].
  exact (proj1 (proj2 (token_lifetime_any_ttl (RSA := toy.RSA) toy.d t0 "jti-1" "a1" "c1"
                         "llama3:7b" (60 * Second) minted (t0 + 60 * Second)
                         toy_sound_key Hgen)) Hlate).
Defined.

(** What a successful [RequestInference] went through. *)
Lemma RequestInference_response `{RSA : jwt.SigningMethodRSA server.JWTClaims}
    (SelectAgent : string -> result AgentInfo)
    (s s' : server.CoordinatorServer) (d : server.Draws) (req : server.InferenceRequest)
    (resp : server.InferenceResponse) :
  server.RequestInference SelectAgent s d req = (server.Response resp, s') ->
  exists agent signed,
    server.ClientId req <> "" /\ server.req_Model req <> "" /\ server.Prompt req <> ""
    /\ SelectAgent (server.req_Model req) = Ok agent
    /\ server.GenerateToken (server.jwtManager s) (server.now_jwt d) (server.uuid_jti d)
         (ID agent) (server.ClientId req) (server.req_Model req)
         (config.TokenTTL (server.cfg s)) = Ok signed
    /\ resp = {| server.AgentEndpoint := Endpoint agent;
                 server.SessionTokenJWT := signed;
                 server.resp_ExpiresAt :=
                   Unix (Add (server.now_session d) (config.TokenTTL (server.cfg s)));
                 server.JobId := server.uuid_job d;
                 server.EstimatedRttMs := RTTMs agent;
                 server.AgentId := ID agent |}
    /\ s' = server.with_tokens s
              (<[server.uuid_token d :=
                   {| server.st_ID := server.uuid_token d;
                      server.st_AgentID := ID agent;
                      server.st_ClientID := server.ClientId req;
                      server.st_Model := server.req_Model req;
                      server.st_IssuedAt := server.now_session d;
                      server.st_ExpiresAt :=
                        Add (server.now_session d) (config.TokenTTL (server.cfg s));
                      server.st_JWTToken := signed |}]> (server.tokens s)).
Proof.
  unfold server.RequestInference.
  destruct (String.eqb_spec (server.ClientId req) ""); [discriminate|].
  destruct (String.eqb_spec (server.req_Model req) ""); [discriminate|].
  destruct (String.eqb_spec (server.Prompt req) ""); [discriminate|].
  destruct (SelectAgent (server.req_Model req)) as [agent|]; [|discriminate].
  unfold server.generateSessionToken.
  destruct (server.GenerateToken _ _ _ _ _ _ _) as [signed|] eqn:Hgen; [|discriminate].
  intros [= <- <-]. exists agent, signed. repeat split; auto.
Qed.

(** X20.  The token of a successful [RequestInference] is an RS256 token whose
    claims name the agent of the response, the client and the model of the
    request, and the drawn token id.  When the session clock reading is
    not after the one of [GenerateToken], the expiry announced in the
    response is not after the expiry claim of the token, and at most one
    second before it when the two readings are less than a second
    apart. *)
Theorem advertised_expiry_within_token `{RSA : jwt.SigningMethodRSA server.JWTClaims}
    (SelectAgent : string -> result AgentInfo)
    (s s' : server.CoordinatorServer) (d : server.Draws) (req : server.InferenceRequest)
    (resp : server.InferenceResponse) :
  server.RequestInference SelectAgent s d req = (server.Response resp, s') ->
  server.now_session d <= server.now_jwt d ->
  let c := jwt.claims (server.SessionTokenJWT resp) in
  server.AgentID c = server.AgentId resp
  /\ server.ClientID c = server.ClientId req
  /\ server.Model c = server.req_Model req
  /\ jwt.ID (server.Registered c) = server.uuid_jti d
  /\ jwt.alg (server.SessionTokenJWT resp) = "RS256"
  /\ server.resp_ExpiresAt resp <= Unix (jwt.ExpiresAt (server.Registered c))
  /\ (server.now_jwt d < server.now_session d + Second ->
      Unix (jwt.ExpiresAt (server.Registered c)) <= server.resp_ExpiresAt resp + 1).
Proof.
  intros Hreq Hclock.
  destruct (RequestInference_response _ _ _ _ _ _ Hreq)
    as (agent & signed & _ & _ & _ & _ & Hgen & -> & _).
  unfold server.GenerateToken in Hgen.
  destruct (jwt.Sign _ _ _) as [sig|]; [|discriminate].
  injection Hgen as <-.
  cbn [server.SessionTokenJWT server.AgentId server.resp_ExpiresAt jwt.claims jwt.alg
       server.mintClaims server.AgentID server.ClientID server.Model server.Registered
       jwt.ID jwt.ExpiresAt].
  repeat (split; [reflexivity|]).
  unfold jwt.NewNumericDate, jwt.TimePrecision. rewrite Unix_Truncate.
  unfold Unix, Add. split.
  - apply Z.div_le_mono; [reflexivity | lia].
  - intros Hnear.
    rewrite <- (Z.div_add _ 1 Second) by (unfold Second; lia).
    apply Z.div_le_mono; [reflexivity | lia].
Qed.

(** And conversely: a well-formed request, an agent selected and a token
    signed make the call succeed. *)
Lemma RequestInference_served `{RSA : jwt.SigningMethodRSA server.JWTClaims}
    (SelectAgent : string -> result AgentInfo)
    (s : server.CoordinatorServer) (d : server.Draws) (req : server.InferenceRequest)
    (agent : AgentInfo) (signed : jwt.Token server.JWTClaims) :
  server.ClientId req <> "" -> server.req_Model req <> "" -> server.Prompt req <> "" ->
  SelectAgent (server.req_Model req) = Ok agent ->
  server.GenerateToken (server.jwtManager s) (server.now_jwt d) (server.uuid_jti d)
    (ID agent) (server.ClientId req) (server.req_Model req)
    (config.TokenTTL (server.cfg s)) = Ok signed ->
  server.RequestInference SelectAgent s d req
  = (server.Response
       {| server.AgentEndpoint := Endpoint agent;
          server.SessionTokenJWT := signed;
          server.resp_ExpiresAt :=
            Unix (Add (server.now_session d) (config.TokenTTL (server.cfg s)));
          server.JobId := server.uuid_job d;
          server.EstimatedRttMs := RTTMs agent;
          server.AgentId := ID agent |},
     server.with_tokens s
       (<[server.uuid_token d :=
            {| server.st_ID := server.uuid_token d;
               server.st_AgentID := ID agent;
               server.st_ClientID := server.ClientId req;
               server.st_Model := server.req_Model req;
               server.st_IssuedAt := server.now_session d;
               server.st_ExpiresAt :=
                 Add (server.now_session d) (config.TokenTTL (server.cfg s));
               server.st_JWTToken := signed |}]> (server.tokens s))).
Proof.
  intros Hc Hm Hp Hsel Hgen. unfold server.RequestInference.
  destruct (String.eqb_spec (server.ClientId req) ""); [contradiction|].
  destruct (String.eqb_spec (server.req_Model req) ""); [contradiction|].
  destruct (String.eqb_spec (server.Prompt req) ""); [contradiction|].
  rewrite Hsel. unfold server.generateSessionToken. rewrite Hgen. reflexivity.
Qed.

Lemma twins_request_served :
  server.RequestInference (RSA := toy.RSA) SelectAmongTwins server0 draws0 with_prompt
  = (server.Response served, server.with_tokens server0 {[ "tok-1"%string := session0 ]}).
Proof.
  assert (Hsel : SelectAmongTwins (server.req_Model with_prompt) = Ok (twin "b"))
    by (vm_compute; reflexivity).
  rewrite (RequestInference_served (RSA := toy.RSA) SelectAmongTwins server0 draws0
             with_prompt (twin "b") minted_b); [reflexivity | | | | exact Hsel | reflexivity];
    discriminate.
Qed.

(** X20, witness: the request served by agent "b". *)
Lemma advertised_expiry_within_token_witness :
  (server.RequestInference (RSA := toy.RSA) SelectAmongTwins server0 draws0 with_prompt
   = (server.Response served, server.with_tokens server0 {[ "tok-1"%string := session0 ]})
   /\ server.now_session draws0 <= server.now_jwt draws0)
  /\ server.resp_ExpiresAt served
     <= Unix (jwt.ExpiresAt (server.Registered (jwt.claims (server.SessionTokenJWT served)))).
Proof.
  assert (Hclock : server.now_session draws0 <= server.now_jwt draws0)
    by (vm_compute; discriminate).
  split; [exact (conj twins_request_served Hclock)|].
  apply (advertised_expiry_within_token (RSA := toy.RSA) _ _ _ _ _ _
           twins_request_served Hclock).
Defined.

(** X21.  On a request body that decodes, the REST handler
    [handleInferenceRequest] and the gRPC handler [RequestInference], given
    the same scheduler answer, clock readings and UUIDs, leave the server
    in the same state and answer alike: 400 with the same message for
    InvalidArgument, 503 for Unavailable, 500 for Internal, and on success
    the same endpoint, token, expiry, round-trip estimate and agent id.
    Only the job id differs: it is derived from the clock in the REST
    handler and is a UUID in the gRPC handler. *)
Theorem REST_agrees_with_gRPC `{RSA : jwt.SigningMethodRSA server.JWTClaims}
    (SelectAgent : string -> result AgentInfo)
    (s : server.CoordinatorServer) (d : server.Draws) (now_job : Time)
    (req : server.InferenceRequestREST) :
  let rest := server.handleInferenceRequest SelectAgent s d now_job (Some req) in
  let grpc := server.RequestInference SelectAgent s d
                {| server.ClientId := server.rest_ClientID req;
                   server.req_Model := server.rest_Model req;
                   server.Prompt := server.rest_Prompt req;
                   server.MaxTokens := server.rest_MaxTokens req |} in
  rest.2 = grpc.2
  /\ match grpc.1, rest.1 with
     | server.Response a, server.HTTPOk b =>
         server.rest_AgentEndpoint b = server.AgentEndpoint a
         /\ server.rest_SessionToken b = server.SessionTokenJWT a
         /\ server.rest_ExpiresAt b = server.resp_ExpiresAt a
         /\ server.rest_EstimatedRTTMs b = server.EstimatedRttMs a
         /\ server.rest_AgentID b = server.AgentId a
         /\ server.rest_JobID b = server.generateJobID now_job
         /\ server.JobId a = server.uuid_job d
     | server.StatusError server.InvalidArgument msg, server.HTTPError e =>
         server.err_Code e = 400 /\ server.err_Message e = msg
     | server.StatusError server.Unavailable _, server.HTTPError e =>
         server.err_Code e = 503 /\ server.err_Error e = "no_agents"
     | server.StatusError server.Internal _, server.HTTPError e =>
         server.err_Code e = 500 /\ server.err_Error e = "token_generation_failed"
     | _, _ => False
     end.
Proof.
  cbn zeta. unfold server.handleInferenceRequest, server.RequestInference.
  cbn [server.ClientId server.req_Model server.Prompt].
  destruct (String.eqb (server.rest_ClientID req) ""); [repeat split|].
  destruct (String.eqb (server.rest_Model req) ""); [repeat split|].
  destruct (String.eqb (server.rest_Prompt req) ""); [repeat split|].
  assert (Hsame : forall r : server.InferenceRequestREST,
            server.rest_ClientID r = server.rest_ClientID req ->
            server.rest_Model r = server.rest_Model req ->
            (server.rest_ClientID
               (if PrimFloat.eqb (server.rest_Temperature r) 0%float
                then server.mkInferenceRequestREST (server.rest_ClientID r)
                       (server.rest_Model r) (server.rest_Prompt r)
                       (server.rest_MaxTokens r) 0x1.666666p-1%float
                else r) = server.rest_ClientID req)
            /\ (server.rest_Model
                  (if PrimFloat.eqb (server.rest_Temperature r) 0%float
                   then server.mkInferenceRequestREST (server.rest_ClientID r)
                          (server.rest_Model r) (server.rest_Prompt r)
                          (server.rest_MaxTokens r) 0x1.666666p-1%float
                   else r) = server.rest_Model req)).
  { intros r Hc Hm. destruct (PrimFloat.eqb _ _); cbn; auto. }
  match goal with
  | |- context [server.rest_Model (if PrimFloat.eqb (server.rest_Temperature ?r) _ then _ else _)] =>
      destruct (Hsame r) as [Hc Hm];
        [destruct (server.rest_MaxTokens req =? 0); reflexivity
        |destruct (server.rest_MaxTokens req =? 0); reflexivity|]
  end.
  rewrite Hc, Hm. clear Hsame Hc Hm.
  destruct (SelectAgent (server.rest_Model req)) as [agent|]; [|repeat split].
  destruct (server.generateSessionToken s d (ID agent) (server.rest_ClientID req)
              (server.rest_Model req)) as [[token|] s']; repeat split.
Qed.

(** X22.  After a successful [RequestInference], [cleanupExpiredTokens] keeps
    the new session exactly when it runs no later than the session expiry,
    treats every other session as it would have without the request, and
    leaves only sessions that have not expired.  It has no effect on
    [ValidateToken]: removing a session does not revoke its token. *)
Theorem session_purge_does_not_revoke `{RSA : jwt.SigningMethodRSA server.JWTClaims}
    (SelectAgent : string -> result AgentInfo)
    (s s' : server.CoordinatorServer) (d : server.Draws) (req : server.InferenceRequest)
    (resp : server.InferenceResponse) (later : Time) :
  server.RequestInference SelectAgent s d req = (server.Response resp, s') ->
  let purged := server.cleanupExpiredTokens s' later in
  (is_Some (server.tokens purged !! server.uuid_token d)
   <-> later <= Add (server.now_session d) (config.TokenTTL (server.cfg s)))
  /\ (forall id, id <> server.uuid_token d ->
        server.tokens purged !! id
        = server.tokens (server.cleanupExpiredTokens s later) !! id)
  /\ (forall id session, server.tokens purged !! id = Some session ->
        later <= server.st_ExpiresAt session)
  /\ (forall presented token,
        server.CoordinatorServer_ValidateToken purged presented token
        = server.CoordinatorServer_ValidateToken s presented token).
Proof.
  intros Hreq.
  destruct (RequestInference_response _ _ _ _ _ _ Hreq)
    as (agent & signed & _ & _ & _ & _ & _ & _ & ->).
  cbn zeta. unfold server.cleanupExpiredTokens, After.
  cbn [server.tokens server.with_tokens server.jwtManager server.cfg].
  split; [|split; [|split]].
  - unfold is_Some. split.
    + intros [session Hs]. apply map_lookup_filter_Some in Hs as [Hs Hkeep].
      rewrite lookup_insert_eq in Hs. injection Hs as <-.
      cbn [snd server.st_ExpiresAt] in Hkeep. apply Z.ltb_ge in Hkeep. exact Hkeep.
    + intros Hle. eexists. apply map_lookup_filter_Some. split.
      * apply lookup_insert_eq.
      * cbn [snd server.st_ExpiresAt]. apply Z.ltb_ge. exact Hle.
  - intros id Hid.
    rewrite !map_lookup_filter, lookup_insert_ne by congruence. reflexivity.
  - intros id session Hs. apply map_lookup_filter_Some in Hs as [_ Hkeep].
    cbn [snd] in Hkeep. apply Z.ltb_ge in Hkeep. exact Hkeep.
  - reflexivity.
Qed.

(** X22, witness: the session of the served request, purged 61 s later. *)
Lemma session_purge_does_not_revoke_witness :
  server.RequestInference (RSA := toy.RSA) SelectAmongTwins server0 draws0 with_prompt
  = (server.Response served, server.with_tokens server0 {[ "tok-1"%string := session0 ]})
  /\ (is_Some (server.tokens
                 (server.cleanupExpiredTokens
                    (server.with_tokens server0 {[ "tok-1"%string := session0 ]})
                    (t0 + 61 * Second)) !! server.uuid_token draws0)
      <-> t0 + 61 * Second
          <= Add (server.now_session draws0) (config.TokenTTL (server.cfg server0))).
Proof.
  split; [exact twins_request_served|].
  exact (proj1 (session_purge_does_not_revoke (RSA := toy.RSA) SelectAmongTwins server0 _
                  draws0 with_prompt served (t0 + 61 * Second) twins_request_served)).
Defined.

(** X23.  [RequestInference] over the MCDA scheduler, for a request with
    client id, model and prompt: it answers Unavailable exactly when no
    listed agent is Healthy, it never answers InvalidArgument, and every
    response names a listed Healthy agent, with that agent's endpoint and
    round-trip time, and carries a token issued for that agent. *)
Theorem RequestInference_over_MCDA `{RSA : jwt.SigningMethodRSA server.JWTClaims}
    (sort_Slice : (scheduler.AgentScore -> scheduler.AgentScore -> bool) ->
                  list scheduler.AgentScore -> list scheduler.AgentScore)
    (sch : scheduler.MCDAScheduler) (visit : list AgentInfo)
    (s : server.CoordinatorServer) (d : server.Draws) (req : server.InferenceRequest) :
  spec.sorts sort_Slice ->
  server.ClientId req <> "" -> server.req_Model req <> "" -> server.Prompt req <> "" ->
  let out := server.RequestInference (scheduler.SelectAgent sort_Slice sch visit) s d req in
  (out.1 = server.StatusError server.Unavailable "no agents available"
   <-> forall a, In a visit -> Status a <> StatusHealthy)
  /\ (forall msg, out.1 <> server.StatusError server.InvalidArgument msg)
  /\ (forall resp, out.1 = server.Response resp ->
        exists a, In a visit /\ Status a = StatusHealthy
                  /\ server.AgentId resp = ID a
                  /\ server.AgentEndpoint resp = Endpoint a
                  /\ server.EstimatedRttMs resp = RTTMs a
                  /\ server.AgentID (jwt.claims (server.SessionTokenJWT resp)) = ID a).
Proof.
  intros Hsorts Hc Hm Hp. cbn zeta. unfold server.RequestInference.
  destruct (String.eqb_spec (server.ClientId req) ""); [contradiction|].
  destruct (String.eqb_spec (server.req_Model req) ""); [contradiction|].
  destruct (String.eqb_spec (server.Prompt req) ""); [contradiction|].
  destruct (SelectAgent_cases sort_Slice sch visit (server.req_Model req) Hsorts)
    as [[Hnil ->] | (top & rest & Hsort & ->)].
  - cbn [fst]. split; [|split; [discriminate | discriminate]].
    split; [|reflexivity]. intros _ a Ha Hs.
    assert (Hin : In a (ListHealthyAgents visit)) by (apply ListHealthyAgents_In; auto).
    rewrite Hnil in Hin. exact Hin.
  - assert (Htop : In top (scheduler.candidatesOf sch (server.req_Model req)
                             (ListHealthyAgents visit))).
    { destruct (Hsorts scheduler.byScoreDesc
                  (scheduler.candidatesOf sch (server.req_Model req)
                     (ListHealthyAgents visit))) as [Hperm _].
      eapply Permutation_in; [exact Hperm|]. rewrite Hsort. left. reflexivity. }
    apply candidatesOf_In in Htop as (a & -> & Ha & Hs & _).
    rewrite Agent_calculateMCDAScore.
    unfold server.generateSessionToken, server.GenerateToken.
    destruct (jwt.Sign _ _ _) as [sig|]; cbn [fst].
    + split; [split; [discriminate | intros Hno; destruct (Hno a Ha Hs)]|].
      split; [discriminate|].
      intros resp [= <-]. exists a. repeat split; auto.
    + split; [split; [discriminate | intros Hno; destruct (Hno a Ha Hs)]|].
      split; [discriminate | discriminate].
Qed.

(** X23, witness: with only a Degraded agent listed the answer is
    Unavailable. *)
Lemma RequestInference_over_MCDA_witness :
  (spec.sorts (@sort.insertionSortLessFunc scheduler.AgentScore)
   /\ server.ClientId with_prompt <> "" /\ server.req_Model with_prompt <> ""
   /\ server.Prompt with_prompt <> "")
  /\ ((server.RequestInference (RSA := toy.RSA)
         (scheduler.SelectAgent sort.insertionSortLessFunc scheduler.NewMCDAScheduler
            [hot_agent]) server0 draws0 with_prompt).1
      = server.StatusError server.Unavailable "no agents available"
      <-> forall a, In a [hot_agent] -> Status a <> StatusHealthy).
Proof.
  assert (Hc : server.ClientId with_prompt <> "") by discriminate.
  assert (Hm : server.req_Model with_prompt <> "") by discriminate.
  assert (Hp : server.Prompt with_prompt <> "") by discriminate.
  split; [exact (conj insertionSort_sorts (conj Hc (conj Hm Hp)))|].
  exact (proj1 (RequestInference_over_MCDA (RSA := toy.RSA) sort.insertionSortLessFunc
                  scheduler.NewMCDAScheduler [hot_agent] server0 draws0 with_prompt
                  insertionSort_sorts Hc Hm Hp)).
Defined.



(** ** REST: job ids *)

Lemma digitValue36_digit36 (d : Z) :
  0 <= d < 36 ->
  spec.digitValue36 (digit36 d) = d /\ String (digit36 d) "" <> "-".
Proof.
  intros Hd.
  assert (Hall : forallb (fun k => (spec.digitValue36 (digit36 (Z.of_nat k)) =? Z.of_nat k)
                                   && negb (String.eqb (String (digit36 (Z.of_nat k)) "") "-"))
                   (seq 0 36) = true) by (vm_compute; reflexivity).
  pose proof (proj1 (forallb_forall _ _) Hall (Z.to_nat d)) as Hone.
  cbv beta in Hone. rewrite Z2Nat.id in Hone by lia.
  apply andb_true_iff in Hone as [H1 H2].
  - split; [apply Z.eqb_eq, H1|]. intros Heq. rewrite Heq in H2. discriminate.
  - apply in_seq. lia.
Qed.

Lemma value36_formatBits36 (fuel : nat) : forall (u : Z) (acc : string),
  0 <= u < 36 ^ Z.of_nat fuel ->
  spec.value36 (formatBits36 fuel u acc)
  = u * 36 ^ Z.of_nat (String.length acc) + spec.value36 acc.
Proof.
  induction fuel as [|fuel IH]; intros u acc Hu.
  - cbn in Hu. assert (u = 0) by lia. subst u. cbn [formatBits36]. lia.
  - cbn [formatBits36].
    pose proof (Z.mod_pos_bound u 36 ltac:(lia)) as Hm.
    pose proof (Z.div_mod u 36 ltac:(lia)) as Hdm.
    destruct (digitValue36_digit36 (u mod 36) Hm) as [Hdig _].
    destruct (Z.eqb_spec (u / 36) 0) as [Hz | Hnz].
    + cbn [spec.value36]. rewrite Hdig. f_equal. f_equal. lia.
    + rewrite IH.
      * cbn [spec.value36 String.length]. rewrite Hdig.
        rewrite Nat2Z.inj_succ, Z.pow_succ_r by lia. lia.
      * split; [apply Z.div_pos; lia|].
        apply Z.div_lt_upper_bound; [lia|].
        rewrite Nat2Z.inj_succ, Z.pow_succ_r in Hu by lia. lia.
Qed.

Lemma formatBits36_head (fuel : nat) : forall (u : Z) (acc : string),
  0 <= u ->
  exists d rest, 0 <= d < 36 /\ formatBits36 (S fuel) u acc = String (digit36 d) rest.
Proof.
  induction fuel as [|fuel IH]; intros u acc Hu.
  - exists (u mod 36). cbn [formatBits36].
    pose proof (Z.mod_pos_bound u 36 ltac:(lia)).
    destruct (u / 36 =? 0); eauto.
  - cbn [formatBits36]. pose proof (Z.mod_pos_bound u 36 ltac:(lia)).
    destruct (u / 36 =? 0) eqn:Hz; [eauto|].
    apply (IH (u / 36) (String (digit36 (u mod 36)) acc)).
    apply Z.div_pos; lia.
Qed.

Lemma append_cancel_l (prefix x y : string) : prefix +:+ x = prefix +:+ y -> x = y.
Proof.
  induction prefix as [|c prefix IH]; intros Heq; [exact Heq|].
  injection Heq as Heq. exact (IH Heq).
Qed.

Lemma FormatInt36_inj (i j : Z) :
  - 36 ^ 64 < i < 36 ^ 64 -> - 36 ^ 64 < j < 36 ^ 64 ->
  FormatInt36 i = FormatInt36 j -> i = j.
Proof.
  intros Hi Hj. unfold FormatInt36.
  assert (Hval : forall u, 0 <= u < 36 ^ 64 -> spec.value36 (formatBits36 64 u "") = u).
  { intros u Hu. rewrite value36_formatBits36 by exact Hu.
    cbn [String.length spec.value36]. change (36 ^ Z.of_nat 0) with 1. lia. }
  assert (Hhead : forall u x, 0 <= u -> formatBits36 64 u "" <> "-" +:+ x).
  { intros u x Hu Heq. destruct (formatBits36_head 63 u "" Hu) as (d & rest & Hd & Hf).
    rewrite Hf in Heq. injection Heq as Hc _.
    destruct (digitValue36_digit36 d Hd) as [_ Hne]. apply Hne. rewrite Hc. reflexivity. }
  destruct (Z.ltb_spec i 0) as [Hin | Hip]; destruct (Z.ltb_spec j 0) as [Hjn | Hjp].
  - generalize (Hval (- i) ltac:(lia)) (Hval (- j) ltac:(lia)).
    generalize (formatBits36 64 (- i) "") (formatBits36 64 (- j) "").
    intros x y Hx Hy Heq. apply append_cancel_l in Heq.
    rewrite Heq in Hx. lia.
  - intros Heq. exfalso. exact (Hhead j _ Hjp (eq_sym Heq)).
  - intros Heq. exfalso. exact (Hhead i _ Hip Heq).
  - intros Heq. rewrite <- (Hval i), <- (Hval j) by lia. rewrite Heq. reflexivity.
Qed.

(** X25.  [generateJobID] gives two clock readings in the range of [int64]
    the same job id exactly when they are the same nanosecond. *)
Theorem generateJobID_injective (now1 now2 : Time) :
  minInt64 <= now1 <= maxInt64 -> minInt64 <= now2 <= maxInt64 ->
  (server.generateJobID now1 = server.generateJobID now2 <-> now1 = now2).
Proof.
  intros H1 H2. split; [|intros ->; reflexivity].
  unfold server.generateJobID, UnixNano.
  generalize (FormatInt36_inj now1 now2).
  generalize (FormatInt36 now1) (FormatInt36 now2). intros x y Hinj Heq.
  apply append_cancel_l in Heq.
  assert (Hb : 2 ^ 63 < 36 ^ 64) by (vm_compute; reflexivity).
  unfold minInt64, maxInt64 in *.
  apply Hinj; [lia | lia | exact Heq].
Qed.

(** X25, witness: two readings one nanosecond apart. *)
Lemma generateJobID_injective_witness :
  (minInt64 <= t0 <= maxInt64 /\ minInt64 <= t0 + Nanosecond <= maxInt64)
  /\ (server.generateJobID t0 = server.generateJobID (t0 + Nanosecond)
      <-> t0 = t0 + Nanosecond).
Proof.
  assert (H1 : minInt64 <= t0 <= maxInt64) by (vm_compute; split; discriminate).
  assert (H2 : minInt64 <= t0 + Nanosecond <= maxInt64) by (vm_compute; split; discriminate).
  split; [exact (conj H1 H2)|].
  exact (generateJobID_injective t0 (t0 + Nanosecond) H1 H2).
Defined.
